(** * AI product recommender UI: workflow core

    A shallow embedding of the conversational workflow of the recommender
    front-end: the schema merger ([flattenRequirements],
    [mergeRequirementsWithSchema]), the API wrappers of [api.ts], the
    analysis pass and the message handler of the [AIRecommender] component,
    the send gate of [ChatInterface] and the filtering of [RightPanel]. *)

From Stdlib Require Import String Ascii List ZArith Bool Arith Lia.
From Stdlib Require Import DecimalString.
Import ListNotations.
Open Scope string_scope.
Open Scope list_scope.

Set Warnings "-register-all".

(** String concatenation, as in template literals and [+] on strings. *)
Infix "+++" := String.append (at level 60, right associativity).

(** ** JavaScript data *)

(** JSON data as the backend delivers it.  [undefined] is not a JSON value:
    a property read that may yield [undefined] has type [option value].
    Numbers are integers here. *)
Inductive value : Type :=
| VNull
| VBool (b : bool)
| VNum (n : Z)
| VStr (s : string)
| VArr (items : list value)
| VObj (fields : list (string * value)).

(** A plain object: its own enumerable properties in [Object.keys] order.
    A list in which a key occurs twice denotes no object; [wf_obj] says the
    keys are distinct.  (JavaScript lists integer-like keys first; the model
    keeps insertion order throughout, which changes no lookup.) *)
Definition obj : Type := list (string * value).

Definition wf_obj (o : obj) : Prop := NoDup (map fst o).

Definition inb (k : string) (l : list string) : bool :=
  existsb (String.eqb k) l.

(** The property names every plain object inherits from [Object.prototype]. *)
Definition object_prototype_keys : list string :=
  [ "constructor"; "__defineGetter__"; "__defineSetter__"; "hasOwnProperty";
    "__lookupGetter__"; "__lookupSetter__"; "isPrototypeOf";
    "propertyIsEnumerable"; "toString"; "valueOf"; "__proto__";
    "toLocaleString" ].

Fixpoint get_own (o : obj) (k : string) : option value :=
  match o with
  | [] => None
  | (k', v) :: rest => if String.eqb k k' then Some v else get_own rest k
  end.

Definition has_own (o : obj) (k : string) : bool :=
  match get_own o k with Some _ => true | None => false end.

(** [key in o] for a plain object [o]: own properties, then the prototype. *)
Definition has_property (o : obj) (k : string) : bool :=
  has_own o k || inb k object_prototype_keys.

Fixpoint replace_own (o : obj) (k : string) (v : value) : obj :=
  match o with
  | [] => []
  | (k', v') :: rest =>
      if String.eqb k k' then (k', v) :: rest else (k', v') :: replace_own rest k v
  end.

(** [o[k] = v] on a plain object.  An own property is overwritten in place, a
    new one is appended.  Writing [__proto__] without an own property of that
    name runs the inherited setter and creates no property (for an object
    value the setter also swaps the prototype, which the model does not
    follow: [no_own_proto] excludes such inputs). *)
Definition obj_set (o : obj) (k : string) (v : value) : obj :=
  if has_own o k then replace_own o k v
  else if String.eqb k "__proto__" then o
  else o ++ [(k, v)].

Definition string_of_nat (n : nat) : string :=
  NilEmpty.string_of_uint (Nat.to_uint n).

Fixpoint chars (s : string) : list string :=
  match s with
  | EmptyString => []
  | String c rest => String c EmptyString :: chars rest
  end.

Fixpoint index_from {A : Type} (i : nat) (l : list A) : list (string * A) :=
  match l with
  | [] => []
  | x :: rest => (string_of_nat i, x) :: index_from (S i) rest
  end.

(** The own enumerable properties [Object.keys] walks, with their values. *)
Definition own_entries (v : value) : obj :=
  match v with
  | VObj fields => fields
  | VArr items => index_from 0 items
  | VStr s => index_from 0 (map VStr (chars s))
  | VNull | VBool _ | VNum _ => []
  end.

Definition Object_keys (v : value) : list string := map fst (own_entries v).

(** [v[name]] / [v.name] for a non-null [v]; [None] is [undefined]. *)
Definition prop (v : value) (name : string) : option value :=
  get_own (own_entries v) name.

Definition truthy (v : value) : bool :=
  match v with
  | VNull => false
  | VBool b => b
  | VNum n => negb (Z.eqb n 0)
  | VStr s => negb (String.eqb s "")
  | VArr _ | VObj _ => true
  end.

(** [value !== null && value !== ""]. *)
Definition not_null_or_empty (v : value) : bool :=
  match v with
  | VNull => false
  | VStr s => negb (String.eqb s "")
  | _ => true
  end.

(** A requirement group without an own [__proto__] property, as
    [convertKeysToCamelCase] builds objects (its [acc[camelKey] = ...] cannot
    create one). *)
Definition no_own_proto (group : option value) : Prop :=
  match group with
  | Some r => has_own (own_entries r) "__proto__" = false
  | None => True
  end.

(** ** Schema merger (AIRecommender component) *)

Module RequirementSchema.
Record t : Type := mk {
  mandatoryRequirements : option value;
  optionalRequirements : option value
}.
End RequirementSchema.

(** The inner [process] of [flattenRequirements], with [flat] passed
    explicitly. *)
Definition process (reqs : option value) (flat : obj) : obj :=
  match reqs with
  | None => flat
  | Some r =>
      if negb (truthy r) then flat
      else
        fold_left
          (fun flat '(key, value) =>
             if not_null_or_empty value then obj_set flat key value else flat)
          (own_entries r) flat
  end.

Definition group_names : list string :=
  ["mandatoryRequirements"; "optionalRequirements"].

Definition flatten_top (flat : obj) (entry : string * value) : obj :=
  let '(key, v) := entry in
  if negb (inb key group_names) && negb (has_property flat key) then
    if not_null_or_empty v then obj_set flat key v else flat
  else flat.

Definition flattenRequirements (provided : option value) : obj :=
  match provided with
  | None => []
  | Some p =>
      if truthy p then
        let flat := process (prop p "mandatoryRequirements") [] in
        let flat := process (prop p "optionalRequirements") flat in
        fold_left flatten_top (own_entries p) flat
      else []
  end.

(** Inputs whose groups carry no own [__proto__]. *)
Definition proto_free (provided : option value) : Prop :=
  match provided with
  | Some p =>
      no_own_proto (prop p "mandatoryRequirements")
      /\ no_own_proto (prop p "optionalRequirements")
  | None => True
  end.

Definition group_keys (g : option value) : list string :=
  match g with
  | Some v => if truthy v then Object_keys v else []
  | None => []
  end.

Definition allKeys (schema : RequirementSchema.t) : list string :=
  group_keys (RequirementSchema.mandatoryRequirements schema)
  ++ group_keys (RequirementSchema.optionalRequirements schema).

Definition merge_key (merged : obj) (key : string) : obj :=
  if negb (has_property merged key) then obj_set merged key (VStr "") else merged.

Definition mergeRequirementsWithSchema
  (provided : obj) (schema : RequirementSchema.t) : obj :=
  let merged := provided in
  fold_left merge_key (allKeys schema) merged.


(** ** Domain records (types.ts) *)

Inductive WorkflowStep : Type :=
| greeting | initialInput | awaitMissingInfo | awaitOptional | awaitAdvanced
| confirmAfterMissingInfo | showSummary | finalAnalysis | analysisError
| default.

Definition WorkflowStep_eqb (a b : WorkflowStep) : bool :=
  match a, b with
  | greeting, greeting | initialInput, initialInput
  | awaitMissingInfo, awaitMissingInfo | awaitOptional, awaitOptional
  | awaitAdvanced, awaitAdvanced
  | confirmAfterMissingInfo, confirmAfterMissingInfo
  | showSummary, showSummary | finalAnalysis, finalAnalysis
  | analysisError, analysisError | default, default => true
  | _, _ => false
  end.

(** [T | null] with an optional field: absent, [null], or a value. *)
Inductive Nullable (A : Type) : Type :=
| JsUndefined
| JsNull
| JsValue (a : A).
Arguments JsUndefined {A}.
Arguments JsNull {A}.
Arguments JsValue {A} a.

(** Scores and ranks are JSON numbers; the model takes them as integers. *)
Module ProductMatch.
Record t : Type := mk {
  productName : string;
  vendor : string;
  matchScore : Z;
  requirementsMatch : bool;
  reasoning : string;
  limitations : string;
  imageUrl : option string
}.
End ProductMatch.

Module RankedProduct.
Record t : Type := mk {
  productType : string;
  rank : Z;
  productName : string;
  vendor : string;
  overallScore : Z;
  keyStrengths : string;
  concerns : string;
  requirementsMatch : bool;
  imageUrl : option string
}.
End RankedProduct.

Module VendorAnalysis.
Record t : Type := mk { vendorMatches : list ProductMatch.t }.
End VendorAnalysis.

Module OverallRanking.
Record t : Type := mk {
  markdownAnalysis : option value;
  rankedProducts : list RankedProduct.t
}.
End OverallRanking.

Module AnalysisResult.
Record t : Type := mk {
  productType : string;
  vendorAnalysis : VendorAnalysis.t;
  overallRanking : OverallRanking.t
}.
End AnalysisResult.

Module ValidationResult.
(** [validationAlert] is read only through its [message]. *)
Record t : Type := mk {
  validationAlert : option string;
  isComplete : bool;
  detectedSchema : option obj;
  providedRequirements : option value;
  productType : string
}.
End ValidationResult.

Inductive Intent : Type :=
| intent_greeting | knowledgeQuestion | productRequirements | workflow
| chitchat | other.

(** The steps the classifier may suggest as [nextStep]. *)
Inductive IntentNextStep : Type :=
| next_greeting | next_initialInput | next_awaitOptional | next_awaitAdvanced
| next_showSummary | next_finalAnalysis.

Definition step_of_next (n : IntentNextStep) : WorkflowStep :=
  match n with
  | next_greeting => greeting
  | next_initialInput => initialInput
  | next_awaitOptional => awaitOptional
  | next_awaitAdvanced => awaitAdvanced
  | next_showSummary => showSummary
  | next_finalAnalysis => finalAnalysis
  end.

Module IntentClassificationResult.
(** [nextStep : None] is [null]; [resumeWorkflow : None] is an absent
    field. *)
Record t : Type := mk {
  intent : Intent;
  nextStep : option IntentNextStep;
  resumeWorkflow : option bool
}.
End IntentClassificationResult.

Module AgentResponse.
Record t : Type := mk {
  content : string;
  nextStep : Nullable string;
  maintainWorkflow : option bool
}.
End AgentResponse.

Inductive MessageType : Type := user | assistant | feedback.

Module ChatMessage.
(** [id] stands for [Date.now().toString() + Math.random()...] and
    [timestamp] for [new Date()]: both are drawn from the session's [tick].
    [metadata] is never set by the embedded code and is left out. *)
Record t : Type := mk {
  id : nat;
  type : MessageType;
  content : string;
  timestamp : nat;
  role : option string
}.
End ChatMessage.

Module AppState.
Record t : Type := mk {
  messages : list ChatMessage.t;
  currentProductType : option string;
  validationResult : option ValidationResult.t;
  analysisResult : option AnalysisResult.t;
  requirementSchema : option RequirementSchema.t;
  isLoading : bool;
  inputValue : string;
  productType : string
}.
End AppState.

(** ** String built-ins *)

(** [String.prototype.trim] and [String.prototype.toLowerCase] are taken as
    an interface; [ascii_strings] below is an instance for ASCII text. *)
Class JsString : Type := {
  trim : string -> string;
  toLowerCase : string -> string
}.

Definition ascii_lower (c : ascii) : ascii :=
  let n := nat_of_ascii c in
  if ((65 <=? n) && (n <=? 90))%nat then ascii_of_nat (n + 32) else c.

Fixpoint ascii_toLowerCase (s : string) : string :=
  match s with
  | EmptyString => EmptyString
  | String c rest => String (ascii_lower c) (ascii_toLowerCase rest)
  end.

Definition is_ascii_space (c : ascii) : bool :=
  let n := nat_of_ascii c in
  ((n =? 32) || ((9 <=? n) && (n <=? 13)))%nat.

Fixpoint trim_start (s : string) : string :=
  match s with
  | EmptyString => EmptyString
  | String c rest => if is_ascii_space c then trim_start rest else s
  end.

Fixpoint trim_end (s : string) : string :=
  match s with
  | EmptyString => EmptyString
  | String c rest =>
      match trim_end rest with
      | EmptyString => if is_ascii_space c then EmptyString else String c EmptyString
      | kept => String c kept
      end
  end.

Definition ascii_trim (s : string) : string := trim_end (trim_start s).

Definition ascii_strings : JsString :=
  {| trim := ascii_trim; toLowerCase := ascii_toLowerCase |}.

(** ** State passing *)

Definition State (S A : Type) : Type := S -> A * S.

Definition ret {S A : Type} (a : A) : State S A := fun s => (a, s).

Definition bind {S A B : Type} (m : State S A) (k : A -> State S B) : State S B :=
  fun s => let (a, s') := m s in k a s'.

Declare Scope state_scope.
Delimit Scope state_scope with state.
Notation "x <- m ;; k" := (bind m (fun x => k))
  (at level 61, m at next level, right associativity) : state_scope.
Notation "m ;; k" := (bind m (fun _ => k))
  (at level 61, right associativity) : state_scope.
Open Scope state_scope.

(** ** API wrappers (api.ts) *)

(** The character class [[\\_-]]: backslash, underscore, hyphen. *)
Definition is_separator (c : ascii) : bool :=
  let n := nat_of_ascii c in
  ((n =? 92) || (n =? 95) || (n =? 45))%nat.

(** [input.replace(/[\\_-]/g, "")]. *)
Fixpoint strip_separators (s : string) : string :=
  match s with
  | EmptyString => EmptyString
  | String c rest =>
      if is_separator c then strip_separators rest
      else String c (strip_separators rest)
  end.

Definition normalizeUserInput `{JsString} (input : string) : string :=
  toLowerCase (strip_separators input).

Module AxiosError.
(** What the wrappers read of a rejected request:
    [error.response?.data?.error] ([None] when undefined) and
    [error.message]. *)
Record t : Type := mk {
  response_data_error : option string;
  message : string
}.
End AxiosError.

(** [x || fallback] for an optional string. *)
Definition or_else (x : option string) (fallback : string) : string :=
  match x with
  | Some s => if String.eqb s "" then fallback else s
  | None => fallback
  end.

(** Outcome of one HTTP exchange. *)
Inductive Transport (A : Type) : Type :=
| Response (data : A)
| NetworkError (error : AxiosError.t).
Arguments Response {A} data.
Arguments NetworkError {A} error.

(** A settled promise; [Rejected msg] is rejection with [new Error(msg)]. *)
Inductive Settled (A : Type) : Type :=
| Fulfilled (v : A)
| Rejected (message : string).
Arguments Fulfilled {A} v.
Arguments Rejected {A} message.

(** The [dataContext] objects the embedded callers pass to the sales agent. *)
Inductive DataContext : Type :=
| CtxEmpty
| CtxAnalysis (analysisResult : AnalysisResult.t)
| CtxKnowledge (productType : string) (collectedData : obj).

Inductive Request : Type :=
| PostIntent (userInput : string)
| PostSalesAgent (step : WorkflowStep) (dataContext : DataContext)
    (userMessage : string) (intent : option string)
| PostValidate (user_input : string) (is_repeat : bool) (product_type : option string)
| PostAnalyze (user_input : string)
| PostStructure (full_input : string).

(** The backend, an external oracle: what each endpoint answers to a request
    body (already converted by [convertKeysToCamelCase] and typed as in
    types.ts). *)
Class Backend : Type := {
  backend_intent : string -> Transport IntentClassificationResult.t;
  backend_sales_agent :
    WorkflowStep -> DataContext -> string -> option string -> Transport AgentResponse.t;
  backend_validate : string -> bool -> option string -> Transport ValidationResult.t;
  backend_analyze : string -> Transport AnalysisResult.t;
  backend_structure : string -> Transport string
}.

Module ApiState.
(** Module state of api.ts ([hasValidatedOnce]) and the requests sent so
    far, oldest first. *)
Record t : Type := mk {
  hasValidatedOnce : bool;
  requests : list Request
}.
End ApiState.

Definition Api (A : Type) : Type := State ApiState.t A.

(** [axios.post]: the request leaves, the backend answers. *)
Definition axios_post {A : Type} (req : Request) (answer : Transport A)
  : Api (Transport A) :=
  fun st =>
    (answer,
     ApiState.mk (ApiState.hasValidatedOnce st) (ApiState.requests st ++ [req])).

Definition set_hasValidatedOnce (b : bool) : Api unit :=
  fun st => (tt, ApiState.mk b (ApiState.requests st)).

Definition get_hasValidatedOnce : Api bool :=
  fun st => (ApiState.hasValidatedOnce st, st).

Definition validateRequirements `{JsString} `{Backend}
  (userInput : string) (productType : option string)
  : Api (Settled ValidationResult.t) :=
  let normalizedInput := normalizeUserInput userInput in
  is_repeat <- get_hasValidatedOnce ;;
  let product_type :=
    match productType with
    | Some p => if String.eqb p "" then None else Some p
    | None => None
    end in
  response <- axios_post (PostValidate normalizedInput is_repeat product_type)
                (backend_validate normalizedInput is_repeat product_type) ;;
  match response with
  | Response data =>
      set_hasValidatedOnce true ;;
      ret (Fulfilled data)
  | NetworkError error =>
      ret (Rejected (or_else (AxiosError.response_data_error error) "Validation failed"))
  end.

Definition analyzeProducts `{JsString} `{Backend} (userInput : string)
  : Api (Settled AnalysisResult.t) :=
  let normalizedInput := normalizeUserInput userInput in
  response <- axios_post (PostAnalyze normalizedInput) (backend_analyze normalizedInput) ;;
  match response with
  | Response data => ret (Fulfilled data)
  | NetworkError error =>
      ret (Rejected (or_else (AxiosError.response_data_error error) "Analysis failed"))
  end.

Definition structureRequirements `{JsString} `{Backend} (fullInput : string)
  : Api (Settled string) :=
  let normalizedInput := normalizeUserInput fullInput in
  response <- axios_post (PostStructure normalizedInput) (backend_structure normalizedInput) ;;
  match response with
  | Response data => ret (Fulfilled data)
  | NetworkError error =>
      ret (Rejected
             (or_else (AxiosError.response_data_error error) "Requirement structuring failed"))
  end.

Definition intent_fallback : IntentClassificationResult.t :=
  IntentClassificationResult.mk other None (Some false).

Definition classifyIntent `{Backend} (userInput : string)
  : Api (Settled IntentClassificationResult.t) :=
  response <- axios_post (PostIntent userInput) (backend_intent userInput) ;;
  match response with
  | Response data => ret (Fulfilled data)
  | NetworkError _ => ret (Fulfilled intent_fallback)
  end.

Definition agent_apology : string :=
  "I'm having trouble connecting to my brain right now. Please try again in a moment.".

Definition generateAgentResponse `{Backend}
  (step : WorkflowStep) (dataContext : DataContext) (userMessage : string)
  (intent : option string) : Api (Settled AgentResponse.t) :=
  response <- axios_post (PostSalesAgent step dataContext userMessage intent)
                (backend_sales_agent step dataContext userMessage intent) ;;
  match response with
  | Response data =>
      ret (Fulfilled
             (AgentResponse.mk (AgentResponse.content data)
                (AgentResponse.nextStep data) (AgentResponse.maintainWorkflow data)))
  | NetworkError _ =>
      ret (Fulfilled (AgentResponse.mk agent_apology JsNull None))
  end.

(** ** The AIRecommender component *)

Module Toast.
Record t : Type := mk { title : string; description : string }.
End Toast.

Module World.
(** The component's hooks ([state], [collectedData], [currentStep],
    [isStreaming]), the toasts shown, the supply of message ids and the
    state of the API module.  Hooks the embedded functions never touch
    (advanced parameters, auto-submit flag, layout) are left out. *)
Record t : Type := mk {
  state : AppState.t;
  collectedData : obj;
  currentStep : WorkflowStep;
  isStreaming : bool;
  toasts : list Toast.t;
  tick : nat;
  api : ApiState.t
}.
End World.

Definition Async (A : Type) : Type := State World.t A.

Definition liftApi {A : Type} (m : Api A) : Async A :=
  fun w =>
    let (a, st) := m (World.api w) in
    (a, World.mk (World.state w) (World.collectedData w) (World.currentStep w)
          (World.isStreaming w) (World.toasts w) (World.tick w) st).

Definition setState (f : AppState.t -> AppState.t) : Async unit :=
  fun w =>
    (tt, World.mk (f (World.state w)) (World.collectedData w) (World.currentStep w)
           (World.isStreaming w) (World.toasts w) (World.tick w) (World.api w)).

Definition setCurrentStep (step : WorkflowStep) : Async unit :=
  fun w =>
    (tt, World.mk (World.state w) (World.collectedData w) step
           (World.isStreaming w) (World.toasts w) (World.tick w) (World.api w)).

Definition setIsStreaming (b : bool) : Async unit :=
  fun w =>
    (tt, World.mk (World.state w) (World.collectedData w) (World.currentStep w)
           b (World.toasts w) (World.tick w) (World.api w)).

Definition toast (t : Toast.t) : Async unit :=
  fun w =>
    (tt, World.mk (World.state w) (World.collectedData w) (World.currentStep w)
           (World.isStreaming w) (World.toasts w ++ [t]) (World.tick w) (World.api w)).

Definition fresh_tick : Async nat :=
  fun w =>
    (World.tick w,
     World.mk (World.state w) (World.collectedData w) (World.currentStep w)
       (World.isStreaming w) (World.toasts w) (S (World.tick w)) (World.api w)).

(** Field updates of [setState((prev) => ({ ...prev, ... }))]. *)
Definition with_messages (f : list ChatMessage.t -> list ChatMessage.t)
  (prev : AppState.t) : AppState.t :=
  AppState.mk (f (AppState.messages prev)) (AppState.currentProductType prev)
    (AppState.validationResult prev) (AppState.analysisResult prev)
    (AppState.requirementSchema prev) (AppState.isLoading prev)
    (AppState.inputValue prev) (AppState.productType prev).

Definition with_isLoading (b : bool) (prev : AppState.t) : AppState.t :=
  AppState.mk (AppState.messages prev) (AppState.currentProductType prev)
    (AppState.validationResult prev) (AppState.analysisResult prev)
    (AppState.requirementSchema prev) b
    (AppState.inputValue prev) (AppState.productType prev).

Definition with_inputValue (v : string) (prev : AppState.t) : AppState.t :=
  AppState.mk (AppState.messages prev) (AppState.currentProductType prev)
    (AppState.validationResult prev) (AppState.analysisResult prev)
    (AppState.requirementSchema prev) (AppState.isLoading prev)
    v (AppState.productType prev).

Definition with_analysisResult (a : option AnalysisResult.t) (prev : AppState.t)
  : AppState.t :=
  AppState.mk (AppState.messages prev) (AppState.currentProductType prev)
    (AppState.validationResult prev) a
    (AppState.requirementSchema prev) (AppState.isLoading prev)
    (AppState.inputValue prev) (AppState.productType prev).

Definition addMessage (type : MessageType) (content : string) (role : option string)
  : Async ChatMessage.t :=
  now <- fresh_tick ;;
  let newMessage := ChatMessage.mk now type content now role in
  setState (with_messages (fun messages => messages ++ [newMessage])) ;;
  ret newMessage.

(** [messages.map((msg) => msg.id === id ? { ...msg, content: newContent } : msg)]. *)
Definition set_content (id : nat) (newContent : string) (messages : list ChatMessage.t)
  : list ChatMessage.t :=
  map (fun msg =>
         if Nat.eqb (ChatMessage.id msg) id then
           ChatMessage.mk (ChatMessage.id msg) (ChatMessage.type msg) newContent
             (ChatMessage.timestamp msg) (ChatMessage.role msg)
         else msg)
    messages.

Definition updateMessage (id : nat) (newContent : string) : Async unit :=
  setState (with_messages (set_content id newContent)).

(** The reveal loop of [streamAssistantMessage]: [current] grows by one
    character of the remaining text per round. *)
Fixpoint stream_loop (id : nat) (current rest : string) : Async unit :=
  match rest with
  | EmptyString => ret tt
  | String c rest' =>
      let current := current +++ String c EmptyString in
      updateMessage id current ;;
      stream_loop id current rest'
  end.

Definition streamAssistantMessage (fullText : string) : Async nat :=
  setIsStreaming true ;;
  msg <- addMessage assistant "" None ;;
  stream_loop (ChatMessage.id msg) "" fullText ;;
  setIsStreaming false ;;
  ret (ChatMessage.id msg).

(** *** composeUserDataString *)

Definition string_of_Z (n : Z) : string := NilEmpty.string_of_int (Z.to_int n).

(** [String(v)], as template literals and [join] apply it. *)
Fixpoint toString (v : value) : string :=
  match v with
  | VNull => "null"
  | VBool true => "true"
  | VBool false => "false"
  | VNum n => string_of_Z n
  | VStr s => s
  | VArr items =>
      String.concat ","
        (map (fun x => match x with VNull => "" | _ => toString x end) items)
  | VObj _ => "[object Object]"
  end.

(** [items.join(sep)]. *)
Definition array_join (sep : string) (items : list value) : string :=
  String.concat sep (map (fun x => match x with VNull => "" | _ => toString x end) items).

Definition entry_text (entry : string * value) : string :=
  let '(k, v) := entry in
  match v with
  | VArr items => k +++ ": " +++ array_join ", " items
  | _ => k +++ ": " +++ toString v
  end.

Definition compose_part (parts : list string) (entry : string * value) : list string :=
  let '(key, value) := entry in
  if String.eqb key "productType" then parts
  else if not_null_or_empty value then
    match value with
    | VArr _ | VObj _ =>
        parts ++ [String.concat ". " (map entry_text (own_entries value))]
    | _ => parts ++ [key +++ ": " +++ toString value]
    end
  else parts.

Definition composeUserDataString (data : obj) : string :=
  let parts :=
    match get_own data "productType" with
    | Some pt => if truthy pt then ["Product Type: " +++ toString pt] else []
    | None => []
    end in
  String.concat ". " (fold_left compose_part data parts).

(** *** performAnalysis *)

Definition threshold : Z := 80.

Definition highScoringProducts (analysis : AnalysisResult.t) : list RankedProduct.t :=
  filter
    (fun p => (threshold <=? RankedProduct.overallScore p)%Z
              && RankedProduct.requirementsMatch p)
    (OverallRanking.rankedProducts (AnalysisResult.overallRanking analysis)).

(** The [catch] block of [performAnalysis]. *)
Definition performAnalysis_catch `{Backend} : Async (Settled unit) :=
  llmResponse <- liftApi (generateAgentResponse analysisError CtxEmpty
                            "An error occurred during final analysis." None) ;;
  match llmResponse with
  | Fulfilled llmResponse =>
      streamAssistantMessage (AgentResponse.content llmResponse) ;;
      setState (with_isLoading false) ;;
      setCurrentStep analysisError ;;
      ret (Fulfilled tt)
  | Rejected e => ret (Rejected e)
  end.

(** [productType] and [collectedData] are the values the callback closed
    over ([state.productType], [collectedData] of the render that built it). *)
Definition fullInputStr (productType : string) (collectedData : obj) : string :=
  "Product Type: " +++ productType +++ ". " +++ composeUserDataString collectedData.

Definition performAnalysis `{JsString} `{Backend}
  (productType : string) (collectedData : obj) : Async (Settled unit) :=
  setState (with_isLoading true) ;;
  analysis <- liftApi (analyzeProducts (fullInputStr productType collectedData)) ;;
  match analysis with
  | Fulfilled analysis =>
      let count := length (highScoringProducts analysis) in
      llmResponse <- liftApi (generateAgentResponse finalAnalysis (CtxAnalysis analysis)
                                ("Analysis complete. Found " +++ string_of_nat count
                                 +++ " matching products.") None) ;;
      match llmResponse with
      | Fulfilled llmResponse =>
          streamAssistantMessage (AgentResponse.content llmResponse) ;;
          setState (fun prev => with_isLoading false (with_analysisResult (Some analysis) prev)) ;;
          setCurrentStep initialInput ;;
          toast (Toast.mk "Analysis Complete"
                   ("Found " +++ string_of_nat count +++ " matching products.")) ;;
          ret (Fulfilled tt)
      | Rejected _ => performAnalysis_catch
      end
  | Rejected _ => performAnalysis_catch
  end.

(** [handleRetry]: the callback of the current render. *)
Definition handleRetry `{JsString} `{Backend} : Async (Settled unit) :=
  fun w =>
    performAnalysis (AppState.productType (World.state w)) (World.collectedData w) w.

(** *** handleSendMessage *)

(** Where one call of [handleSendMessage] goes.  The handler is followed up
    to the [switch] case it selects; the bodies of the cases are not part of
    this development. *)
Inductive Dispatch : Type :=
| IgnoredEmpty
| AnsweredKnowledge
| DirectSummary
| SwitchOn (targetStep : WorkflowStep)
| CaughtError.

Definition Intent_eqb (a b : Intent) : bool :=
  match a, b with
  | intent_greeting, intent_greeting | knowledgeQuestion, knowledgeQuestion
  | productRequirements, productRequirements | workflow, workflow
  | chitchat, chitchat | other, other => true
  | _, _ => false
  end.

(** [let targetStep = intentResult.nextStep || currentStep], then the
    override for [productRequirements]. *)
Definition targetStep_of (currentStep : WorkflowStep)
  (intentResult : IntentClassificationResult.t) : WorkflowStep :=
  let targetStep :=
    match IntentClassificationResult.nextStep intentResult with
    | Some n => step_of_next n
    | None => currentStep
    end in
  if Intent_eqb (IntentClassificationResult.intent intentResult) productRequirements
  then initialInput
  else targetStep.

(** The outer [catch] of [handleSendMessage]. *)
Definition handleSendMessage_catch : Async Dispatch :=
  streamAssistantMessage
    "I'm sorry, there was an error processing your message. Please try again." ;;
  setState (with_isLoading false) ;;
  ret CaughtError.

Definition handleSendMessage `{JsString} `{Backend} (userInput : string)
  : Async Dispatch :=
  fun w =>
    let currentStep := World.currentStep w in
    let collectedData := World.collectedData w in
    let productType := AppState.productType (World.state w) in
    let trimmedInput := trim userInput in
    if String.eqb trimmedInput "" then (IgnoredEmpty, w)
    else
      (addMessage user trimmedInput None ;;
       setState (fun prev => with_isLoading true (with_inputValue "" prev)) ;;
       intentResult <- liftApi (classifyIntent trimmedInput) ;;
       match intentResult with
       | Rejected _ => handleSendMessage_catch
       | Fulfilled intentResult =>
           if Intent_eqb (IntentClassificationResult.intent intentResult) knowledgeQuestion
           then
             agentResponse <- liftApi (generateAgentResponse currentStep
                                         (CtxKnowledge productType collectedData)
                                         trimmedInput (Some "knowledgeQuestion")) ;;
             match agentResponse with
             | Rejected _ => handleSendMessage_catch
             | Fulfilled agentResponse =>
                 streamAssistantMessage (AgentResponse.content agentResponse) ;;
                 setState (with_isLoading false) ;;
                 ret AnsweredKnowledge
             end
           else
             let targetStep := targetStep_of currentStep intentResult in
             if WorkflowStep_eqb targetStep showSummary
                && WorkflowStep_eqb currentStep awaitAdvanced
             then ret DirectSummary
             else ret (SwitchOn targetStep)
       end) w.

(** ** RightPanel: the results ranking view *)

(** [`${vendor}-${productName}`]. *)
Definition product_key (vendor productName : string) : string :=
  vendor +++ "-" +++ productName.

(** A [Map<string, boolean>] in insertion order. *)
Definition MatchMap : Type := list (string * bool).

Fixpoint Map_get (m : MatchMap) (k : string) : option bool :=
  match m with
  | [] => None
  | (k', b) :: rest => if String.eqb k k' then Some b else Map_get rest k
  end.

Fixpoint Map_set (m : MatchMap) (k : string) (b : bool) : MatchMap :=
  match m with
  | [] => [(k, b)]
  | (k', b') :: rest =>
      if String.eqb k k' then (k', b) :: rest else (k', b') :: Map_set rest k b
  end.

Definition requirementsMatchMap (analysisResult : option AnalysisResult.t) : MatchMap :=
  match analysisResult with
  | None => []
  | Some a =>
      fold_left
        (fun map match_ =>
           Map_set map
             (product_key (ProductMatch.vendor match_) (ProductMatch.productName match_))
             (ProductMatch.requirementsMatch match_))
        (VendorAnalysis.vendorMatches (AnalysisResult.vendorAnalysis a)) []
  end.

(** [requirementsMatchMap.get(key) ?? product.requirementsMatch]. *)
Definition effective_match (map : MatchMap) (product : RankedProduct.t) : bool :=
  match Map_get map
          (product_key (RankedProduct.vendor product) (RankedProduct.productName product))
  with
  | Some b => b
  | None => RankedProduct.requirementsMatch product
  end.

(** [l.map((x, index) => f x index)], counting from [index]. *)
Fixpoint map_index {A B : Type} (f : A -> nat -> B) (index : nat) (l : list A) : list B :=
  match l with
  | [] => []
  | x :: rest => f x index :: map_index f (S index) rest
  end.

Definition renumber (map : MatchMap) (product : RankedProduct.t) (index : nat)
  : RankedProduct.t :=
  RankedProduct.mk (RankedProduct.productType product)
    (Z.of_nat index + 1)
    (RankedProduct.productName product) (RankedProduct.vendor product)
    (RankedProduct.overallScore product) (RankedProduct.keyStrengths product)
    (RankedProduct.concerns product)
    (effective_match map product)
    (RankedProduct.imageUrl product).

Definition filteredAnalysisResult (analysisResult : option AnalysisResult.t)
  : option AnalysisResult.t :=
  match analysisResult with
  | None => None
  | Some a =>
      let map := requirementsMatchMap analysisResult in
      Some
        (AnalysisResult.mk (AnalysisResult.productType a)
           (VendorAnalysis.mk
              (filter ProductMatch.requirementsMatch
                 (VendorAnalysis.vendorMatches (AnalysisResult.vendorAnalysis a))))
           (OverallRanking.mk
              (OverallRanking.markdownAnalysis (AnalysisResult.overallRanking a))
              (map_index (renumber map) 0
                 (filter (effective_match map)
                    (OverallRanking.rankedProducts (AnalysisResult.overallRanking a))))))
  end.

(** What [RightPanel] returns (the dock/expand button, present in every
    case, is not shown): the early return for no matches, and the main
    return with its docked and expanded bodies. *)
Inductive PanelView : Type :=
| MinimalDockedPanel
| DockedSummary
| ResultsView (finalAnalysisResult : AnalysisResult.t).

Definition RightPanel (analysisResult : option AnalysisResult.t) (isDocked : bool)
  : PanelView :=
  match filteredAnalysisResult analysisResult with
  | None => MinimalDockedPanel
  | Some finalAnalysisResult =>
      if Nat.eqb
           (length (VendorAnalysis.vendorMatches
                      (AnalysisResult.vendorAnalysis finalAnalysisResult))) 0
      then MinimalDockedPanel
      else if isDocked then DockedSummary
      else ResultsView finalAnalysisResult
  end.

(** ** ChatInterface: the send gate *)

(** The [currentStep] prop: the workflow steps and ["finalConfirmation"]. *)
Inductive ChatStep : Type :=
| step (s : WorkflowStep)
| finalConfirmation.

Definition is_finalAnalysis (s : ChatStep) : bool :=
  match s with
  | step finalAnalysis => true
  | _ => false
  end.

Module ChatInterfaceProps.
(** The props the input area reads. *)
Record t : Type := mk {
  isLoading : bool;
  isStreaming : bool;
  inputValue : string;
  currentStep : ChatStep
}.
End ChatInterfaceProps.

(** What [handleSend] does: the "Input required" toast, nothing, or
    [onSendMessage(trimmedInput)] followed by clearing the input. *)
Inductive SendEffect : Type :=
| ToastInputRequired
| NothingSent
| SendMessage (trimmedInput : string).

Definition handleSend `{JsString} (props : ChatInterfaceProps.t) : SendEffect :=
  let trimmedInput := trim (ChatInterfaceProps.inputValue props) in
  if String.eqb trimmedInput "" then ToastInputRequired
  else if ChatInterfaceProps.isLoading props then NothingSent
  else SendMessage trimmedInput.

Definition handleKeyDown `{JsString} (key : string) (shiftKey : bool)
  (props : ChatInterfaceProps.t) : option SendEffect :=
  if String.eqb key "Enter" && negb shiftKey then Some (handleSend props) else None.

(** The [disabled] attributes of the Send button and of the textarea. *)
Definition send_button_disabled `{JsString} (props : ChatInterfaceProps.t) : bool :=
  String.eqb (trim (ChatInterfaceProps.inputValue props)) ""
  || ChatInterfaceProps.isLoading props
  || is_finalAnalysis (ChatInterfaceProps.currentStep props).

Definition textarea_disabled (props : ChatInterfaceProps.t) : bool :=
  is_finalAnalysis (ChatInterfaceProps.currentStep props).

(** The typing indicator, the one place [isStreaming] is read. *)
Definition shows_bouncing_dots (props : ChatInterfaceProps.t) : bool :=
  ChatInterfaceProps.isLoading props && negb (ChatInterfaceProps.isStreaming props).

Inductive InputEvent : Type :=
| ClickSend
| KeyDown (key : string) (shiftKey : bool).

(** A disabled control delivers no event. *)
Definition on_input_event `{JsString} (props : ChatInterfaceProps.t) (ev : InputEvent)
  : option SendEffect :=
  match ev with
  | ClickSend => if send_button_disabled props then None else Some (handleSend props)
  | KeyDown key shiftKey =>
      if textarea_disabled props then None else handleKeyDown key shiftKey props
  end.

(** The message handed to [onSendMessage], if any. *)
Definition message_sent `{JsString} (props : ChatInterfaceProps.t) (ev : InputEvent)
  : option string :=
  match on_input_event props ev with
  | Some (SendMessage m) => Some m
  | _ => None
  end.

(** ** Vocabulary of the statements *)

Definition classify_reply `{Backend} (userInput : string) : IntentClassificationResult.t :=
  match backend_intent userInput with
  | Response data => data
  | NetworkError _ => intent_fallback
  end.

Definition agent_reply `{Backend} (step : WorkflowStep) (dataContext : DataContext)
  (userMessage : string) (intent : option string) : AgentResponse.t :=
  match backend_sales_agent step dataContext userMessage intent with
  | Response data => data
  | NetworkError _ => AgentResponse.mk agent_apology JsNull None
  end.

(** Message ids in use lie below the next id: ids do not collide. *)
Definition ids_fresh (w : World.t) : Prop :=
  Forall (fun msg => ChatMessage.id msg < World.tick w)
    (AppState.messages (World.state w)).

(** No key is a group name or names a member of [Object.prototype]. *)
Definition ordinary_keys (o : obj) : Prop :=
  Forall (fun k => inb k group_names = false /\ inb k object_prototype_keys = false)
    (map fst o).

Definition no_null_or_empty (o : obj) : Prop :=
  Forall (fun e => not_null_or_empty (snd e) = true) o.

(** The shape of an already-flat result. *)
Definition flat_shaped (o : obj) : Prop :=
  wf_obj o /\ ordinary_keys o /\ no_null_or_empty o.

(** What every result of [flattenRequirements] satisfies. *)
Definition flat_invariant (o : obj) : Prop := wf_obj o /\ no_null_or_empty o.

(** The last vendor match filed under a key. *)
Definition last_match (k : string) (vendorMatches : list ProductMatch.t)
  : option ProductMatch.t :=
  find (fun m => String.eqb k
                   (product_key (ProductMatch.vendor m) (ProductMatch.productName m)))
    (rev vendorMatches).

(** What stays the same of a ranked product when it is renumbered. *)
Definition product_identity (p : RankedProduct.t)
  : string * string * string * Z * string * string * option string :=
  (RankedProduct.productType p, RankedProduct.productName p, RankedProduct.vendor p,
   RankedProduct.overallScore p, RankedProduct.keyStrengths p, RankedProduct.concerns p,
   RankedProduct.imageUrl p).

(** ** Sample sessions, backends and data *)

Definition network_down : AxiosError.t := AxiosError.mk None "Network Error".

(** The session at mount. *)
Definition initial_world : World.t :=
  World.mk (AppState.mk [] None None None None false "" "")
    [] greeting false [] 0 (ApiState.mk false []).

Definition nested_group : value :=
  VObj [("mandatoryRequirements",
         VObj [("optionalRequirements", VObj [("a", VStr "1")])])].

Definition sample_requirements : value :=
  VObj [("mandatoryRequirements",
         VObj [("pressureRange", VStr "0-100 bar"); ("outputSignal", VStr "")]);
        ("optionalRequirements", VObj [("accuracy", VNull)]);
        ("housing", VStr "steel")].

(** A backend whose sales agent answers with empty text. *)
Definition empty_reply_backend : Backend :=
  {| backend_intent := fun _ => Response (IntentClassificationResult.mk other None None);
     backend_sales_agent := fun _ _ _ _ => Response (AgentResponse.mk "" JsUndefined None);
     backend_validate := fun _ _ _ => NetworkError network_down;
     backend_analyze := fun _ => NetworkError network_down;
     backend_structure := fun _ => NetworkError network_down |}.

(** A classifier that reports new requirements and suggests [showSummary]. *)
Definition requirements_backend : Backend :=
  {| backend_intent :=
       fun _ => Response
                  (IntentClassificationResult.mk productRequirements
                     (Some next_showSummary) None);
     backend_sales_agent := fun _ _ _ _ => NetworkError network_down;
     backend_validate := fun _ _ _ => NetworkError network_down;
     backend_analyze := fun _ => NetworkError network_down;
     backend_structure := fun _ => NetworkError network_down |}.

Definition advanced_world : World.t :=
  World.mk (AppState.mk [] (Some "pressure transmitter") None None None false
              "I need a flow meter" "pressure transmitter")
    [("pressureRange", VStr "0-100 bar")] awaitAdvanced false [] 0
    (ApiState.mk true []).

(** A classifier that reports a knowledge question, and an agent that
    answers it. *)
Definition knowledge_backend : Backend :=
  {| backend_intent :=
       fun _ => Response (IntentClassificationResult.mk knowledgeQuestion None None);
     backend_sales_agent :=
       fun _ _ _ _ =>
         Response (AgentResponse.mk "HART is a field protocol." JsUndefined None);
     backend_validate := fun _ _ _ => NetworkError network_down;
     backend_analyze := fun _ => NetworkError network_down;
     backend_structure := fun _ => NetworkError network_down |}.

Definition asking_world : World.t :=
  World.mk (AppState.mk [] (Some "pressure transmitter") None None None false
              "What is HART?" "pressure transmitter")
    [("pressureRange", VStr "0-100 bar")] awaitOptional false [] 0
    (ApiState.mk true []).

Definition high_score_no_match : RankedProduct.t :=
  RankedProduct.mk "pressure transmitter" 1 "PT-100" "Acme" 90
    "accurate" "no HART output" false None.

Definition high_score_match : RankedProduct.t :=
  RankedProduct.mk "pressure transmitter" 2 "PX-7" "Borel" 85
    "HART output" "none" true None.

Definition sample_analysis : AnalysisResult.t :=
  AnalysisResult.mk "pressure transmitter"
    (VendorAnalysis.mk [])
    (OverallRanking.mk None [high_score_no_match; high_score_match]).

(** An analysis that ranks two products, and an agent that echoes what it
    is told. *)
Definition analysis_backend : Backend :=
  {| backend_intent := fun _ => NetworkError network_down;
     backend_sales_agent :=
       fun _ _ userMessage _ => Response (AgentResponse.mk userMessage JsUndefined None);
     backend_validate := fun _ _ _ => NetworkError network_down;
     backend_analyze := fun _ => Response sample_analysis;
     backend_structure := fun _ => NetworkError network_down |}.

(** The vendor matches contradict the flags of the ranked products. *)
Definition overridden_analysis : AnalysisResult.t :=
  AnalysisResult.mk "pressure transmitter"
    (VendorAnalysis.mk
       [ProductMatch.mk "PX-7" "Borel" 85 false "misses the range" "none" None;
        ProductMatch.mk "PT-100" "Acme" 90 true "meets all" "none" None])
    (OverallRanking.mk None [high_score_no_match; high_score_match]).

Definition docked_analysis : AnalysisResult.t :=
  AnalysisResult.mk "pressure transmitter"
    (VendorAnalysis.mk
       [ProductMatch.mk "PX-7" "Borel" 85 true "meets all" "none" None])
    (OverallRanking.mk None [high_score_match]).

Definition streaming_props : ChatInterfaceProps.t :=
  ChatInterfaceProps.mk false true "and the accuracy?" (step awaitOptional).

(** * Further code of the cited files *)

(** ** Merging new requirements into the collected data *)

(** Defining a property, as an object spread does: no setter runs, so even
    [__proto__] becomes an own property. *)
Definition obj_define (o : obj) (k : string) (v : value) : obj :=
  if has_own o k then replace_own o k v else o ++ [(k, v)].

(** [{ ...a, ...b }]. *)
Definition spread (a b : obj) : obj :=
  fold_left (fun acc '(k, v) => obj_define acc k v) b a.

(** [mergeRequirementsWithSchema({ ...collectedData, ...newFlatRequirements },
    state.requirementSchema!)] with [newFlatRequirements =
    flattenRequirements(providedRequirements)], as the [awaitOptional] and
    [awaitMissingInfo] branches compute [updatedData].  [None] is the
    [TypeError] of reading a group of a [null] schema. *)
Definition updatedData (collectedData : obj) (providedRequirements : option value)
  (requirementSchema : option RequirementSchema.t) : option obj :=
  let newFlatRequirements := flattenRequirements providedRequirements in
  match requirementSchema with
  | None => None
  | Some schema =>
      Some (mergeRequirementsWithSchema (spread collectedData newFlatRequirements) schema)
  end.

(** What a requirement group contributes under a key: its value there,
    unless that is [null] or [""]. *)
Definition group_value (group : option obj) (k : string) : option value :=
  match group with
  | Some g =>
      match get_own g k with
      | Some v => if not_null_or_empty v then Some v else None
      | None => None
      end
  | None => None
  end.

(** A requirement group that is absent or an object with distinct keys and
    no own [__proto__]. *)
Definition clean_group (group : option obj) : Prop :=
  match group with
  | Some g => wf_obj g /\ has_own g "__proto__" = false
  | None => True
  end.

(** ** convertKeysToCamelCase (api.ts) *)

(** The classes [[-_]] and [[a-z]] of the key pattern [/([-_][a-z])/g]. *)
Definition is_dash_or_underscore (c : ascii) : bool :=
  let n := nat_of_ascii c in ((n =? 45) || (n =? 95))%nat.

Definition is_lower_az (c : ascii) : bool :=
  let n := nat_of_ascii c in ((97 <=? n) && (n <=? 122))%nat.

(** [toUpperCase] on a letter of [[a-z]]. *)
Definition upper_az (c : ascii) : ascii := ascii_of_nat (nat_of_ascii c - 32).

(** [key.replace(/([-_][a-z])/g, (group) =>
    group.toUpperCase().replace("-", "").replace("_", ""))]: scanning from
    the left, each separator followed by a lowercase letter gives way to the
    uppercase letter. *)
Fixpoint camelKey (key : string) : string :=
  match key with
  | EmptyString => EmptyString
  | String c rest =>
      match rest with
      | String d rest' =>
          if is_dash_or_underscore c && is_lower_az d
          then String (upper_az d) (camelKey rest')
          else String c (camelKey rest)
      | EmptyString => String c EmptyString
      end
  end.

Fixpoint convertKeysToCamelCase (obj : value) : value :=
  match obj with
  | VArr items => VArr (map convertKeysToCamelCase items)
  | VObj fields =>
      VObj (fold_left
              (fun acc '(key, v) => obj_set acc (camelKey key) (convertKeysToCamelCase v))
              fields [])
  | VNull | VBool _ | VNum _ | VStr _ => obj
  end.

(** Some separator is directly followed by a lowercase letter. *)
Fixpoint has_snake_pair (s : string) : bool :=
  match s with
  | EmptyString => false
  | String c rest =>
      match rest with
      | String d _ => (is_dash_or_underscore c && is_lower_az d) || has_snake_pair rest
      | EmptyString => false
      end
  end.

(** Every object inside the value has distinct keys, none with a separator
    before a lowercase letter. *)
Fixpoint camel_cased (v : value) : Prop :=
  match v with
  | VArr items => fold_right (fun x acc => camel_cased x /\ acc) True items
  | VObj fields =>
      NoDup (map fst fields)
      /\ fold_right
           (fun e acc => (has_snake_pair (fst e) = false /\ camel_cased (snd e)) /\ acc)
           True fields
  | VNull | VBool _ | VNum _ | VStr _ => True
  end.

(** An entry as the conversion leaves it. *)
Definition converted_entry (e : string * value) : Prop :=
  has_snake_pair (fst e) = false
  /\ camel_cased (snd e)
  /\ convertKeysToCamelCase (snd e) = snd e.

Definition is_digit (c : ascii) : bool :=
  let n := nat_of_ascii c in ((48 <=? n) && (n <=? 57))%nat.

(** ** Error messages and login (api.ts, AuthContext.tsx) *)

(** [s.includes(needle)]. *)
Fixpoint includes (needle s : string) : bool :=
  String.prefix needle s
  || match s with
     | EmptyString => false
     | String _ rest => includes needle rest
     end.

Module ErrorResponse.
(** [error.response]: its [data] ([None] when undefined) and [status]. *)
Record t : Type := mk {
  data : option value;
  status : Z
}.
End ErrorResponse.

Module HttpError.
(** An error object as thrown: an axios error carries a [response] when the
    server answered; [new Error(msg)] carries none. *)
Record t : Type := mk {
  response : option ErrorResponse.t;
  message : string
}.
End HttpError.

(** An HTTP exchange whose failure keeps the whole error object. *)
Inductive Exchange (A : Type) : Type :=
| Answered (data : A)
| Refused (error : HttpError.t).
Arguments Answered {A} data.
Arguments Refused {A} error.

(** How an [async] function ends. *)
Inductive Outcome (A : Type) : Type :=
| Returned (v : A)
| Thrown (error : HttpError.t).
Arguments Returned {A} v.
Arguments Thrown {A} error.

(** [data.error] / [data.message] behind [data && typeof data === 'object']. *)
Definition object_field (data : option value) (name : string) : option value :=
  match data with
  | Some (VObj fields) => prop (VObj fields) name
  | Some (VArr items) => prop (VArr items) name
  | _ => None
  end.

Definition truthy_field (data : option value) (name : string) : option value :=
  match object_field data name with
  | Some v => if truthy v then Some v else None
  | None => None
  end.

Definition server_error_text (status : Z) : string :=
  "Server error (" +++ string_of_Z status
  +++ "): The server encountered an internal error. Please check the server logs or try again later.".

Definition extractErrorMessage `{JsString} (error : HttpError.t) (defaultMessage : string)
  : value :=
  match HttpError.response error with
  | None => VStr (or_else (Some (HttpError.message error)) defaultMessage)
  | Some response =>
      let data := ErrorResponse.data response in
      let status := ErrorResponse.status response in
      match data with
      | Some (VStr text) =>
          if String.prefix "<!" (trim text)
             || includes "<html>" text
             || includes "Internal Server Error" text
          then VStr (server_error_text status)
          else VStr (or_else (Some text) defaultMessage)
      | _ =>
          match truthy_field data "error" with
          | Some e => e
          | None =>
              match truthy_field data "message" with
              | Some m => m
              | None =>
                  if (status =? 500)%Z then
                    VStr "Internal server error. Please try again later or contact support."
                  else if (status =? 401)%Z then
                    VStr "Authentication failed. Please check your credentials."
                  else if (status =? 403)%Z then
                    VStr "Access denied. You don't have permission to perform this action."
                  else if (status =? 404)%Z then VStr "Resource not found."
                  else VStr defaultMessage
              end
          end
      end
  end.

Module User.
Record t : Type := mk {
  username : string;
  name : string;
  email : string;
  role : string;
  status : string
}.
End User.

Module LoginResponse.
Record t : Type := mk { message : string; user : User.t }.
End LoginResponse.

(** The [/login] endpoint: what it answers to a user name and a password
    (the body already converted by [convertKeysToCamelCase] and typed), or the
    error [axios] raises. *)
Class AuthBackend : Type := {
  auth_login : string -> string -> Exchange LoginResponse.t
}.

(** [login] of api.ts: a failure is rethrown as [new Error(errorMessage)]. *)
Definition login `{JsString} `{AuthBackend} (username password : string)
  : Outcome LoginResponse.t :=
  match auth_login username password with
  | Answered data => Returned data
  | Refused error =>
      let errorMessage := extractErrorMessage error "Login failed" in
      Thrown (HttpError.mk None (toString errorMessage))
  end.

Module Notice.
(** A toast of the auth screens; [destructive] is [variant: "destructive"]. *)
Record t : Type := mk {
  title : string;
  description : value;
  destructive : bool
}.
End Notice.

Module AuthState.
Record t : Type := mk {
  isAuthenticated : bool;
  isLoading : bool;
  user : option User.t;
  notices : list Notice.t
}.
End AuthState.

(** [error.response?.data?.error || error.message || "Invalid credentials"]. *)
Definition login_errorMessage (error : HttpError.t) : value :=
  let from_response :=
    match HttpError.response error with
    | Some response =>
        match ErrorResponse.data response with
        | Some VNull | None => None
        | Some data =>
            match prop data "error" with
            | Some e => if truthy e then Some e else None
            | None => None
            end
        end
    | None => None
    end in
  match from_response with
  | Some e => e
  | None => VStr (or_else (Some (HttpError.message error)) "Invalid credentials")
  end.

Module AuthContext.
(** [login] of the auth provider.  The [finally] block lowers [isLoading] on
    every path; a non-string [errorMessage] under status 403 makes
    [toLowerCase] throw inside the [catch]. *)
Definition login `{JsString} `{AuthBackend} (username password : string)
  : State AuthState.t (Outcome unit) :=
  fun st =>
    let finish (outcome : Outcome unit) (isAuthenticated : bool) (user : option User.t)
          (notices : list Notice.t) :=
      (outcome, AuthState.mk isAuthenticated false user notices) in
    match login username password with
    | Returned response =>
        finish (Returned tt) true (Some (LoginResponse.user response))
          (AuthState.notices st
           ++ [Notice.mk "Success" (VStr "Successfully logged in!") false])
    | Thrown error =>
        let errorMessage := login_errorMessage error in
        let is403 :=
          match HttpError.response error with
          | Some response => (ErrorResponse.status response =? 403)%Z
          | None => false
          end in
        let failed (description : value) :=
          finish (Thrown error) (AuthState.isAuthenticated st) (AuthState.user st)
            (AuthState.notices st ++ [Notice.mk "Login Failed" description true]) in
        if is403 then
          match errorMessage with
          | VStr text =>
              if includes "pending" (toLowerCase text) then
                failed (VStr "Your account is pending admin approval.")
              else if includes "rejected" (toLowerCase text) then
                failed (VStr "Your account has been rejected. Please contact support.")
              else failed errorMessage
          | _ =>
              finish
                (Thrown (HttpError.mk None "errorMessage.toLowerCase is not a function"))
                (AuthState.isAuthenticated st) (AuthState.user st) (AuthState.notices st)
          end
        else failed errorMessage
    end.
End AuthContext.

(** ** Schema and price wrappers (api.ts) *)

Module PriceResult.
Record t : Type := mk {
  price : option string;
  reviews : option Z;
  source : option string
}.
End PriceResult.

Module PriceReviewResponse.
Record t : Type := mk {
  productName : string;
  results : list PriceResult.t
}.
End PriceReviewResponse.

Inductive CatalogRequest : Type :=
| GetSchema (product_type : string)
| GetPriceReview (productName : string).

(** The [/schema] and [/api/get-price-review] endpoints, their answers
    already converted by [convertKeysToCamelCase] and typed. *)
Class CatalogBackend : Type := {
  catalog_schema : string -> Transport RequirementSchema.t;
  catalog_price_review : string -> Transport PriceReviewResponse.t
}.

(** The requests sent so far, oldest first. *)
Definition Catalog (A : Type) : Type := State (list CatalogRequest) A.

Definition axios_get {A : Type} (req : CatalogRequest) (answer : Transport A)
  : Catalog (Transport A) :=
  fun sent => (answer, sent ++ [req]).

(** The schema returned without a request (its [default] entry, which no
    embedded code reads, has no field in [RequirementSchema.t]). *)
Definition empty_schema : RequirementSchema.t :=
  RequirementSchema.mk (Some (VObj [])) (Some (VObj [])).

Definition getRequirementSchema `{JsString} `{CatalogBackend} (productType : string)
  : Catalog (Settled RequirementSchema.t) :=
  if String.eqb productType "" || String.eqb (trim productType) "" then
    ret (Fulfilled empty_schema)
  else
    response <- axios_get (GetSchema productType) (catalog_schema productType) ;;
    match response with
    | Response data => ret (Fulfilled data)
    | NetworkError error =>
        ret (Rejected (or_else (AxiosError.response_data_error error) "Schema fetch failed"))
    end.

Definition getProductPriceReview `{CatalogBackend} (productName : string)
  : Catalog (Settled PriceReviewResponse.t) :=
  if String.eqb productName "" then
    ret (Fulfilled (PriceReviewResponse.mk productName []))
  else
    response <- axios_get (GetPriceReview productName) (catalog_price_review productName) ;;
    match response with
    | Response data => ret (Fulfilled data)
    | NetworkError _ => ret (Fulfilled (PriceReviewResponse.mk productName []))
    end.

(** A catalog service that cannot be reached. *)
Definition quiet_catalog : CatalogBackend :=
  {| catalog_schema := fun _ => NetworkError network_down;
     catalog_price_review := fun _ => NetworkError network_down |}.

(** A catalog that knows one offer for every product. *)
Definition sample_price_review : PriceReviewResponse.t :=
  PriceReviewResponse.mk "PT-100"
    [PriceResult.mk (Some "USD 420.00") (Some 12%Z) (Some "Acme store")].

Definition priced_catalog : CatalogBackend :=
  {| catalog_schema := fun _ => NetworkError network_down;
     catalog_price_review := fun _ => Response sample_price_review |}.

(** Induction on JSON values, through their arrays and objects. *)
Section ValueInduction.
Variable P : value -> Prop.
Hypothesis Hnull : P VNull.
Hypothesis Hbool : forall b, P (VBool b).
Hypothesis Hnum : forall n, P (VNum n).
Hypothesis Hstr : forall s, P (VStr s).
Hypothesis Harr : forall items, Forall P items -> P (VArr items).
Hypothesis Hobj : forall fields, Forall (fun e => P (snd e)) fields -> P (VObj fields).

Fixpoint value_nested_ind (v : value) : P v :=
  match v with
  | VNull => Hnull
  | VBool b => Hbool b
  | VNum n => Hnum n
  | VStr s => Hstr s
  | VArr items =>
      Harr items
        ((fix all (l : list value) : Forall P l :=
            match l with
            | [] => Forall_nil P
            | x :: rest => Forall_cons x (value_nested_ind x) (all rest)
            end) items)
  | VObj fields =>
      Hobj fields
        ((fix all (l : list (string * value)) : Forall (fun e => P (snd e)) l :=
            match l with
            | [] => Forall_nil _
            | e :: rest =>
                Forall_cons (P := fun e => P (snd e)) e
                  (value_nested_ind (snd e)) (all rest)
            end) fields)
  end.
End ValueInduction.

(** ** The switch of handleSendMessage *)

(** [s.replace(/\s/g, "")], taken as an interface like the string built-ins;
    [ascii_whitespace] is an instance for ASCII text. *)
Class JsWhitespace : Type := {
  remove_whitespace : string -> string
}.

Fixpoint ascii_remove_whitespace (s : string) : string :=
  match s with
  | EmptyString => EmptyString
  | String c rest =>
      if is_ascii_space c then ascii_remove_whitespace rest
      else String c (ascii_remove_whitespace rest)
  end.

Definition ascii_whitespace : JsWhitespace :=
  {| remove_whitespace := ascii_remove_whitespace |}.

(** [trimmedInput.toLowerCase().replace(/\s/g, "")]. *)
Definition normalizedInput `{JsString} `{JsWhitespace} (trimmedInput : string) : string :=
  remove_whitespace (toLowerCase trimmedInput).

(** [cmds.some(cmd => normalizedInput.includes(cmd))]. *)
Definition some_includes (cmds : list string) (normalizedInput : string) : bool :=
  existsb (fun cmd => includes cmd normalizedInput) cmds.

(** [cmds.includes(normalizedInput)]. *)
Definition array_includes (cmds : list string) (normalizedInput : string) : bool :=
  existsb (String.eqb normalizedInput) cmds.

(** [/^(yes|y|skip)$/i.test(trimmedInput)]: without the [u] flag a
    case-insensitive match folds ASCII letters only. *)
Definition shortConfirm (trimmedInput : string) : bool :=
  array_includes ["yes"; "y"; "skip"] (ascii_toLowerCase trimmedInput).

Definition setCollectedData (data : obj) : Async unit :=
  fun w =>
    (tt, World.mk (World.state w) data (World.currentStep w)
           (World.isStreaming w) (World.toasts w) (World.tick w) (World.api w)).

Definition with_validationResult (v : option ValidationResult.t) (prev : AppState.t)
  : AppState.t :=
  AppState.mk (AppState.messages prev) (AppState.currentProductType prev)
    v (AppState.analysisResult prev)
    (AppState.requirementSchema prev) (AppState.isLoading prev)
    (AppState.inputValue prev) (AppState.productType prev).

(** The names of the workflow steps. *)
Definition step_of_string (s : string) : option WorkflowStep :=
  if String.eqb s "greeting" then Some greeting
  else if String.eqb s "initialInput" then Some initialInput
  else if String.eqb s "awaitMissingInfo" then Some awaitMissingInfo
  else if String.eqb s "awaitOptional" then Some awaitOptional
  else if String.eqb s "awaitAdvanced" then Some awaitAdvanced
  else if String.eqb s "confirmAfterMissingInfo" then Some confirmAfterMissingInfo
  else if String.eqb s "showSummary" then Some showSummary
  else if String.eqb s "finalAnalysis" then Some finalAnalysis
  else if String.eqb s "analysisError" then Some analysisError
  else if String.eqb s "default" then Some default
  else None.

(** How the body of a [case] ends: at its [break]; with an exception that
    escapes to the handler's outer [catch]; or at
    [setCurrentStep(agentResponse.nextStep as any)] with a string that names
    no workflow step, where the session leaves the typed states. *)
Inductive CaseExit : Type :=
| CaseBreak
| CaseThrew (message : string)
| CaseUntypedStep (nextStep : string).

(** [performAnalysis] awaited inside a case. *)
Definition await_performAnalysis `{JsString} `{Backend}
  (productType : string) (collectedData : obj) : Async CaseExit :=
  settled <- performAnalysis productType collectedData ;;
  match settled with
  | Fulfilled _ => ret CaseBreak
  | Rejected e => ret (CaseThrew e)
  end.

Definition case_greeting `{Backend} (trimmedInput : string) : Async CaseExit :=
  agentResponse <- liftApi (generateAgentResponse greeting CtxEmpty trimmedInput None) ;;
  match agentResponse with
  | Fulfilled agentResponse =>
      streamAssistantMessage (AgentResponse.content agentResponse) ;;
      setCurrentStep initialInput ;;
      ret CaseBreak
  | Rejected e => ret (CaseThrew e)
  end.

Definition case_showSummary `{JsString} `{JsWhitespace} `{Backend}
  (trimmedInput productType : string) (collectedData : obj) : Async CaseExit :=
  if some_includes ["yes"; "proceed"; "continue"; "run"; "analyze"; "ok"]
       (normalizedInput trimmedInput)
  then await_performAnalysis productType collectedData
  else ret CaseBreak.

Definition case_finalAnalysis `{JsString} `{JsWhitespace} `{Backend}
  (trimmedInput productType : string) (collectedData : obj) : Async CaseExit :=
  if some_includes ["rerun"; "run"; "runagain"] (normalizedInput trimmedInput)
  then await_performAnalysis productType collectedData
  else ret CaseBreak.

Definition case_analysisError `{JsString} `{JsWhitespace} `{Backend}
  (trimmedInput productType : string) (collectedData : obj) : Async CaseExit :=
  if array_includes ["rerun"; "run"; "runagain"] (normalizedInput trimmedInput)
  then await_performAnalysis productType collectedData
  else
    agentResponse <- liftApi (generateAgentResponse analysisError CtxEmpty
                                "Please type 'rerun' to try again." None) ;;
    match agentResponse with
    | Fulfilled agentResponse =>
        streamAssistantMessage (AgentResponse.content agentResponse) ;;
        ret CaseBreak
    | Rejected e => ret (CaseThrew e)
    end.

(** The [catch] inside the [awaitMissingInfo] branch. *)
Definition missingInfo_catch `{Backend} : Async CaseExit :=
  agentResponse <- liftApi (generateAgentResponse default CtxEmpty
                              "Error processing your input." None) ;;
  match agentResponse with
  | Fulfilled agentResponse =>
      streamAssistantMessage (AgentResponse.content agentResponse) ;;
      ret CaseBreak
  | Rejected e => ret (CaseThrew e)
  end.

(** [if (agentResponse.nextStep) setCurrentStep(agentResponse.nextStep as any);
     else setCurrentStep("awaitOptional")]. *)
Definition setCurrentStep_or_awaitOptional (nextStep : Nullable string) : Async CaseExit :=
  match nextStep with
  | JsValue s =>
      if String.eqb s "" then setCurrentStep awaitOptional ;; ret CaseBreak
      else
        match step_of_string s with
        | Some next => setCurrentStep next ;; ret CaseBreak
        | None => ret (CaseUntypedStep s)
        end
  | _ => setCurrentStep awaitOptional ;; ret CaseBreak
  end.

(** The [default:] case.  [currentStep], [productType], [collectedData],
    [validationResult] and [requirementSchema] are the values the callback
    closed over. *)
Definition case_default `{JsString} `{Backend}
  (trimmedInput : string) (currentStep : WorkflowStep) (productType : string)
  (collectedData : obj) (validationResult : option ValidationResult.t)
  (requirementSchema : option RequirementSchema.t) : Async CaseExit :=
  if WorkflowStep_eqb currentStep awaitMissingInfo then
    if shortConfirm trimmedInput then
      confirmationResponse <-
        liftApi (generateAgentResponse confirmAfterMissingInfo
                   (CtxKnowledge productType collectedData)
                   "User confirmed to proceed without providing missing mandatory fields."
                   None) ;;
      match confirmationResponse with
      | Fulfilled confirmationResponse =>
          streamAssistantMessage (AgentResponse.content confirmationResponse) ;;
          setCurrentStep awaitOptional ;;
          ret CaseBreak
      | Rejected _ => missingInfo_catch
      end
    else
      let combinedInput := composeUserDataString collectedData +++ " " +++ trimmedInput in
      newValidation <-
        liftApi (validateRequirements combinedInput
                   (option_map ValidationResult.productType validationResult)) ;;
      match newValidation with
      | Rejected _ => missingInfo_catch
      | Fulfilled newValidation =>
          match updatedData collectedData
                  (ValidationResult.providedRequirements newValidation)
                  requirementSchema with
          | None => missingInfo_catch
          | Some updatedData =>
              setCollectedData updatedData ;;
              setState (with_validationResult (Some newValidation)) ;;
              match ValidationResult.validationAlert newValidation with
              | Some message =>
                  streamAssistantMessage message ;;
                  setCurrentStep awaitMissingInfo ;;
                  ret CaseBreak
              | None =>
                  agentResponse <-
                    liftApi (generateAgentResponse confirmAfterMissingInfo
                               (CtxKnowledge productType updatedData)
                               "All mandatory requirements provided." None) ;;
                  match agentResponse with
                  | Fulfilled agentResponse =>
                      streamAssistantMessage (AgentResponse.content agentResponse) ;;
                      setCurrentStep_or_awaitOptional (AgentResponse.nextStep agentResponse)
                  | Rejected _ => missingInfo_catch
                  end
              end
          end
      end
  else
    agentResponse <- liftApi (generateAgentResponse default CtxEmpty trimmedInput None) ;;
    match agentResponse with
    | Fulfilled agentResponse =>
        streamAssistantMessage (AgentResponse.content agentResponse) ;;
        ret CaseBreak
    | Rejected e => ret (CaseThrew e)
    end.

(** The body the [switch] selects; [None] for the three cases that call
    endpoints outside this development ([initialInput], [awaitOptional],
    [awaitAdvanced]). *)
Definition switch_case `{JsString} `{JsWhitespace} `{Backend}
  (targetStep : WorkflowStep) (trimmedInput : string) (currentStep : WorkflowStep)
  (productType : string) (collectedData : obj)
  (validationResult : option ValidationResult.t)
  (requirementSchema : option RequirementSchema.t) : option (Async CaseExit) :=
  match targetStep with
  | greeting => Some (case_greeting trimmedInput)
  | initialInput | awaitOptional | awaitAdvanced => None
  | showSummary => Some (case_showSummary trimmedInput productType collectedData)
  | finalAnalysis => Some (case_finalAnalysis trimmedInput productType collectedData)
  | analysisError => Some (case_analysisError trimmedInput productType collectedData)
  | awaitMissingInfo | confirmAfterMissingInfo | default =>
      Some (case_default trimmedInput currentStep productType collectedData
              validationResult requirementSchema)
  end.

(** One call of [handleSendMessage], start to end. *)
Inductive Handled : Type :=
| Finished (d : Dispatch)
| Unfollowed (d : Dispatch)
| UntypedStep (nextStep : string).

(** [handleSendMessage] with its [switch]: after the case, the handler
    lowers [isLoading]; an exception from the case goes to the outer
    [catch]. *)
Definition handleSendMessage_switch `{JsString} `{JsWhitespace} `{Backend}
  (userInput : string) : Async Handled :=
  fun w =>
    let currentStep := World.currentStep w in
    let collectedData := World.collectedData w in
    let productType := AppState.productType (World.state w) in
    let validationResult := AppState.validationResult (World.state w) in
    let requirementSchema := AppState.requirementSchema (World.state w) in
    let trimmedInput := trim userInput in
    (d <- handleSendMessage userInput ;;
     match d with
     | SwitchOn targetStep =>
         match switch_case targetStep trimmedInput currentStep productType collectedData
                 validationResult requirementSchema with
         | Some body =>
             exit <- body ;;
             match exit with
             | CaseBreak => setState (with_isLoading false) ;; ret (Finished d)
             | CaseThrew _ => caught <- handleSendMessage_catch ;; ret (Finished caught)
             | CaseUntypedStep s => ret (UntypedStep s)
             end
         | None => ret (Unfollowed d)
         end
     | DirectSummary => ret (Unfollowed d)
     | _ => ret (Finished d)
     end) w.

(** The session once the handler has taken the user's message: the message
    is appended, the input box cleared, [isLoading] raised and the intent
    request sent. *)
Definition taken (w : World.t) (trimmedInput : string) : World.t :=
  let now := World.tick w in
  World.mk
    (with_isLoading true
       (with_inputValue ""
          (with_messages
             (fun messages => messages ++ [ChatMessage.mk now user trimmedInput now None])
             (World.state w))))
    (World.collectedData w) (World.currentStep w) (World.isStreaming w)
    (World.toasts w) (S now)
    (ApiState.mk (ApiState.hasValidatedOnce (World.api w))
       (ApiState.requests (World.api w) ++ [PostIntent trimmedInput])).

(** A session after one reply of the sales agent has been streamed. *)
Definition replied (w : World.t) (step : WorkflowStep) (dataContext : DataContext)
  (userMessage : string) (content : string) : World.t :=
  let now := World.tick w in
  World.mk
    (with_messages
       (fun messages => messages ++ [ChatMessage.mk now assistant content now None])
       (World.state w))
    (World.collectedData w) (World.currentStep w) false (World.toasts w) (S now)
    (ApiState.mk (ApiState.hasValidatedOnce (World.api w))
       (ApiState.requests (World.api w)
        ++ [PostSalesAgent step dataContext userMessage None])).

Definition lowered (w : World.t) : World.t :=
  snd (setState (with_isLoading false) w).

Definition at_step (step : WorkflowStep) (w : World.t) : World.t :=
  snd (setCurrentStep step w).

(** [w'] continues [w]: ids are still collision-free, the input box is as
    it was, and the message log of [w] has only grown, by assistant
    messages. *)
Definition continues (w w' : World.t) : Prop :=
  ids_fresh w'
  /\ AppState.inputValue (World.state w') = AppState.inputValue (World.state w)
  /\ exists replies,
       AppState.messages (World.state w') = AppState.messages (World.state w) ++ replies
       /\ Forall (fun msg => ChatMessage.type msg = assistant) replies.

(** A computation that, run in a session with collision-free ids, only
    continues it. *)
Definition quiet {A : Type} (m : Async A) : Prop :=
  forall w, ids_fresh w -> continues w (snd (m w)).





(** Sessions standing at the steps after an analysis. *)
Definition analysed_world : World.t :=
  World.mk (AppState.mk [] (Some "pressure transmitter") None (Some sample_analysis) None
              false "" "pressure transmitter")
    [("pressureRange", VStr "0-100 bar")] finalAnalysis false [] 0
    (ApiState.mk true []).

Definition failed_world : World.t :=
  World.mk (AppState.mk [] (Some "pressure transmitter") None None None
              false "" "pressure transmitter")
    [("pressureRange", VStr "0-100 bar")] analysisError false [] 0
    (ApiState.mk true []).



(** A session waiting for a missing mandatory field, and a backend that
    accepts the answer. *)
Definition sample_schema : RequirementSchema.t :=
  RequirementSchema.mk
    (Some (VObj [("pressureRange", VStr "string"); ("outputSignal", VStr "string")]))
    (Some (VObj [("accuracy", VStr "string")])).

Definition missing_info_world : World.t :=
  World.mk
    (AppState.mk [] (Some "pressure transmitter")
       (Some (ValidationResult.mk (Some "Please provide the output signal.") false None
                (Some sample_requirements) "pressure transmitter"))
       None (Some sample_schema) false "" "pressure transmitter")
    [("pressureRange", VStr "0-100 bar"); ("outputSignal", VStr ""); ("accuracy", VStr "")]
    awaitMissingInfo false [] 0 (ApiState.mk true []).

Definition validating_backend : Backend :=
  {| backend_intent := fun _ => NetworkError network_down;
     backend_sales_agent :=
       fun _ _ userMessage _ => Response (AgentResponse.mk userMessage JsUndefined None);
     backend_validate :=
       fun _ _ _ =>
         Response
           (ValidationResult.mk None true None
              (Some (VObj [("mandatoryRequirements",
                            VObj [("outputSignal", VStr "4-20ma")])]))
              "pressure transmitter");
     backend_analyze := fun _ => NetworkError network_down;
     backend_structure := fun _ => NetworkError network_down |}.



(** * Properties *)

(** ** Objects *)

Lemma inb_true_iff (k : string) (l : list string) : inb k l = true <-> In k l.
Proof.
  unfold inb. rewrite existsb_exists. split.
  - intros [x [Hin Heq]]. apply String.eqb_eq in Heq. now subst.
  - intros Hin. exists k. split; [assumption | apply String.eqb_refl].
Qed.

Lemma inb_false_iff (k : string) (l : list string) : inb k l = false <-> ~ In k l.
Proof.
  rewrite <- inb_true_iff. destruct (inb k l); split; intros; congruence.
Qed.

Lemma get_own_None_iff (o : obj) (k : string) :
  get_own o k = None <-> ~ In k (map fst o).
Proof.
  induction o as [|[k' v] rest IH]; simpl.
  - tauto.
  - destruct (String.eqb_spec k k') as [->|Hne].
    + split; [discriminate | intros H; exfalso; apply H; now left].
    + rewrite IH. split.
      * intros H [Heq|Hin]; [congruence | tauto].
      * tauto.
Qed.

Lemma has_own_false_iff (o : obj) (k : string) :
  has_own o k = false <-> ~ In k (map fst o).
Proof.
  rewrite <- get_own_None_iff. unfold has_own.
  destruct (get_own o k); split; intros; congruence.
Qed.

Lemma has_own_true_iff (o : obj) (k : string) :
  has_own o k = true <-> In k (map fst o).
Proof.
  destruct (has_own o k) eqn:E.
  - split; [intros _ | reflexivity].
    destruct (in_dec string_dec k (map fst o)) as [Hin|Hout]; [assumption|].
    apply has_own_false_iff in Hout. congruence.
  - apply has_own_false_iff in E. split; [discriminate | tauto].
Qed.

Lemma get_own_app (o1 o2 : obj) (k : string) :
  get_own (o1 ++ o2) k =
  match get_own o1 k with Some v => Some v | None => get_own o2 k end.
Proof.
  induction o1 as [|[k' v] rest IH]; simpl; [reflexivity|].
  destruct (String.eqb k k'); [reflexivity | apply IH].
Qed.

Lemma get_own_In (o : obj) (k : string) (v : value) :
  get_own o k = Some v -> In (k, v) o.
Proof.
  induction o as [|[k' v'] rest IH]; simpl; [discriminate|].
  destruct (String.eqb_spec k k') as [->|Hne].
  - intros [= ->]. now left.
  - intros H. right. now apply IH.
Qed.

Lemma replace_own_keys (o : obj) (k : string) (v : value) :
  map fst (replace_own o k v) = map fst o.
Proof.
  induction o as [|[k' v'] rest IH]; simpl; [reflexivity|].
  destruct (String.eqb k k'); simpl; [reflexivity | now rewrite IH].
Qed.

Lemma replace_own_values (P : value -> Prop) (o : obj) (k : string) (v : value) :
  P v -> Forall (fun e => P (snd e)) o -> Forall (fun e => P (snd e)) (replace_own o k v).
Proof.
  intros Hv. induction 1 as [|[k' v'] rest Hx Hrest IH]; simpl; [constructor|].
  destruct (String.eqb k k'); constructor; assumption.
Qed.

(** An assignment keeps the keys distinct. *)
Lemma obj_set_wf (o : obj) (k : string) (v : value) :
  wf_obj o -> wf_obj (obj_set o k v).
Proof.
  unfold wf_obj, obj_set. intros Hwf.
  destruct (has_own o k) eqn:Hown.
  - now rewrite replace_own_keys.
  - destruct (String.eqb k "__proto__"); [assumption|].
    rewrite map_app. simpl. apply NoDup_app; [assumption | repeat constructor; simpl; tauto |].
    intros x Hin [<-|[]]. apply has_own_false_iff in Hown. tauto.
Qed.

Lemma obj_set_values (P : value -> Prop) (o : obj) (k : string) (v : value) :
  P v -> Forall (fun e => P (snd e)) o -> Forall (fun e => P (snd e)) (obj_set o k v).
Proof.
  intros Hv Ho. unfold obj_set.
  destruct (has_own o k); [now apply replace_own_values|].
  destruct (String.eqb k "__proto__"); [assumption|].
  apply Forall_app. split; [assumption | repeat constructor; assumption].
Qed.

(** Assigning a property the object lacks, under a name the prototype does
    not have, appends it. *)
Lemma obj_set_fresh (o : obj) (k : string) (v : value) :
  has_property o k = false -> obj_set o k v = o ++ [(k, v)].
Proof.
  unfold has_property, obj_set. intros H. apply orb_false_iff in H as [Hown Hproto].
  rewrite Hown.
  destruct (String.eqb_spec k "__proto__") as [->|_]; [discriminate Hproto | reflexivity].
Qed.

(** ** mergeRequirementsWithSchema *)

Example merge_spec_example :
  mergeRequirementsWithSchema
    [("pressureRange", VStr "0-100 bar")]
    (RequirementSchema.mk
       (Some (VObj [("pressureRange", VStr "range"); ("outputSignal", VStr "signal")]))
       (Some (VObj [("accuracy", VStr "percent")])))
  = [("pressureRange", VStr "0-100 bar"); ("outputSignal", VStr ""); ("accuracy", VStr "")].
Proof. reflexivity. Qed.

(** The merge only appends placeholders behind the provided properties. *)
Lemma merge_fold_extends (keys : list string) (merged : obj) :
  exists extra,
    fold_left merge_key keys merged = merged ++ extra
    /\ Forall (fun e => snd e = VStr "") extra.
Proof.
  revert merged. induction keys as [|key keys IH]; intros merged; simpl.
  - exists []. split; [now rewrite app_nil_r | constructor].
  - destruct (IH (merge_key merged key)) as [extra [Heq Hall]].
    rewrite Heq. unfold merge_key.
    destruct (has_property merged key) eqn:Hin; simpl.
    + exists extra. now split.
    + rewrite (obj_set_fresh _ _ _ Hin).
      exists ((key, VStr "") :: extra). split.
      * rewrite <- app_assoc. reflexivity.
      * constructor; [reflexivity | assumption].
Qed.

Lemma has_property_app_l (o extra : obj) (k : string) :
  has_property o k = true -> has_property (o ++ extra) k = true.
Proof.
  unfold has_property, has_own. rewrite get_own_app.
  destruct (get_own o k); simpl; [reflexivity | ].
  intros ->. apply orb_true_r.
Qed.

Lemma merge_key_has (merged : obj) (key : string) :
  has_property (merge_key merged key) key = true.
Proof.
  unfold merge_key. destruct (has_property merged key) eqn:Hin; simpl; [assumption|].
  rewrite (obj_set_fresh _ _ _ Hin).
  unfold has_property, has_own. rewrite get_own_app.
  destruct (get_own merged key); [reflexivity|].
  simpl. now rewrite String.eqb_refl.
Qed.

Lemma merge_fold_has (keys : list string) (merged : obj) (k : string) :
  In k keys \/ has_property merged k = true ->
  has_property (fold_left merge_key keys merged) k = true.
Proof.
  revert merged. induction keys as [|key keys IH]; intros merged; simpl.
  - intros [[]|H]; assumption.
  - intros [[->|Hin]|Hhas]; apply IH.
    + right. apply merge_key_has.
    + now left.
    + right. destruct (merge_fold_extends [key] merged) as [extra [Heq _]].
      simpl in Heq. rewrite Heq. now apply has_property_app_l.
Qed.

(** Every schema key is a property of the result (own or inherited). *)
Lemma merge_has_every_schema_key (provided : obj) (schema : RequirementSchema.t)
  (k : string) :
  In k (allKeys schema) ->
  has_property (mergeRequirementsWithSchema provided schema) k = true.
Proof.
  intros Hin. unfold mergeRequirementsWithSchema. apply merge_fold_has. now left.
Qed.

(** Every own property of the provided data keeps its value. *)
Lemma merge_keeps_provided (provided : obj) (schema : RequirementSchema.t)
  (k : string) (v : value) :
  get_own provided k = Some v ->
  get_own (mergeRequirementsWithSchema provided schema) k = Some v.
Proof.
  intros Hget. unfold mergeRequirementsWithSchema.
  destruct (merge_fold_extends (allKeys schema) provided) as [extra [-> _]].
  rewrite get_own_app, Hget. reflexivity.
Qed.

(** A schema key that is no property of the provided data, own or inherited,
    becomes an own property bound to the empty string. *)
Lemma merge_fills_missing (provided : obj) (schema : RequirementSchema.t) (k : string) :
  In k (allKeys schema) ->
  has_property provided k = false ->
  get_own (mergeRequirementsWithSchema provided schema) k = Some (VStr "").
Proof.
  intros Hin Hmiss.
  pose proof (merge_has_every_schema_key provided schema k Hin) as Hhas.
  unfold mergeRequirementsWithSchema in *.
  destruct (merge_fold_extends (allKeys schema) provided) as [extra [Heq Hall]].
  rewrite Heq in *. unfold has_property, has_own in *.
  rewrite get_own_app in *.
  apply orb_false_iff in Hmiss as [Hown Hproto]. rewrite Hproto, orb_false_r in Hhas.
  destruct (get_own provided k); [discriminate Hown|].
  destruct (get_own extra k) as [v|] eqn:Hextra; [|discriminate Hhas].
  apply get_own_In in Hextra. rewrite Forall_forall in Hall.
  specialize (Hall _ Hextra). simpl in Hall. now subst.
Qed.

(** An ordinary schema (no key named like a member of [Object.prototype])
    is merged as specified: the result has every schema key as an own
    property, the provided values are kept, the missing keys read [""]. *)
Lemma merge_ordinary_schema (provided : obj) (schema : RequirementSchema.t) :
  Forall (fun k => inb k object_prototype_keys = false) (allKeys schema) ->
  forall k, In k (allKeys schema) ->
    get_own (mergeRequirementsWithSchema provided schema) k =
    match get_own provided k with
    | Some v => Some v
    | None => Some (VStr "")
    end.
Proof.
  intros Hord k Hin. rewrite Forall_forall in Hord. specialize (Hord k Hin).
  destruct (get_own provided k) as [v|] eqn:Hget.
  - now apply merge_keeps_provided.
  - apply merge_fills_missing; [assumption|].
    unfold has_property, has_own. now rewrite Hget, Hord.
Qed.

(** C1, at the input where the code departs from it: a schema field named
    [constructor] and empty data.  ["constructor" in merged] holds through
    [Object.prototype], so the guard skips the key: the result has no own
    property of that name, bound to [""] or otherwise. *)
Theorem merge_skips_prototype_named_key :
  let schema :=
    RequirementSchema.mk (Some (VObj [("constructor", VStr "string")])) None in
  In "constructor" (allKeys schema)
  /\ has_own [] "constructor" = false
  /\ mergeRequirementsWithSchema [] schema = []
  /\ get_own (mergeRequirementsWithSchema [] schema) "constructor" = None.
Proof.
  simpl. repeat split. now left.
Qed.

(** ** flattenRequirements *)

Example flatten_groups_example :
  flattenRequirements
    (Some (VObj [("mandatoryRequirements", VObj [("a", VStr "1"); ("b", VStr "")]);
                 ("optionalRequirements", VObj [("c", VNull); ("d", VNum 4)]);
                 ("e", VStr "5")]))
  = [("a", VStr "1"); ("d", VNum 4); ("e", VStr "5")].
Proof. reflexivity. Qed.

Lemma process_invariant (reqs : option value) (flat : obj) :
  flat_invariant flat -> flat_invariant (process reqs flat).
Proof.
  unfold process. destruct reqs as [r|]; [|trivial].
  destruct (truthy r); simpl; [|trivial].
  generalize (own_entries r) as entries. intros entries. revert flat.
  induction entries as [|[key v] entries IH]; intros flat Hinv; simpl; [assumption|].
  apply IH. destruct (not_null_or_empty v) eqn:Hv; [|assumption].
  destruct Hinv as [Hwf Hvals]. split.
  - now apply obj_set_wf.
  - unfold no_null_or_empty.
    apply (obj_set_values (fun x => not_null_or_empty x = true));
      [exact Hv | exact Hvals].
Qed.

Lemma flatten_top_invariant (entries : obj) (flat : obj) :
  flat_invariant flat -> flat_invariant (fold_left flatten_top entries flat).
Proof.
  revert flat. induction entries as [|[key v] entries IH]; intros flat Hinv;
    cbn [fold_left]; [assumption|].
  apply IH. unfold flatten_top.
  destruct (negb (inb key group_names) && negb (has_property flat key)); [|assumption].
  destruct (not_null_or_empty v) eqn:Hv; [|assumption].
  destruct Hinv as [Hwf Hvals]. split.
  - now apply obj_set_wf.
  - unfold no_null_or_empty.
    apply (obj_set_values (fun x => not_null_or_empty x = true));
      [exact Hv | exact Hvals].
Qed.

(** Results have distinct keys and no [null] or [""] value. *)
Lemma flattenRequirements_invariant (provided : option value) :
  flat_invariant (flattenRequirements provided).
Proof.
  assert (Hnil : flat_invariant []) by (split; constructor).
  unfold flattenRequirements. destruct provided as [p|]; [|assumption].
  destruct (truthy p); [|assumption].
  apply flatten_top_invariant. now do 2 apply process_invariant.
Qed.

(** The top-level walk over a flat object copies it behind what is already
    collected, as long as the names do not clash. *)
Lemma flatten_top_copies (o : obj) (flat : obj) :
  flat_shaped o ->
  (forall k, In k (map fst o) -> has_own flat k = false) ->
  fold_left flatten_top o flat = flat ++ o.
Proof.
  revert flat. induction o as [|[key v] rest IH]; intros flat Hshape Hfresh;
    cbn [fold_left].
  - now rewrite app_nil_r.
  - destruct Hshape as [Hwf [Hkeys Hvals]].
    unfold wf_obj in Hwf. simpl in Hwf. inversion Hwf as [|? ? Hnotin Hnodup]; subst.
    inversion Hkeys as [|? ? [Hgroup Hproto] Hkeys']; subst.
    inversion Hvals as [|? ? Hv Hvals']; subst. simpl in Hv.
    assert (Hmiss : has_property flat key = false).
    { unfold has_property. rewrite (Hfresh key (or_introl eq_refl)), Hproto. reflexivity. }
    unfold flatten_top at 2. rewrite Hgroup, Hmiss, Hv. cbn [negb andb].
    rewrite (obj_set_fresh _ _ _ Hmiss).
    rewrite IH.
    + now rewrite <- app_assoc.
    + repeat split; assumption.
    + intros k Hin. apply has_own_false_iff. rewrite map_app, in_app_iff. simpl.
      intros [Hflat|[<-|[]]].
      * apply has_own_true_iff in Hflat.
        rewrite (Hfresh k (or_intror Hin)) in Hflat. discriminate.
      * contradiction.
Qed.

(** Flattening an already-flat object gives it back. *)
Lemma flattenRequirements_flat (o : obj) :
  flat_shaped o -> flattenRequirements (Some (VObj o)) = o.
Proof.
  intros Hshape. unfold flattenRequirements. simpl.
  assert (Hnone : forall g, In g group_names -> prop (VObj o) g = None).
  { intros g Hg. unfold prop. simpl. apply get_own_None_iff. intros Hin.
    destruct Hshape as [_ [Hkeys _]]. unfold ordinary_keys in Hkeys.
    rewrite Forall_forall in Hkeys. destruct (Hkeys g Hin) as [Hgroup _].
    apply inb_false_iff in Hgroup. contradiction. }
  rewrite (Hnone "mandatoryRequirements"), (Hnone "optionalRequirements");
    [| simpl; tauto | simpl; tauto].
  simpl. rewrite flatten_top_copies; [reflexivity | assumption | reflexivity].
Qed.

(** C8, as stated, fails: a group nested inside a group survives the first
    pass under its group name and is opened by the second. *)
Lemma flatten_twice_differs :
  flattenRequirements (Some nested_group)
    = [("optionalRequirements", VObj [("a", VStr "1")])]
  /\ flattenRequirements (Some (VObj (flattenRequirements (Some nested_group))))
    = [("a", VStr "1")]
  /\ flattenRequirements (Some (VObj (flattenRequirements (Some nested_group))))
     <> flattenRequirements (Some nested_group).
Proof.
  repeat split. discriminate.
Qed.

(** C8, amended: flattening an already-flat object (distinct keys, none a
    group name or the name of an [Object.prototype] member, no [null] or
    [""] value) returns the same mapping; and for any input (with groups
    free of [__proto__]), flattening twice equals flattening once whenever
    the first result has only such ordinary keys. *)
Theorem flattenRequirements_idempotent (o : obj) (provided : option value) :
  (flat_shaped o -> flattenRequirements (Some (VObj o)) = o)
  /\ (proto_free provided ->
      ordinary_keys (flattenRequirements provided) ->
      flattenRequirements (Some (VObj (flattenRequirements provided)))
      = flattenRequirements provided).
Proof.
  split.
  - apply flattenRequirements_flat.
  - intros _ Hkeys. apply flattenRequirements_flat.
    destruct (flattenRequirements_invariant provided) as [Hwf Hvals].
    repeat split; assumption.
Qed.

Lemma flattenRequirements_idempotent_witness :
  flattenRequirements
    (Some (VObj [("pressureRange", VStr "0-100 bar"); ("housing", VStr "steel")]))
  = [("pressureRange", VStr "0-100 bar"); ("housing", VStr "steel")]
  /\ flattenRequirements (Some (VObj (flattenRequirements (Some sample_requirements))))
     = flattenRequirements (Some sample_requirements).
Proof.
  destruct (flattenRequirements_idempotent
              [("pressureRange", VStr "0-100 bar"); ("housing", VStr "steel")]
              (Some sample_requirements)) as [Hflat Htwice].
  split.
  - apply Hflat. unfold flat_shaped, wf_obj, ordinary_keys, no_null_or_empty. simpl.
    repeat split; repeat constructor; simpl; try tauto; try reflexivity;
      intros [H|[]]; discriminate H.
  - apply Htwice.
    + split; reflexivity.
    + unfold ordinary_keys. simpl. repeat constructor.
Defined.

(** ** API wrappers *)

Lemma strip_separators_filter (s : string) :
  list_ascii_of_string (strip_separators s)
  = filter (fun c => negb (is_separator c)) (list_ascii_of_string s).
Proof.
  induction s as [|c rest IH]; simpl; [reflexivity|].
  destruct (is_separator c); simpl; now rewrite IH.
Qed.

Lemma strip_separators_clean (s : string) :
  existsb is_separator (list_ascii_of_string (strip_separators s)) = false.
Proof.
  induction s as [|c rest IH]; simpl; [reflexivity|].
  destruct (is_separator c) eqn:E; simpl; [assumption | now rewrite E].
Qed.

(** The separators are the three characters of the class: codes 92
    (backslash), 95 (underscore) and 45 (hyphen). *)
Lemma is_separator_spec (c : ascii) :
  is_separator c = true <->
  c = ascii_of_nat 92 \/ c = "_"%char \/ c = "-"%char.
Proof.
  unfold is_separator. rewrite !orb_true_iff, !Nat.eqb_eq. split.
  - intros [[H|H]|H]; apply (f_equal ascii_of_nat) in H;
      rewrite ascii_nat_embedding in H; subst; auto.
  - intros [-> | [-> | ->]]; auto.
Qed.


(** C5, as stated, fails on its last part: a successful exchange whose
    [content] is the empty string is passed on as it is. *)
Lemma agent_content_may_be_empty :
  fst (@generateAgentResponse empty_reply_backend default CtxEmpty "hello" None
         (ApiState.mk false []))
  = Fulfilled (AgentResponse.mk "" JsUndefined None).
Proof. reflexivity. Qed.

(** C5, amended: neither wrapper rejects.  When the exchange fails,
    [classifyIntent] resolves to exactly [{intent: "other", nextStep: null,
    resumeWorkflow: false}] and [generateAgentResponse] to the fixed,
    non-empty apology with [nextStep: null]; when it succeeds, they resolve
    to what the backend sent, so [content] is the backend's text (empty if
    the backend's is). *)
Theorem degradation_never_rejects `{Backend}
  (userInput : string) (step : WorkflowStep) (dataContext : DataContext)
  (userMessage : string) (intent : option string) (st : ApiState.t) :
  fst (classifyIntent userInput st)
  = Fulfilled
      match backend_intent userInput with
      | Response data => data
      | NetworkError _ => IntentClassificationResult.mk other None (Some false)
      end
  /\ fst (generateAgentResponse step dataContext userMessage intent st)
     = Fulfilled
         match backend_sales_agent step dataContext userMessage intent with
         | Response data => data
         | NetworkError _ =>
             AgentResponse.mk
               "I'm having trouble connecting to my brain right now. Please try again in a moment."
               JsNull None
         end
  /\ String.eqb
       "I'm having trouble connecting to my brain right now. Please try again in a moment."
       "" = false.
Proof.
  repeat split.
  - unfold classifyIntent, bind, axios_post. simpl.
    destruct (backend_intent userInput); reflexivity.
  - unfold generateAgentResponse, bind, axios_post. simpl.
    destruct (backend_sales_agent step dataContext userMessage intent) as [[c n m]|e];
      reflexivity.
Qed.

(** ** Messages and streaming *)

Lemma classifyIntent_run `{Backend} (userInput : string) (st : ApiState.t) :
  classifyIntent userInput st
  = (Fulfilled (classify_reply userInput),
     ApiState.mk (ApiState.hasValidatedOnce st)
       (ApiState.requests st ++ [PostIntent userInput])).
Proof.
  unfold classifyIntent, classify_reply, bind, axios_post. simpl.
  destruct (backend_intent userInput); reflexivity.
Qed.

Lemma generateAgentResponse_run `{Backend} (step : WorkflowStep)
  (dataContext : DataContext) (userMessage : string) (intent : option string)
  (st : ApiState.t) :
  generateAgentResponse step dataContext userMessage intent st
  = (Fulfilled (agent_reply step dataContext userMessage intent),
     ApiState.mk (ApiState.hasValidatedOnce st)
       (ApiState.requests st ++ [PostSalesAgent step dataContext userMessage intent])).
Proof.
  unfold generateAgentResponse, agent_reply, bind, axios_post. simpl.
  destruct (backend_sales_agent step dataContext userMessage intent) as [[c n m]|e];
    reflexivity.
Qed.

Lemma set_content_twice (id : nat) (c1 c2 : string) (l : list ChatMessage.t) :
  set_content id c2 (set_content id c1 l) = set_content id c2 l.
Proof.
  unfold set_content. rewrite map_map. apply map_ext. intros msg.
  destruct (Nat.eqb (ChatMessage.id msg) id) eqn:E; simpl; now rewrite E.
Qed.

Lemma set_content_fresh (id : nat) (c : string) (l : list ChatMessage.t) :
  Forall (fun msg => ChatMessage.id msg < id) l -> set_content id c l = l.
Proof.
  induction 1 as [|msg rest Hlt _ IH]; simpl; [reflexivity|].
  rewrite IH. destruct (Nat.eqb_spec (ChatMessage.id msg) id); [lia | reflexivity].
Qed.

Lemma append_nonempty (current : string) (c : ascii) (rest : string) :
  (current +++ String c EmptyString) +++ rest = current +++ String c rest.
Proof.
  induction current as [|d current IH]; simpl; [reflexivity | now rewrite IH].
Qed.

(** The reveal loop leaves the message with the whole text; with nothing
    left to reveal it touches nothing. *)
Lemma stream_loop_run (id : nat) (rest current : string)
  (s : AppState.t) (cd : obj) (cs : WorkflowStep) (str : bool)
  (ts : list Toast.t) (tk : nat) (ap : ApiState.t) :
  stream_loop id current rest (World.mk s cd cs str ts tk ap)
  = (tt,
     World.mk
       match rest with
       | EmptyString => s
       | String _ _ => with_messages (set_content id (current +++ rest)) s
       end cd cs str ts tk ap).
Proof.
  revert current s. induction rest as [|c rest IH]; intros current s; simpl.
  - reflexivity.
  - unfold bind, updateMessage, setState. simpl. rewrite IH.
    destruct s as [msgs cpt vr ar rs il iv pt]. unfold with_messages. simpl.
    destruct rest as [|c' rest'].
    + reflexivity.
    + rewrite set_content_twice, append_nonempty. reflexivity.
Qed.

(** One streamed message: appended with the next id, revealed in full, and
    the streaming flag is down again at the end. *)
Lemma streamAssistantMessage_run (fullText : string)
  (msgs : list ChatMessage.t) (cpt : option string)
  (vr : option ValidationResult.t) (ar : option AnalysisResult.t)
  (rs : option RequirementSchema.t) (il : bool) (iv pt : string)
  (cd : obj) (cs : WorkflowStep) (str : bool)
  (ts : list Toast.t) (tk : nat) (ap : ApiState.t) :
  Forall (fun msg => ChatMessage.id msg < tk) msgs ->
  streamAssistantMessage fullText
    (World.mk (AppState.mk msgs cpt vr ar rs il iv pt) cd cs str ts tk ap)
  = (tk,
     World.mk
       (AppState.mk (msgs ++ [ChatMessage.mk tk assistant fullText tk None])
          cpt vr ar rs il iv pt)
       cd cs false ts (S tk) ap).
Proof.
  intros Hfresh.
  unfold streamAssistantMessage, bind, setIsStreaming, addMessage, bind, fresh_tick,
    setState, ret. simpl.
  rewrite stream_loop_run. simpl.
  destruct fullText as [|c rest]; [reflexivity|].
  unfold with_messages. simpl.
  unfold set_content at 1. rewrite map_app. fold (set_content tk (String c rest) msgs).
  rewrite (set_content_fresh _ _ _ Hfresh). simpl. rewrite Nat.eqb_refl. reflexivity.
Qed.

(** ** handleSendMessage *)

Ltac open_world w :=
  let s := fresh "s" in
  destruct w as [s ? ? ? ? ? ?]; destruct s as [? ? ? ? ? ? ? ?].

Ltac run_async :=
  cbv beta iota zeta delta
    [bind liftApi addMessage fresh_tick setState setCurrentStep toast ret
     fst snd World.state World.collectedData World.currentStep World.isStreaming
     World.toasts World.tick World.api AppState.messages AppState.currentProductType
     AppState.validationResult AppState.analysisResult AppState.requirementSchema
     AppState.isLoading AppState.inputValue AppState.productType
     with_messages with_isLoading with_inputValue with_analysisResult].

Lemma fresh_after_add (msgs : list ChatMessage.t) (tk : nat) (m : ChatMessage.t) :
  Forall (fun msg => ChatMessage.id msg < tk) msgs ->
  ChatMessage.id m = tk ->
  Forall (fun msg => ChatMessage.id msg < S tk) (msgs ++ [m]).
Proof.
  intros Hfresh Hid. apply Forall_app. split.
  - eapply Forall_impl; [|exact Hfresh]. simpl. intros; lia.
  - constructor; [lia | constructor].
Qed.

(** Ids stay collision-free along a session: [initial_world] has no message,
    and appending or streaming a message keeps [ids_fresh]. *)
Lemma addMessage_keeps_ids_fresh (type : MessageType) (content : string)
  (role : option string) (w : World.t) :
  ids_fresh w -> ids_fresh (snd (addMessage type content role w)).
Proof.
  open_world w. unfold ids_fresh. simpl. intros Hfresh.
  now apply fresh_after_add.
Qed.

Lemma streamAssistantMessage_keeps_ids_fresh (fullText : string) (w : World.t) :
  ids_fresh w -> ids_fresh (snd (streamAssistantMessage fullText w)).
Proof.
  open_world w. unfold ids_fresh. simpl. intros Hfresh.
  rewrite streamAssistantMessage_run by assumption. simpl.
  now apply fresh_after_add.
Qed.

(** C2: whatever the current step and whatever [nextStep] the classifier
    suggests, a message classified as [productRequirements] is dispatched on
    [initialInput]. *)
Theorem productRequirements_dispatches_initialInput `{JsString} `{Backend}
  (userInput : string) (w : World.t) :
  trim userInput <> "" ->
  IntentClassificationResult.intent (classify_reply (trim userInput))
  = productRequirements ->
  fst (handleSendMessage userInput w) = SwitchOn initialInput
  /\ forall nextStep resumeWorkflow,
       targetStep_of (World.currentStep w)
         (IntentClassificationResult.mk productRequirements nextStep resumeWorkflow)
       = initialInput.
Proof.
  intros Hnonempty Hintent. split; [|reflexivity].
  open_world w. unfold handleSendMessage.
  destruct (String.eqb_spec (trim userInput) "") as [Hempty|_]; [contradiction|].
  run_async. rewrite classifyIntent_run. run_async.
  unfold targetStep_of. rewrite Hintent. reflexivity.
Qed.

(** C6, amended: a message classified as [knowledgeQuestion] is answered
    for the current step and leaves the step, [collectedData],
    [productType], [requirementSchema] and [analysisResult] (and the
    validation result and toasts) as they were.  What changes is the message
    log (the user's message and the answer are appended), the input box
    (cleared), and the loading and streaming flags (both down at the end). *)
Theorem knowledgeQuestion_keeps_workflow `{JsString} `{Backend}
  (userInput : string) (w : World.t) :
  ids_fresh w ->
  trim userInput <> "" ->
  IntentClassificationResult.intent (classify_reply (trim userInput))
  = knowledgeQuestion ->
  let w' := snd (handleSendMessage userInput w) in
  let now := World.tick w in
  let answer :=
    AgentResponse.content
      (agent_reply (World.currentStep w)
         (CtxKnowledge (AppState.productType (World.state w)) (World.collectedData w))
         (trim userInput) (Some "knowledgeQuestion")) in
  fst (handleSendMessage userInput w) = AnsweredKnowledge
  /\ World.currentStep w' = World.currentStep w
  /\ World.collectedData w' = World.collectedData w
  /\ AppState.productType (World.state w') = AppState.productType (World.state w)
  /\ AppState.currentProductType (World.state w')
     = AppState.currentProductType (World.state w)
  /\ AppState.requirementSchema (World.state w')
     = AppState.requirementSchema (World.state w)
  /\ AppState.validationResult (World.state w')
     = AppState.validationResult (World.state w)
  /\ AppState.analysisResult (World.state w') = AppState.analysisResult (World.state w)
  /\ World.toasts w' = World.toasts w
  /\ AppState.messages (World.state w')
     = AppState.messages (World.state w)
       ++ [ChatMessage.mk now user (trim userInput) now None;
           ChatMessage.mk (S now) assistant answer (S now) None]
  /\ AppState.isLoading (World.state w') = false
  /\ AppState.inputValue (World.state w') = ""
  /\ World.isStreaming w' = false.
Proof.
  intros Hfresh Hnonempty Hintent.
  open_world w. unfold ids_fresh in Hfresh. simpl in Hfresh.
  cbv zeta. unfold handleSendMessage.
  destruct (String.eqb_spec (trim userInput) "") as [Hempty|_]; [contradiction|].
  run_async. rewrite classifyIntent_run. run_async.
  rewrite Hintent. cbn [Intent_eqb].
  rewrite generateAgentResponse_run. run_async.
  rewrite streamAssistantMessage_run by (now apply fresh_after_add).
  run_async. rewrite <- app_assoc. repeat split; reflexivity.
Qed.

Lemma productRequirements_dispatches_initialInput_witness :
  fst (@handleSendMessage ascii_strings requirements_backend
         "I need a flow meter" advanced_world)
  = SwitchOn initialInput.
Proof.
  apply (@productRequirements_dispatches_initialInput ascii_strings requirements_backend
           "I need a flow meter" advanced_world).
  - discriminate.
  - reflexivity.
Defined.

(** C6, as stated, fails on "only the message log and the loading flag
    change": the handler also clears the input box. *)
Lemma knowledgeQuestion_clears_input :
  let w' := snd (@handleSendMessage ascii_strings knowledge_backend
                   "What is HART?" asking_world) in
  fst (@handleSendMessage ascii_strings knowledge_backend "What is HART?" asking_world)
  = AnsweredKnowledge
  /\ AppState.inputValue (World.state asking_world) = "What is HART?"
  /\ AppState.inputValue (World.state w') = ""
  /\ AppState.inputValue (World.state w') <> AppState.inputValue (World.state asking_world).
Proof.
  vm_compute. repeat split. discriminate.
Qed.

Lemma knowledgeQuestion_keeps_workflow_witness :
  let w' := snd (@handleSendMessage ascii_strings knowledge_backend
                   "What is HART?" asking_world) in
  World.currentStep w' = awaitOptional
  /\ World.collectedData w' = [("pressureRange", VStr "0-100 bar")]
  /\ AppState.messages (World.state w')
     = [ChatMessage.mk 0 user "What is HART?" 0 None;
        ChatMessage.mk 1 assistant "HART is a field protocol." 1 None].
Proof.
  pose proof (@knowledgeQuestion_keeps_workflow ascii_strings knowledge_backend
                "What is HART?" asking_world) as Hthm.
  assert (Hfresh : ids_fresh asking_world) by constructor.
  assert (Hnonempty : @trim ascii_strings "What is HART?" <> "") by discriminate.
  specialize (Hthm Hfresh Hnonempty eq_refl).
  cbv zeta in Hthm.
  destruct Hthm as (_ & Hstep & Hdata & _ & _ & _ & _ & _ & _ & Hmsgs & _).
  repeat split; assumption.
Defined.

(** ** performAnalysis *)

Lemma analyzeProducts_run `{JsString} `{Backend} (userInput : string) (st : ApiState.t) :
  analyzeProducts userInput st
  = (match backend_analyze (normalizeUserInput userInput) with
     | Response data => Fulfilled data
     | NetworkError error =>
         Rejected (or_else (AxiosError.response_data_error error) "Analysis failed")
     end,
     ApiState.mk (ApiState.hasValidatedOnce st)
       (ApiState.requests st ++ [PostAnalyze (normalizeUserInput userInput)])).
Proof.
  unfold analyzeProducts, bind, axios_post. simpl.
  destruct (backend_analyze (normalizeUserInput userInput)); reflexivity.
Qed.

(** One run of [performAnalysis], start to end. *)
Lemma performAnalysis_run `{JsString} `{Backend}
  (productType : string) (collectedData : obj)
  (msgs : list ChatMessage.t) (cpt : option string)
  (vr : option ValidationResult.t) (ar : option AnalysisResult.t)
  (rs : option RequirementSchema.t) (il : bool) (iv pt : string)
  (cd : obj) (cs : WorkflowStep) (str : bool)
  (ts : list Toast.t) (tk : nat) (hv : bool) (reqs : list Request) :
  Forall (fun msg => ChatMessage.id msg < tk) msgs ->
  let sent := normalizeUserInput (fullInputStr productType collectedData) in
  performAnalysis productType collectedData
    (World.mk (AppState.mk msgs cpt vr ar rs il iv pt) cd cs str ts tk
       (ApiState.mk hv reqs))
  = (Fulfilled tt,
     match backend_analyze sent with
     | Response analysis =>
         let announcement :=
           "Analysis complete. Found "
           +++ string_of_nat (length (highScoringProducts analysis))
           +++ " matching products." in
         World.mk
           (AppState.mk
              (msgs ++ [ChatMessage.mk tk assistant
                          (AgentResponse.content
                             (agent_reply finalAnalysis (CtxAnalysis analysis)
                                announcement None))
                          tk None])
              cpt vr (Some analysis) rs false iv pt)
           cd initialInput false
           (ts ++ [Toast.mk "Analysis Complete"
                     ("Found " +++ string_of_nat (length (highScoringProducts analysis))
                      +++ " matching products.")])
           (S tk)
           (ApiState.mk hv
              (reqs ++ [PostAnalyze sent;
                        PostSalesAgent finalAnalysis (CtxAnalysis analysis)
                          announcement None]))
     | NetworkError _ =>
         World.mk
           (AppState.mk
              (msgs ++ [ChatMessage.mk tk assistant
                          (AgentResponse.content
                             (agent_reply analysisError CtxEmpty
                                "An error occurred during final analysis." None))
                          tk None])
              cpt vr ar rs false iv pt)
           cd analysisError false ts (S tk)
           (ApiState.mk hv
              (reqs ++ [PostAnalyze sent;
                        PostSalesAgent analysisError CtxEmpty
                          "An error occurred during final analysis." None]))
     end).
Proof.
  intros Hfresh. cbv zeta. unfold performAnalysis, performAnalysis_catch.
  run_async. rewrite analyzeProducts_run. run_async.
  destruct (backend_analyze (normalizeUserInput (fullInputStr productType collectedData)))
    as [analysis|error];
    rewrite generateAgentResponse_run; run_async;
    rewrite streamAssistantMessage_run by assumption; run_async;
    cbn [ApiState.requests ApiState.hasValidatedOnce]; rewrite <- app_assoc;
    reflexivity.
Qed.

(** C4, amended: [performAnalysis] always settles without rejecting, posts
    the analysis request for the data it closed over, and never touches
    [collectedData] or [productType], so a rerun submits the same data.
    When the analysis call succeeds, the toast counts the ranked products
    whose [overallScore] is at least 80 and whose [requirementsMatch] is
    true, the whole unfiltered result is stored, the completion message is
    appended, and the step becomes [initialInput].  When the call fails, the
    error message is appended, no toast is shown, the stored result is left
    as it was, and the step becomes [analysisError]. *)
Theorem performAnalysis_outcomes `{JsString} `{Backend}
  (productType : string) (collectedData : obj) (w : World.t) :
  ids_fresh w ->
  let w' := snd (performAnalysis productType collectedData w) in
  let sent := normalizeUserInput (fullInputStr productType collectedData) in
  let now := World.tick w in
  fst (performAnalysis productType collectedData w) = Fulfilled tt
  /\ World.collectedData w' = World.collectedData w
  /\ AppState.productType (World.state w') = AppState.productType (World.state w)
  /\ AppState.isLoading (World.state w') = false
  /\ (exists reply,
        ApiState.requests (World.api w')
        = ApiState.requests (World.api w) ++ [PostAnalyze sent; reply])
  /\ match backend_analyze sent with
     | Response analysis =>
         let count :=
           length
             (filter
                (fun p => (80 <=? RankedProduct.overallScore p)%Z
                          && RankedProduct.requirementsMatch p)
                (OverallRanking.rankedProducts (AnalysisResult.overallRanking analysis))) in
         World.toasts w'
         = World.toasts w
           ++ [Toast.mk "Analysis Complete"
                 ("Found " +++ string_of_nat count +++ " matching products.")]
         /\ AppState.analysisResult (World.state w') = Some analysis
         /\ AppState.messages (World.state w')
            = AppState.messages (World.state w)
              ++ [ChatMessage.mk now assistant
                    (AgentResponse.content
                       (agent_reply finalAnalysis (CtxAnalysis analysis)
                          ("Analysis complete. Found " +++ string_of_nat count
                           +++ " matching products.") None))
                    now None]
         /\ World.currentStep w' = initialInput
     | NetworkError _ =>
         World.toasts w' = World.toasts w
         /\ AppState.analysisResult (World.state w')
            = AppState.analysisResult (World.state w)
         /\ AppState.messages (World.state w')
            = AppState.messages (World.state w)
              ++ [ChatMessage.mk now assistant
                    (AgentResponse.content
                       (agent_reply analysisError CtxEmpty
                          "An error occurred during final analysis." None))
                    now None]
         /\ World.currentStep w' = analysisError
     end.
Proof.
  intros Hfresh. open_world w. destruct api as [hv reqs].
  unfold ids_fresh in Hfresh. simpl in Hfresh.
  cbv zeta. rewrite performAnalysis_run by assumption. cbv zeta.
  destruct (backend_analyze (normalizeUserInput (fullInputStr productType collectedData)))
    as [analysis|error]; simpl;
    repeat split; try reflexivity; eexists; reflexivity.
Qed.

(** C4, as stated, fails on the count: two ranked products score at least
    80, but only the one whose [requirementsMatch] is true is counted. *)
Lemma toast_count_needs_requirementsMatch :
  let w' := snd (@performAnalysis ascii_strings analysis_backend "pressure transmitter"
                   [("pressureRange", VStr "0-100 bar")] initial_world) in
  World.toasts w' = [Toast.mk "Analysis Complete" "Found 1 matching products."]
  /\ AppState.analysisResult (World.state w') = Some sample_analysis
  /\ length (filter (fun p => (80 <=? RankedProduct.overallScore p)%Z)
               (OverallRanking.rankedProducts
                  (AnalysisResult.overallRanking sample_analysis))) = 2.
Proof.
  vm_compute. repeat split.
Qed.

Lemma performAnalysis_outcomes_witness :
  let w' := snd (@performAnalysis ascii_strings analysis_backend "pressure transmitter"
                   [("pressureRange", VStr "0-100 bar")] initial_world) in
  World.currentStep w' = initialInput
  /\ AppState.analysisResult (World.state w') = Some sample_analysis
  /\ World.collectedData w' = World.collectedData initial_world.
Proof.
  pose proof (@performAnalysis_outcomes ascii_strings analysis_backend
                "pressure transmitter" [("pressureRange", VStr "0-100 bar")]
                initial_world) as Hthm.
  assert (Hfresh : ids_fresh initial_world) by constructor.
  specialize (Hthm Hfresh). cbv zeta in Hthm.
  destruct Hthm as (_ & Hdata & _ & _ & _ & Hcase).
  change (@backend_analyze analysis_backend
            (@normalizeUserInput ascii_strings
               (fullInputStr "pressure transmitter" [("pressureRange", VStr "0-100 bar")])))
    with (@Response AnalysisResult.t sample_analysis) in Hcase.
  cbv beta iota zeta in Hcase.
  destruct Hcase as (_ & Hresult & _ & Hstep).
  repeat split; assumption.
Defined.

(** A retry after a run posts the very same analysis request again: the
    run left the data it is composed from untouched. *)
Lemma handleRetry_resubmits `{JsString} `{Backend} (w : World.t) :
  ids_fresh w ->
  let sent :=
    normalizeUserInput
      (fullInputStr (AppState.productType (World.state w)) (World.collectedData w)) in
  exists reply1 reply2,
    ApiState.requests (World.api (snd (handleRetry (snd (handleRetry w)))))
    = ApiState.requests (World.api w)
      ++ [PostAnalyze sent; reply1; PostAnalyze sent; reply2].
Proof.
  intros Hfresh. open_world w. destruct api as [hv reqs].
  unfold ids_fresh in Hfresh. simpl in Hfresh.
  cbv zeta. unfold handleRetry at 2. simpl.
  rewrite performAnalysis_run by assumption. cbv zeta.
  destruct (backend_analyze (normalizeUserInput (fullInputStr productType collectedData)))
    as [analysis|error] eqn:Hanswer; unfold handleRetry; simpl;
    (rewrite performAnalysis_run
      by (apply fresh_after_add; [assumption | reflexivity]));
    cbv zeta; rewrite Hanswer; simpl; rewrite <- app_assoc;
    do 2 eexists; reflexivity.
Qed.

Example analysis_request_example :
  @normalizeUserInput ascii_strings
    (fullInputStr "Pressure Transmitter"
       [("pressureRange", VStr "0-100 bar"); ("outputSignal", VStr "");
        ("certifications", VArr [VStr "ATEX"; VStr "SIL_3"])])
  = "product type: pressure transmitter. pressurerange: 0100 bar. 0: atex. 1: sil3".
Proof. reflexivity. Qed.

(** ** RightPanel *)

Lemma Map_get_set (m : MatchMap) (k k' : string) (b : bool) :
  Map_get (Map_set m k b) k' = if String.eqb k' k then Some b else Map_get m k'.
Proof.
  induction m as [|[k0 b0] rest IH]; simpl.
  - reflexivity.
  - destruct (String.eqb_spec k k0) as [->|Hne]; simpl.
    + destruct (String.eqb k' k0); reflexivity.
    + rewrite IH. destruct (String.eqb_spec k' k0) as [->|Hne'].
      * destruct (String.eqb_spec k0 k); [congruence | reflexivity].
      * reflexivity.
Qed.

(** The map holds, per key, the flag of the last vendor match with that
    key. *)
Lemma requirementsMatchMap_get (a : AnalysisResult.t) (k : string) :
  Map_get (requirementsMatchMap (Some a)) k
  = option_map ProductMatch.requirementsMatch
      (last_match k (VendorAnalysis.vendorMatches (AnalysisResult.vendorAnalysis a))).
Proof.
  unfold requirementsMatchMap, last_match.
  generalize (VendorAnalysis.vendorMatches (AnalysisResult.vendorAnalysis a)) as l.
  intros l. induction l as [|m l IH] using rev_ind; [reflexivity|].
  rewrite fold_left_app, rev_unit. simpl. rewrite Map_get_set.
  destruct (String.eqb k (product_key (ProductMatch.vendor m) (ProductMatch.productName m)));
    [reflexivity | exact IH].
Qed.

Lemma renumber_ranks (map : MatchMap) (l : list RankedProduct.t) (index : nat) :
  List.map RankedProduct.rank (map_index (renumber map) index l)
  = List.map Z.of_nat (seq (S index) (length l)).
Proof.
  revert index. induction l as [|p l IH]; intros index; simpl; [reflexivity|].
  rewrite IH. f_equal. lia.
Qed.

Lemma renumber_identity (map : MatchMap) (l : list RankedProduct.t) (index : nat) :
  List.map product_identity (map_index (renumber map) index l)
  = List.map product_identity l.
Proof.
  revert index. induction l as [|p l IH]; intros index; simpl; [reflexivity|].
  now rewrite IH.
Qed.

Lemma renumber_flags (map : MatchMap) (l : list RankedProduct.t) (index : nat) :
  List.map RankedProduct.requirementsMatch (map_index (renumber map) index l)
  = List.map (effective_match map) l.
Proof.
  revert index. induction l as [|p l IH]; intros index; simpl; [reflexivity|].
  now rewrite IH.
Qed.

(** C3, as stated, fails on "exactly the entries whose match flag is
    true": the flag of the vendor match with the same vendor and product
    name overrides the entry's own.  Here the entry whose own flag is true
    is dropped and the one whose own flag is false is kept. *)
Lemma ranked_filter_follows_vendor_flag :
  filter RankedProduct.requirementsMatch
    (OverallRanking.rankedProducts (AnalysisResult.overallRanking overridden_analysis))
  = [high_score_match]
  /\ option_map
       (fun f => List.map product_identity
                   (OverallRanking.rankedProducts (AnalysisResult.overallRanking f)))
       (filteredAnalysisResult (Some overridden_analysis))
     = Some [product_identity high_score_no_match].
Proof.
  split; reflexivity.
Qed.

(** C3, amended: the filtered result keeps of [vendorMatches] exactly the
    entries whose [requirementsMatch] is true, and of [rankedProducts]
    exactly the entries whose effective flag is true, in their original
    order: the effective flag is the [requirementsMatch] of the last vendor
    match with the same [vendor-productName] key when there is one, and the
    entry's own otherwise.  Every retained entry carries [requirementsMatch
    = true], and the retained ranks are 1..N, whatever the backend's ranks
    were. *)
Theorem filteredAnalysisResult_ranking (a : AnalysisResult.t) :
  let ranked := OverallRanking.rankedProducts (AnalysisResult.overallRanking a) in
  let matches := VendorAnalysis.vendorMatches (AnalysisResult.vendorAnalysis a) in
  let effective p :=
    match last_match (product_key (RankedProduct.vendor p) (RankedProduct.productName p))
            matches with
    | Some m => ProductMatch.requirementsMatch m
    | None => RankedProduct.requirementsMatch p
    end in
  exists f,
    filteredAnalysisResult (Some a) = Some f
    /\ VendorAnalysis.vendorMatches (AnalysisResult.vendorAnalysis f)
       = filter ProductMatch.requirementsMatch matches
    /\ Forall (fun m => ProductMatch.requirementsMatch m = true)
         (VendorAnalysis.vendorMatches (AnalysisResult.vendorAnalysis f))
    /\ List.map product_identity
         (OverallRanking.rankedProducts (AnalysisResult.overallRanking f))
       = List.map product_identity (filter effective ranked)
    /\ Forall (fun p => RankedProduct.requirementsMatch p = true)
         (OverallRanking.rankedProducts (AnalysisResult.overallRanking f))
    /\ List.map RankedProduct.rank
         (OverallRanking.rankedProducts (AnalysisResult.overallRanking f))
       = List.map Z.of_nat (seq 1 (length (filter effective ranked))).
Proof.
  cbv zeta. eexists. split; [reflexivity|]. cbn [AnalysisResult.vendorAnalysis
    AnalysisResult.overallRanking VendorAnalysis.vendorMatches
    OverallRanking.rankedProducts].
  assert (Heff : forall p,
             effective_match (requirementsMatchMap (Some a)) p
             = match last_match
                       (product_key (RankedProduct.vendor p) (RankedProduct.productName p))
                       (VendorAnalysis.vendorMatches (AnalysisResult.vendorAnalysis a))
               with
               | Some m => ProductMatch.requirementsMatch m
               | None => RankedProduct.requirementsMatch p
               end).
  { intros p. unfold effective_match. rewrite requirementsMatchMap_get.
    destruct (last_match _ _); reflexivity. }
  rewrite <- (filter_ext _ _ Heff).
  repeat split.
  - rewrite Forall_forall. intros m Hin. apply filter_In in Hin. tauto.
  - apply renumber_identity.
  - rewrite Forall_forall. intros p Hin.
    apply (in_map RankedProduct.requirementsMatch) in Hin.
    rewrite renumber_flags, in_map_iff in Hin. destruct Hin as [q [Hq Hin]].
    apply filter_In in Hin. destruct Hin as [_ Hkept]. congruence.
  - apply renumber_ranks.
Qed.

Example ranking_filter_example :
  option_map
    (fun f => List.map (fun p => (RankedProduct.productName p, RankedProduct.rank p))
                (OverallRanking.rankedProducts (AnalysisResult.overallRanking f)))
    (filteredAnalysisResult
       (Some (AnalysisResult.mk "pt" (VendorAnalysis.mk [])
                (OverallRanking.mk None
                   [RankedProduct.mk "pt" 1 "A" "v" 90 "" "" true None;
                    RankedProduct.mk "pt" 2 "B" "v" 80 "" "" false None;
                    RankedProduct.mk "pt" 3 "C" "v" 70 "" "" true None]))))
  = Some [("A", 1%Z); ("C", 2%Z)].
Proof. reflexivity. Qed.

Lemma filter_nil_iff {A : Type} (f : A -> bool) (l : list A) :
  filter f l = [] <-> forall x, In x l -> f x = false.
Proof.
  induction l as [|x l IH]; simpl.
  - split; [intros _ y [] | reflexivity].
  - destruct (f x) eqn:E; split.
    + discriminate.
    + intros H. specialize (H x (or_introl eq_refl)). congruence.
    + intros H y [<-|Hin]; [assumption | now apply IH].
    + intros H. apply IH. intros y Hin. apply H. now right.
Qed.

(** C10, as stated, fails on its last part: with a matching vendor entry
    and the panel docked, the main return shows the compact docked summary,
    not the results. *)
Lemma docked_panel_hides_results :
  existsb ProductMatch.requirementsMatch
    (VendorAnalysis.vendorMatches (AnalysisResult.vendorAnalysis docked_analysis)) = true
  /\ RightPanel (Some docked_analysis) true = DockedSummary.
Proof.
  split; reflexivity.
Qed.

(** C10, amended: whether the minimal docked panel is returned depends on
    the filtered [vendorMatches] alone.  With no vendor match whose
    [requirementsMatch] is true the minimal panel is rendered, even when
    filtered [rankedProducts] remain (as for [sample_analysis]); with at
    least one, the main panel is rendered: the results view over the
    filtered result when the panel is expanded, its compact docked summary
    when [isDocked]. *)
Theorem RightPanel_minimal_by_vendorMatches (a : AnalysisResult.t) (isDocked : bool) :
  ((forall m,
       In m (VendorAnalysis.vendorMatches (AnalysisResult.vendorAnalysis a)) ->
       ProductMatch.requirementsMatch m = false) ->
   RightPanel (Some a) isDocked = MinimalDockedPanel)
  /\ ((exists m,
          In m (VendorAnalysis.vendorMatches (AnalysisResult.vendorAnalysis a))
          /\ ProductMatch.requirementsMatch m = true) ->
      exists final,
        filteredAnalysisResult (Some a) = Some final
        /\ RightPanel (Some a) isDocked
           = if isDocked then DockedSummary else ResultsView final)
  /\ (RightPanel (Some sample_analysis) isDocked = MinimalDockedPanel
      /\ option_map
           (fun f => length (OverallRanking.rankedProducts (AnalysisResult.overallRanking f)))
           (filteredAnalysisResult (Some sample_analysis))
         = Some 1).
Proof.
  split; [|split; [|split; reflexivity]].
  - intros Hnone. apply filter_nil_iff in Hnone.
    unfold RightPanel. simpl. now rewrite Hnone.
  - intros [m [Hin Hflag]]. eexists. split; [reflexivity|].
    unfold RightPanel. simpl.
    destruct (filter ProductMatch.requirementsMatch
                (VendorAnalysis.vendorMatches (AnalysisResult.vendorAnalysis a)))
      as [|m' rest] eqn:Hfilter.
    + pose proof (proj1 (filter_nil_iff _ _) Hfilter m Hin). congruence.
    + reflexivity.
Qed.

Lemma RightPanel_minimal_by_vendorMatches_witness :
  RightPanel (Some sample_analysis) false = MinimalDockedPanel
  /\ exists final,
       filteredAnalysisResult (Some docked_analysis) = Some final
       /\ RightPanel (Some docked_analysis) false = ResultsView final.
Proof.
  split.
  - apply (proj1 (RightPanel_minimal_by_vendorMatches sample_analysis false)).
    intros m [].
  - apply (proj1 (proj2 (RightPanel_minimal_by_vendorMatches docked_analysis false))).
    eexists. split; [left; reflexivity | reflexivity].
Defined.

(** ** ChatInterface *)

(** C7, as stated, fails: while a stream is running and no request is
    flagged as outstanding, both the Send button and the Enter key send. *)
Lemma streaming_does_not_gate_send :
  ChatInterfaceProps.isStreaming streaming_props = true
  /\ @message_sent ascii_strings streaming_props ClickSend = Some "and the accuracy?"
  /\ @message_sent ascii_strings streaming_props (KeyDown "Enter" false)
     = Some "and the accuracy?".
Proof.
  repeat split.
Qed.

(** C7, amended: the gate is [isLoading] alone.  While [isLoading] is true
    no message leaves the chat input, by the Send button or by any key;
    [isStreaming] has no part in the decision (it only hides the typing
    indicator); and once [isLoading] is false, a non-blank input is sent by
    the button and by Enter outside the [finalAnalysis] step.  In the
    [finalAnalysis] step the button and the textarea are disabled, and
    nothing leaves the chat input whatever the flags and the input are. *)
Theorem send_gate_is_isLoading `{JsString} (props : ChatInterfaceProps.t)
  (ev : InputEvent) (streaming : bool) :
  (ChatInterfaceProps.isLoading props = true -> message_sent props ev = None)
  /\ message_sent
       (ChatInterfaceProps.mk (ChatInterfaceProps.isLoading props) streaming
          (ChatInterfaceProps.inputValue props) (ChatInterfaceProps.currentStep props))
       ev
     = message_sent props ev
  /\ (ChatInterfaceProps.isLoading props = false ->
      trim (ChatInterfaceProps.inputValue props) <> "" ->
      is_finalAnalysis (ChatInterfaceProps.currentStep props) = false ->
      message_sent props ClickSend = Some (trim (ChatInterfaceProps.inputValue props))
      /\ message_sent props (KeyDown "Enter" false)
         = Some (trim (ChatInterfaceProps.inputValue props)))
  /\ (is_finalAnalysis (ChatInterfaceProps.currentStep props) = true ->
      message_sent props ev = None).
Proof.
  destruct props as [loading str input current].
  unfold message_sent, on_input_event, handleKeyDown, handleSend, send_button_disabled,
    textarea_disabled. simpl.
  split; [|split; [|split]].
  - intros ->. rewrite orb_true_r. simpl.
    destruct ev as [|key shiftKey]; [reflexivity|].
    destruct (is_finalAnalysis current); [reflexivity|].
    destruct (String.eqb key "Enter" && negb shiftKey); [|reflexivity].
    destruct (String.eqb (trim input) ""); reflexivity.
  - reflexivity.
  - intros -> Hnonempty ->.
    destruct (String.eqb_spec (trim input) ""); [contradiction | split; reflexivity].
  - intros ->. rewrite orb_true_r. destruct ev; reflexivity.
Qed.

Lemma send_gate_is_isLoading_witness :
  @message_sent ascii_strings
    (ChatInterfaceProps.mk true false "and the accuracy?" (step awaitOptional))
    (KeyDown "Enter" false) = None
  /\ @message_sent ascii_strings streaming_props ClickSend = Some "and the accuracy?"
  /\ @message_sent ascii_strings
       (ChatInterfaceProps.mk false false "run again" (step finalAnalysis))
       ClickSend = None.
Proof.
  split; [|split].
  - apply (proj1 (@send_gate_is_isLoading ascii_strings
                    (ChatInterfaceProps.mk true false "and the accuracy?"
                       (step awaitOptional))
                    (KeyDown "Enter" false) false)).
    reflexivity.
  - apply (proj1 (proj2 (proj2 (@send_gate_is_isLoading ascii_strings streaming_props
                                  ClickSend true)))).
    + reflexivity.
    + discriminate.
    + reflexivity.
  - apply (proj2 (proj2 (proj2 (@send_gate_is_isLoading ascii_strings
                                  (ChatInterfaceProps.mk false false "run again"
                                     (step finalAnalysis))
                                  ClickSend false)))).
    reflexivity.
Defined.

(** * Further properties *)

(** ** Assignments and lookups *)

Lemma get_own_replace_own (o : obj) (k k' : string) (v : value) :
  has_own o k = true ->
  get_own (replace_own o k v) k' = if String.eqb k' k then Some v else get_own o k'.
Proof.
  unfold has_own. induction o as [|[k0 v0] rest IH]; simpl; [discriminate|].
  destruct (String.eqb_spec k k0) as [->|Hne]; simpl.
  - intros _. destruct (String.eqb k' k0); reflexivity.
  - intros Hown. rewrite (IH Hown).
    destruct (String.eqb_spec k' k0) as [->|Hne'].
    + destruct (String.eqb_spec k0 k); [congruence | reflexivity].
    + reflexivity.
Qed.

Lemma get_own_app_last (o : obj) (k k' : string) (v : value) :
  has_own o k = false ->
  get_own (o ++ [(k, v)]) k' = if String.eqb k' k then Some v else get_own o k'.
Proof.
  intros Hown. rewrite get_own_app. simpl.
  destruct (String.eqb_spec k' k) as [->|Hne].
  - unfold has_own in Hown. destruct (get_own o k); [discriminate | reflexivity].
  - destruct (get_own o k'); reflexivity.
Qed.

(** Reading after [o[k] = v], for any name but a fresh [__proto__]. *)
Lemma get_own_obj_set (o : obj) (k k' : string) (v : value) :
  k <> "__proto__" ->
  get_own (obj_set o k v) k' = if String.eqb k' k then Some v else get_own o k'.
Proof.
  intros Hproto. unfold obj_set. destruct (has_own o k) eqn:Hown.
  - now apply get_own_replace_own.
  - destruct (String.eqb_spec k "__proto__"); [contradiction|].
    now apply get_own_app_last.
Qed.

Lemma get_own_obj_define (o : obj) (k k' : string) (v : value) :
  get_own (obj_define o k v) k' = if String.eqb k' k then Some v else get_own o k'.
Proof.
  unfold obj_define. destruct (has_own o k) eqn:Hown.
  - now apply get_own_replace_own.
  - now apply get_own_app_last.
Qed.

Lemma obj_define_keys (o : obj) (k : string) (v : value) :
  map fst (obj_define o k v)
  = if has_own o k then map fst o else map fst o ++ [k].
Proof.
  unfold obj_define. destruct (has_own o k).
  - apply replace_own_keys.
  - now rewrite map_app.
Qed.

Lemma obj_define_wf (o : obj) (k : string) (v : value) :
  wf_obj o -> wf_obj (obj_define o k v).
Proof.
  unfold wf_obj. intros Hwf. rewrite obj_define_keys.
  destruct (has_own o k) eqn:Hown; [assumption|].
  apply NoDup_app; [assumption | repeat constructor; simpl; tauto |].
  intros x Hin [<-|[]]. apply has_own_false_iff in Hown. tauto.
Qed.

(** Reading a spread: the right operand wins. *)
Lemma get_own_spread (a b : obj) (k : string) :
  wf_obj b ->
  get_own (spread a b) k
  = match get_own b k with Some v => Some v | None => get_own a k end.
Proof.
  unfold spread. revert a. induction b as [|[k0 v0] rest IH]; intros a Hwf; simpl.
  - reflexivity.
  - unfold wf_obj in Hwf. simpl in Hwf. inversion Hwf as [|? ? Hnotin Hnodup]; subst.
    rewrite (IH _ Hnodup). rewrite get_own_obj_define.
    destruct (String.eqb_spec k k0) as [->|Hne].
    + apply get_own_None_iff in Hnotin. now rewrite Hnotin.
    + reflexivity.
Qed.

Lemma spread_wf (a b : obj) : wf_obj a -> wf_obj (spread a b).
Proof.
  unfold spread. revert a. induction b as [|[k0 v0] rest IH]; intros a Hwf; simpl.
  - assumption.
  - apply IH. now apply obj_define_wf.
Qed.

(** ** Schema merger: further properties *)

Lemma has_property_app_inv (o extra : obj) (k : string) :
  has_property (o ++ extra) k = false -> has_property o k = false.
Proof.
  intros H. destruct (has_property o k) eqn:E; [|reflexivity].
  apply (has_property_app_l o extra) in E. congruence.
Qed.

Lemma merge_fold_structure (keys : list string) (merged : obj) :
  exists extra,
    fold_left merge_key keys merged = merged ++ extra
    /\ Forall (fun e => snd e = VStr "" /\ In (fst e) keys
                        /\ has_property merged (fst e) = false) extra
    /\ (wf_obj merged -> wf_obj (merged ++ extra)).
Proof.
  revert merged. induction keys as [|key keys IH]; intros merged; simpl.
  - exists []. rewrite app_nil_r. repeat split; [constructor | trivial].
  - destruct (IH (merge_key merged key)) as [extra [Heq [Hall Hwf]]].
    rewrite Heq. unfold merge_key in *.
    destruct (has_property merged key) eqn:Hin; simpl in *.
    + exists extra. repeat split; [|assumption].
      eapply Forall_impl; [|exact Hall]. simpl. intros e (? & ? & ?). auto.
    + rewrite (obj_set_fresh _ _ _ Hin) in *.
      exists ((key, VStr "") :: extra). rewrite <- app_assoc. simpl. repeat split.
      * constructor; [simpl; auto|].
        eapply Forall_impl; [|exact Hall]. simpl. intros e (? & ? & Hmiss).
        repeat split; auto. now apply has_property_app_inv in Hmiss.
      * intros Hwfm. rewrite <- app_assoc in Hwf. apply Hwf.
        unfold wf_obj. rewrite map_app. simpl.
        apply NoDup_app; [assumption | repeat constructor; simpl; tauto |].
        intros x Hx [<-|[]]. apply orb_false_iff in Hin as [Hown _].
        apply has_own_false_iff in Hown. tauto.
Qed.

(** X1.  [mergeRequirementsWithSchema] only adds placeholders.  Under every
    key the result holds the provided value when the data has the key; the
    empty string when the data lacks the key, the schema lists it and it is
    not the name of an [Object.prototype] member; and nothing otherwise.
    Distinct keys stay distinct. *)
Theorem merge_adds_placeholders_only (provided : obj) (schema : RequirementSchema.t)
  (k : string) :
  get_own (mergeRequirementsWithSchema provided schema) k
  = match get_own provided k with
    | Some v => Some v
    | None =>
        if inb k (allKeys schema) && negb (inb k object_prototype_keys)
        then Some (VStr "")
        else None
    end
  /\ (wf_obj provided -> wf_obj (mergeRequirementsWithSchema provided schema)).
Proof.
  pose proof (merge_has_every_schema_key provided schema k) as Hhas.
  unfold mergeRequirementsWithSchema in *.
  destruct (merge_fold_structure (allKeys schema) provided) as [extra [Heq [Hall Hwf]]].
  rewrite Heq in *. split; [|exact Hwf].
  rewrite get_own_app.
  destruct (get_own provided k) as [v|] eqn:Hprovided; [reflexivity|].
  assert (Hextra : forall v, get_own extra k = Some v ->
                     v = VStr "" /\ In k (allKeys schema)
                     /\ inb k object_prototype_keys = false).
  { intros v Hget. apply get_own_In in Hget.
    rewrite Forall_forall in Hall. destruct (Hall _ Hget) as (Hv & Hin & Hnone).
    cbn in Hv, Hin, Hnone. unfold has_property in Hnone.
    apply orb_false_iff in Hnone. tauto. }
  destruct (inb k (allKeys schema)) eqn:Hin; cbn [andb].
  - destruct (inb k object_prototype_keys) eqn:Hproto; cbn [negb].
    + destruct (get_own extra k) as [v|] eqn:Hget; [|reflexivity].
      destruct (Hextra v eq_refl) as (_ & _ & Hno). discriminate.
    + apply inb_true_iff in Hin. specialize (Hhas Hin).
      unfold has_property in Hhas. rewrite Hproto, orb_false_r in Hhas.
      unfold has_own in Hhas. rewrite get_own_app, Hprovided in Hhas.
      destruct (get_own extra k) as [v|] eqn:Hget; [|discriminate].
      destruct (Hextra v eq_refl) as (-> & _). reflexivity.
  - destruct (get_own extra k) as [v|] eqn:Hget; [|reflexivity].
    destruct (Hextra v eq_refl) as (_ & Hkey & _).
    apply inb_true_iff in Hkey. rewrite Hkey in Hin. discriminate.
Qed.

Lemma merge_fold_noop (keys : list string) (merged : obj) :
  (forall k, In k keys -> has_property merged k = true) ->
  fold_left merge_key keys merged = merged.
Proof.
  induction keys as [|key keys IH]; intros Hall; simpl; [reflexivity|].
  unfold merge_key at 2. rewrite (Hall key (or_introl eq_refl)). simpl.
  apply IH. intros k Hin. apply Hall. now right.
Qed.

(** X2.  Merging against the same schema a second time changes nothing. *)
Theorem merge_twice_same_schema (provided : obj) (schema : RequirementSchema.t) :
  mergeRequirementsWithSchema (mergeRequirementsWithSchema provided schema) schema
  = mergeRequirementsWithSchema provided schema.
Proof.
  unfold mergeRequirementsWithSchema at 1. apply merge_fold_noop.
  intros k Hin. now apply merge_has_every_schema_key.
Qed.

(** X3.  Whatever it is given, [flattenRequirements] returns an object with
    distinct keys in which no value is [null] or the empty string. *)
Theorem flattenRequirements_result_clean (provided : option value) :
  wf_obj (flattenRequirements provided)
  /\ Forall (fun e => snd e <> VNull /\ snd e <> VStr "") (flattenRequirements provided).
Proof.
  destruct (flattenRequirements_invariant provided) as [Hwf Hvals]. split; [assumption|].
  eapply Forall_impl; [|exact Hvals]. simpl. intros [k v] Hv. simpl in *.
  split; intros ->; discriminate Hv.
Qed.

Lemma process_lookup (g flat : obj) (k : string) :
  clean_group (Some g) ->
  get_own (process (Some (VObj g)) flat) k
  = match group_value (Some g) k with
    | Some v => Some v
    | None => get_own flat k
    end.
Proof.
  unfold process, clean_group, group_value, wf_obj. simpl.
  revert flat. induction g as [|[k0 v0] rest IH]; intros flat [Hwf Hproto]; simpl.
  - reflexivity.
  - simpl in Hwf. inversion Hwf as [|? ? Hnotin Hnodup]; subst.
    unfold has_own in Hproto. cbn [get_own] in Hproto.
    destruct (String.eqb_spec "__proto__" k0) as [Heq|Hne]; [discriminate Hproto|].
    rewrite IH by (split; [assumption | exact Hproto]).
    destruct (String.eqb_spec k k0) as [->|Hk].
    + apply get_own_None_iff in Hnotin. rewrite Hnotin.
      destruct (not_null_or_empty v0); [|reflexivity].
      rewrite get_own_obj_set by congruence. now rewrite String.eqb_refl.
    + destruct (get_own rest k) as [v|]; [destruct (not_null_or_empty v)|];
        try reflexivity;
        (destruct (not_null_or_empty v0); [|reflexivity];
         rewrite get_own_obj_set by congruence;
         destruct (String.eqb_spec k k0); [contradiction | reflexivity]).
Qed.

Lemma flatten_top_lookup (top flat : obj) (k : string) :
  wf_obj top ->
  get_own (fold_left flatten_top top flat) k
  = match get_own flat k with
    | Some v => Some v
    | None =>
        if inb k group_names || inb k object_prototype_keys then None
        else group_value (Some top) k
    end.
Proof.
  unfold wf_obj, group_value. revert flat.
  induction top as [|[k0 v0] rest IH]; intros flat Hwf; cbn [fold_left].
  - cbn [get_own]. destruct (get_own flat k); [reflexivity|].
    destruct (inb k group_names || inb k object_prototype_keys); reflexivity.
  - simpl in Hwf. inversion Hwf as [|? ? Hnotin Hnodup]; subst.
    rewrite (IH _ Hnodup). unfold flatten_top. cbn [get_own].
    apply get_own_None_iff in Hnotin.
    destruct (String.eqb_spec k k0) as [->|Hk].
    + rewrite Hnotin.
      unfold has_property, has_own.
      destruct (get_own flat k0) as [w|] eqn:Hflat; cbn [orb negb andb].
      * rewrite andb_false_r. now rewrite Hflat.
      * destruct (inb k0 group_names) eqn:Hg; cbn [negb andb orb].
        { now rewrite Hflat. }
        destruct (inb k0 object_prototype_keys) eqn:Hp; cbn [negb andb orb].
        { now rewrite Hflat. }
        destruct (not_null_or_empty v0) eqn:Hv.
        -- rewrite get_own_obj_set, String.eqb_refl; [reflexivity|].
           intros ->. discriminate Hp.
        -- now rewrite Hflat.
    + assert (Hsame : get_own
                (if negb (inb k0 group_names) && negb (has_property flat k0)
                 then if not_null_or_empty v0 then obj_set flat k0 v0 else flat
                 else flat) k = get_own flat k).
      { destruct (negb (inb k0 group_names) && negb (has_property flat k0)) eqn:Hc;
          [|reflexivity].
        destruct (not_null_or_empty v0); [|reflexivity].
        apply andb_true_iff in Hc as [_ Hmiss]. apply negb_true_iff in Hmiss.
        rewrite (obj_set_fresh _ _ _ Hmiss), get_own_app_last.
        - destruct (String.eqb_spec k k0); [contradiction | reflexivity].
        - now apply orb_false_iff in Hmiss as [Hown _]. }
      rewrite Hsame. reflexivity.
Qed.

(** X4.  How [flattenRequirements] resolves a key that occurs in several
    places of [{mandatoryRequirements, optionalRequirements, ...extras}]:
    the optional group's value wins, then the mandatory group's, and a
    top-level extra is used only when neither group has the key; values
    that are [null] or [""] never count, and a top-level extra named like a
    group or like an [Object.prototype] member is never copied. *)
Theorem flattenRequirements_precedence (top : obj) (mandatory optional : option obj)
  (k : string) :
  wf_obj top ->
  prop (VObj top) "mandatoryRequirements" = option_map VObj mandatory ->
  prop (VObj top) "optionalRequirements" = option_map VObj optional ->
  clean_group mandatory ->
  clean_group optional ->
  get_own (flattenRequirements (Some (VObj top))) k
  = match group_value optional k with
    | Some v => Some v
    | None =>
        match group_value mandatory k with
        | Some v => Some v
        | None =>
            if inb k group_names || inb k object_prototype_keys then None
            else group_value (Some top) k
        end
    end.
Proof.
  intros Hwf Hm Ho Hcm Hco. unfold flattenRequirements. cbn [truthy own_entries].
  rewrite Hm, Ho, (flatten_top_lookup _ _ _ Hwf).
  assert (Hgroup : forall (g : option obj) (flat : obj),
             clean_group g ->
             get_own (process (option_map VObj g) flat) k
             = match group_value g k with Some v => Some v | None => get_own flat k end).
  { intros [g|] flat Hc; [now apply process_lookup | reflexivity]. }
  rewrite (Hgroup optional _ Hco), (Hgroup mandatory _ Hcm).
  destruct (group_value optional k); [reflexivity|].
  destruct (group_value mandatory k); reflexivity.
Qed.

Lemma flattenRequirements_precedence_witness :
  get_own
    (flattenRequirements
       (Some (VObj [("mandatoryRequirements",
                     VObj [("range", VStr "0-10 bar"); ("output", VStr "4-20mA")]);
                    ("optionalRequirements",
                     VObj [("range", VStr ""); ("output", VStr "HART")]);
                    ("output", VStr "0-10V"); ("housing", VStr "steel")])))
    "output"
  = Some (VStr "HART").
Proof.
  apply (flattenRequirements_precedence
           [("mandatoryRequirements",
             VObj [("range", VStr "0-10 bar"); ("output", VStr "4-20mA")]);
            ("optionalRequirements",
             VObj [("range", VStr ""); ("output", VStr "HART")]);
            ("output", VStr "0-10V"); ("housing", VStr "steel")]
           (Some [("range", VStr "0-10 bar"); ("output", VStr "4-20mA")])
           (Some [("range", VStr ""); ("output", VStr "HART")])
           "output").
  - unfold wf_obj. simpl. repeat constructor; simpl; intuition discriminate.
  - reflexivity.
  - reflexivity.
  - split; [|reflexivity]. unfold wf_obj. simpl.
    repeat constructor; simpl; intuition discriminate.
  - split; [|reflexivity]. unfold wf_obj. simpl.
    repeat constructor; simpl; intuition discriminate.
Defined.

(** X5.  Updating the collected data with newly provided requirements
    (the [updatedData] of the [awaitOptional] and [awaitMissingInfo]
    branches) never erases a collected value: under each collected key the
    value stays, or is replaced by a new value that is neither [null] nor
    empty.  With no schema in the state the computation throws. *)
Theorem updatedData_keeps_collected (collectedData : obj)
  (providedRequirements : option value) (schema : RequirementSchema.t)
  (k : string) (v : value) :
  get_own collectedData k = Some v ->
  updatedData collectedData providedRequirements None = None
  /\ exists result,
       updatedData collectedData providedRequirements (Some schema) = Some result
       /\ match get_own (flattenRequirements providedRequirements) k with
          | Some v' => get_own result k = Some v' /\ not_null_or_empty v' = true
          | None => get_own result k = Some v
          end.
Proof.
  intros Hget. split; [reflexivity|]. eexists. split; [reflexivity|].
  destruct (flattenRequirements_invariant providedRequirements) as [Hwf Hvals].
  pose proof (get_own_spread collectedData (flattenRequirements providedRequirements) k Hwf)
    as Hspread.
  destruct (get_own (flattenRequirements providedRequirements) k) as [v'|] eqn:Hnew.
  - split.
    + now apply merge_keeps_provided.
    + apply get_own_In in Hnew. unfold no_null_or_empty in Hvals.
      rewrite Forall_forall in Hvals. exact (Hvals _ Hnew).
  - apply merge_keeps_provided. now rewrite Hspread.
Qed.

Lemma updatedData_keeps_collected_witness :
  exists result,
    updatedData [("range", VStr "0-10 bar"); ("output", VStr "")]
      (Some (VObj [("mandatoryRequirements",
                    VObj [("range", VStr ""); ("output", VStr "HART")])]))
      (Some (RequirementSchema.mk (Some (VObj [("range", VStr "range")])) None))
    = Some result
    /\ get_own result "range" = Some (VStr "0-10 bar").
Proof.
  destruct (updatedData_keeps_collected
              [("range", VStr "0-10 bar"); ("output", VStr "")]
              (Some (VObj [("mandatoryRequirements",
                            VObj [("range", VStr ""); ("output", VStr "HART")])]))
              (RequirementSchema.mk (Some (VObj [("range", VStr "range")])) None)
              "range" (VStr "0-10 bar") eq_refl) as [_ [result [Heq Hkeep]]].
  exists result. split; [exact Heq | exact Hkeep].
Defined.

(** ** convertKeysToCamelCase *)

Example camelKey_examples :
  camelKey "provided_requirements" = "providedRequirements"
  /\ camelKey "validation-alert" = "validationAlert"
  /\ camelKey "__proto__" = "_Proto__"
  /\ camelKey "max_4_20mA-x" = "max_4_20mAX".
Proof. repeat split. Qed.

Lemma upper_az_not_lower (c : ascii) :
  is_lower_az c = true ->
  is_lower_az (upper_az c) = false /\ is_dash_or_underscore (upper_az c) = false.
Proof.
  unfold is_lower_az, is_dash_or_underscore, upper_az. intros H.
  apply andb_true_iff in H as [Hlo Hhi].
  apply Nat.leb_le in Hlo. apply Nat.leb_le in Hhi.
  rewrite nat_ascii_embedding by lia. split.
  - apply andb_false_iff. left. apply Nat.leb_gt. lia.
  - apply orb_false_iff. split; apply Nat.eqb_neq; lia.
Qed.

Lemma camelKey_cons (c d : ascii) (r : string) :
  camelKey (String c (String d r))
  = if is_dash_or_underscore c && is_lower_az d
    then String (upper_az d) (camelKey r)
    else String c (camelKey (String d r)).
Proof. reflexivity. Qed.

Lemma has_snake_pair_cons (c d : ascii) (r : string) :
  has_snake_pair (String c (String d r))
  = (is_dash_or_underscore c && is_lower_az d) || has_snake_pair (String d r).
Proof. reflexivity. Qed.

Lemma camelKey_fixed (s : string) : has_snake_pair s = false -> camelKey s = s.
Proof.
  induction s as [|c rest IH]; [reflexivity|].
  destruct rest as [|d rest']; [reflexivity|].
  rewrite has_snake_pair_cons, camelKey_cons. intros H.
  apply orb_false_iff in H as [Hpair Hrest].
  rewrite Hpair. now rewrite (IH Hrest).
Qed.

(** The first character of a converted key is the key's own first
    character or an uppercase letter. *)
Lemma camelKey_head (d : ascii) (r : string) :
  exists x t,
    camelKey (String d r) = String x t /\ (x = d \/ is_lower_az x = false).
Proof.
  destruct r as [|e r'].
  - exists d, EmptyString. auto.
  - rewrite camelKey_cons.
    destruct (is_dash_or_underscore d && is_lower_az e) eqn:Hpair.
    + apply andb_true_iff in Hpair as [_ Hlow].
      exists (upper_az e), (camelKey r'). split; [reflexivity|].
      right. now apply upper_az_not_lower.
    + exists d, (camelKey (String e r')). auto.
Qed.

Lemma camelKey_clean_bounded (n : nat) (s : string) :
  String.length s < n -> has_snake_pair (camelKey s) = false.
Proof.
  revert s. induction n as [|n IH]; intros s Hlen; [lia|].
  destruct s as [|c rest]; [reflexivity|].
  destruct rest as [|d rest']; [reflexivity|].
  rewrite camelKey_cons. cbn [String.length] in Hlen.
  destruct (is_dash_or_underscore c && is_lower_az d) eqn:Hpair.
  - apply andb_true_iff in Hpair as [_ Hlow].
    destruct (upper_az_not_lower d Hlow) as [_ Hsep].
    assert (Hrest : has_snake_pair (camelKey rest') = false) by (apply IH; lia).
    destruct (camelKey rest') as [|y t] eqn:Ht; [reflexivity|].
    rewrite has_snake_pair_cons. now rewrite Hsep, Hrest.
  - assert (Hrest : has_snake_pair (camelKey (String d rest')) = false)
      by (apply IH; cbn [String.length]; lia).
    destruct (camelKey_head d rest') as [x [t [Heq Hx]]].
    rewrite Heq in *. rewrite has_snake_pair_cons.
    rewrite Hrest, orb_false_r.
    destruct Hx as [->|Hx]; [exact Hpair | rewrite Hx; apply andb_false_r].
Qed.

Lemma camelKey_clean (key : string) : has_snake_pair (camelKey key) = false.
Proof.
  apply (camelKey_clean_bounded (S (String.length key))). lia.
Qed.

(** X6.  The key conversion is complete and stable: in a converted key no
    [-] or [_] is followed by a lowercase letter, so converting again
    changes nothing, and no key converts to [__proto__]. *)
Theorem camelKey_complete_and_stable (key : string) :
  has_snake_pair (camelKey key) = false
  /\ camelKey (camelKey key) = camelKey key
  /\ String.eqb (camelKey key) "__proto__" = false.
Proof.
  pose proof (camelKey_clean key) as Hclean.
  repeat split.
  - exact Hclean.
  - now apply camelKey_fixed.
  - destruct (String.eqb_spec (camelKey key) "__proto__") as [Heq|]; [|reflexivity].
    rewrite Heq in Hclean. discriminate Hclean.
Qed.

Lemma obj_set_entries (P : string * value -> Prop) (o : obj) (k : string) (v : value) :
  P (k, v) -> Forall P o -> Forall P (obj_set o k v).
Proof.
  intros Hnew Hall. unfold obj_set. destruct (has_own o k).
  - clear -Hnew Hall. induction Hall as [|[k0 v0] rest Hx Hrest IH]; simpl; [constructor|].
    destruct (String.eqb_spec k k0) as [->|Hne]; constructor; assumption.
  - destruct (String.eqb k "__proto__"); [assumption|].
    apply Forall_app. split; [assumption | repeat constructor; assumption].
Qed.

Lemma camel_cased_arr (items : list value) :
  camel_cased (VArr items) <-> Forall camel_cased items.
Proof.
  cbn [camel_cased]. induction items as [|x rest IH]; simpl.
  - split; [constructor | trivial].
  - rewrite IH. split.
    + intros [Hx Hrest]. now constructor.
    + intros H. inversion H; subst. now split.
Qed.

Lemma camel_cased_obj (fields : obj) :
  camel_cased (VObj fields) <->
  wf_obj fields
  /\ Forall (fun e => has_snake_pair (fst e) = false /\ camel_cased (snd e)) fields.
Proof.
  cbn [camel_cased]. unfold wf_obj.
  assert (Hfold : fold_right
                    (fun e acc => (has_snake_pair (fst e) = false /\ camel_cased (snd e))
                                  /\ acc) True fields
                  <-> Forall (fun e => has_snake_pair (fst e) = false
                                       /\ camel_cased (snd e)) fields).
  { induction fields as [|e rest IH]; simpl.
    - split; [constructor | trivial].
    - rewrite IH. split.
      + intros [He Hrest]. now constructor.
      + intros H. inversion H; subst. now split. }
  now rewrite Hfold.
Qed.

Lemma convert_fold_invariant (fields acc : obj) :
  Forall (fun e => camel_cased (convertKeysToCamelCase (snd e))
                   /\ convertKeysToCamelCase (convertKeysToCamelCase (snd e))
                      = convertKeysToCamelCase (snd e)) fields ->
  wf_obj acc -> Forall converted_entry acc ->
  wf_obj
    (fold_left
       (fun acc '(key, v) => obj_set acc (camelKey key) (convertKeysToCamelCase v))
       fields acc)
  /\ Forall converted_entry
       (fold_left
          (fun acc '(key, v) => obj_set acc (camelKey key) (convertKeysToCamelCase v))
          fields acc).
Proof.
  intros Hfields. revert acc.
  induction Hfields as [|[k v] rest [Hcased Hidem] _ IH]; intros acc Hwf Hall;
    cbn [fold_left]; [now split|].
  apply IH.
  - now apply obj_set_wf.
  - apply obj_set_entries; [|assumption].
    split; [apply camelKey_clean | split; assumption].
Qed.

(** Converting entries that are already converted copies them. *)
Lemma convert_fold_copies (fields acc : obj) :
  wf_obj fields -> Forall converted_entry fields ->
  (forall k, In k (map fst fields) -> has_own acc k = false) ->
  fold_left
    (fun acc '(key, v) => obj_set acc (camelKey key) (convertKeysToCamelCase v))
    fields acc
  = acc ++ fields.
Proof.
  unfold wf_obj. revert acc.
  induction fields as [|[k v] rest IH]; intros acc Hwf Hall Hfresh; cbn [fold_left].
  - now rewrite app_nil_r.
  - simpl in Hwf. inversion Hwf as [|? ? Hnotin Hnodup]; subst.
    inversion Hall as [|? ? [Hkey [_ Hval]] Hall']; subst. simpl in Hkey, Hval.
    rewrite (camelKey_fixed _ Hkey), Hval.
    assert (Hset : obj_set acc k v = acc ++ [(k, v)]).
    { unfold obj_set. rewrite (Hfresh k (or_introl eq_refl)).
      destruct (String.eqb_spec k "__proto__") as [->|_]; [discriminate Hkey | reflexivity]. }
    rewrite Hset, IH; [now rewrite <- app_assoc | assumption | assumption |].
    intros k' Hin. apply has_own_false_iff. rewrite map_app, in_app_iff. simpl.
    intros [Hacc|[<-|[]]].
    + apply has_own_true_iff in Hacc.
      rewrite (Hfresh k' (or_intror Hin)) in Hacc. discriminate.
    + contradiction.
Qed.

Lemma convert_sound (v : value) :
  camel_cased (convertKeysToCamelCase v)
  /\ convertKeysToCamelCase (convertKeysToCamelCase v) = convertKeysToCamelCase v.
Proof.
  induction v as [| | | |items IH|fields IH] using value_nested_ind;
    try (split; [exact I | reflexivity]).
  - cbn [convertKeysToCamelCase]. split.
    + apply camel_cased_arr. rewrite Forall_map.
      eapply Forall_impl; [|exact IH]. simpl. tauto.
    + f_equal. rewrite map_map. apply map_ext_Forall.
      eapply Forall_impl; [|exact IH]. simpl. tauto.
  - destruct (convert_fold_invariant fields [] IH) as [Hwf Hall];
      [constructor | constructor |].
    change (convertKeysToCamelCase (VObj fields))
      with (VObj (fold_left
                    (fun acc '(key, v) =>
                       obj_set acc (camelKey key) (convertKeysToCamelCase v))
                    fields [])).
    split.
    + apply camel_cased_obj. split; [assumption|].
      eapply Forall_impl; [|exact Hall]. unfold converted_entry. tauto.
    + cbn [convertKeysToCamelCase]. f_equal.
      now rewrite convert_fold_copies.
Qed.

Lemma string_of_uint_digits (d : Decimal.uint) :
  Forall (fun c => is_digit c = true) (list_ascii_of_string (NilEmpty.string_of_uint d)).
Proof.
  induction d; simpl; constructor; auto.
Qed.

Lemma index_from_no_proto {A : Type} (l : list A) (i : nat) (k : string) :
  In k (map fst (index_from i l)) ->
  Forall (fun c => is_digit c = true) (list_ascii_of_string k).
Proof.
  revert i. induction l as [|x rest IH]; intros i; simpl; [intros []|].
  intros [<-|Hin]; [apply string_of_uint_digits | now apply (IH (S i))].
Qed.

Lemma index_from_In {A : Type} (l : list A) (i : nat) (k : string) (x : A) :
  In (k, x) (index_from i l) -> In x l.
Proof.
  revert i. induction l as [|y rest IH]; intros i; simpl; [intros []|].
  intros [[= _ ->]|Hin]; [now left | right; now apply (IH (S i))].
Qed.

(** A converted value has no own property named [__proto__]. *)
Lemma camel_cased_no_own_proto (r : value) :
  camel_cased r -> has_own (own_entries r) "__proto__" = false.
Proof.
  intros Hcased. apply has_own_false_iff. intros Hin.
  destruct r as [| | |s|items|fields]; cbn [own_entries] in Hin; try contradiction.
  - apply index_from_no_proto in Hin. inversion Hin as [|? ? Hd _]. discriminate Hd.
  - apply index_from_no_proto in Hin. inversion Hin as [|? ? Hd _]. discriminate Hd.
  - apply camel_cased_obj in Hcased as [_ Hall].
    apply in_map_iff in Hin as [[k v] [Hk Hin]]. simpl in Hk. subst k.
    rewrite Forall_forall in Hall. destruct (Hall _ Hin) as [Hpair _].
    discriminate Hpair.
Qed.

Lemma camel_cased_prop (p : value) (name : string) :
  camel_cased p -> no_own_proto (prop p name).
Proof.
  intros Hcased. unfold no_own_proto, prop.
  destruct (get_own (own_entries p) name) as [r|] eqn:Hget; [|exact I].
  apply get_own_In in Hget. apply camel_cased_no_own_proto.
  destruct p as [| | |s|items|fields]; cbn [own_entries] in Hget; try contradiction.
  - apply index_from_In, in_map_iff in Hget as [c [<- _]]. exact I.
  - apply index_from_In in Hget. apply camel_cased_arr in Hcased.
    rewrite Forall_forall in Hcased. now apply Hcased.
  - apply camel_cased_obj in Hcased as [_ Hall].
    rewrite Forall_forall in Hall. now destruct (Hall _ Hget).
Qed.

(** X7.  [convertKeysToCamelCase] is stable and leaves clean data: in its
    result every object, at every depth, has distinct keys in which no [-]
    or [_] precedes a lowercase letter; converting again changes nothing;
    and no requirement group of the result carries an own [__proto__], so
    what the wrappers hand to [flattenRequirements] is always within
    [proto_free]. *)
Theorem convertKeysToCamelCase_stable (data : value) :
  camel_cased (convertKeysToCamelCase data)
  /\ convertKeysToCamelCase (convertKeysToCamelCase data) = convertKeysToCamelCase data
  /\ proto_free (Some (convertKeysToCamelCase data)).
Proof.
  destruct (convert_sound data) as [Hcased Hidem].
  repeat split; try assumption; now apply camel_cased_prop.
Qed.

Example convertKeysToCamelCase_example :
  convertKeysToCamelCase
    (VObj [("product_type", VStr "pressure transmitter");
           ("provided_requirements",
            VObj [("mandatory_requirements", VObj [("output_signal", VStr "4-20mA")])]);
           ("productType", VStr "later wins");
           ("vendor-matches", VArr [VObj [("match_score", VNum 90)]])])
  = VObj [("productType", VStr "later wins");
          ("providedRequirements",
           VObj [("mandatoryRequirements", VObj [("outputSignal", VStr "4-20mA")])]);
          ("vendorMatches", VArr [VObj [("matchScore", VNum 90)]])].
Proof. reflexivity. Qed.

Lemma merge_adds_placeholders_only_witness :
  wf_obj [("pressure", VStr "10 bar")]
  /\ wf_obj (mergeRequirementsWithSchema [("pressure", VStr "10 bar")]
               (RequirementSchema.mk
                  (Some (VObj [("1", VStr "string"); ("constructor", VStr "string")]))
                  None))
  /\ get_own (mergeRequirementsWithSchema [("pressure", VStr "10 bar")]
                (RequirementSchema.mk
                   (Some (VObj [("1", VStr "string"); ("constructor", VStr "string")]))
                   None))
       "1"
     = Some (VStr "").
Proof.
  assert (Hwf : wf_obj [("pressure", VStr "10 bar")]).
  { unfold wf_obj. simpl. constructor; [intros [] | constructor]. }
  split; [exact Hwf|]. split.
  - exact (proj2 (merge_adds_placeholders_only [("pressure", VStr "10 bar")]
                    (RequirementSchema.mk
                       (Some (VObj [("1", VStr "string"); ("constructor", VStr "string")]))
                       None)
                    "1") Hwf).
  - exact (proj1 (merge_adds_placeholders_only [("pressure", VStr "10 bar")]
                    (RequirementSchema.mk
                       (Some (VObj [("1", VStr "string"); ("constructor", VStr "string")]))
                       None)
                    "1")).
Defined.

(** ** Error messages and login *)

Lemma or_else_not_empty (x : option string) (fallback : string) :
  fallback <> "" -> or_else x fallback <> "".
Proof.
  intros Hf. unfold or_else. destruct x as [s|]; [|exact Hf].
  destruct (String.eqb s "") eqn:E; [exact Hf|].
  now apply String.eqb_neq in E.
Qed.

Lemma truthy_VStr (s : string) : s <> "" -> truthy (VStr s) = true.
Proof.
  intros Hs. simpl. apply negb_true_iff. now apply String.eqb_neq.
Qed.

Lemma truthy_field_truthy (data : option value) (name : string) (v : value) :
  truthy_field data name = Some v -> truthy v = true.
Proof.
  unfold truthy_field. destruct (object_field data name) as [w|]; [|discriminate].
  destruct (truthy w) eqn:E; [|discriminate]. now intros [= <-].
Qed.

Lemma status_text_truthy (status : Z) (defaultMessage : string) :
  defaultMessage <> "" ->
  truthy
    (if (status =? 500)%Z then
       VStr "Internal server error. Please try again later or contact support."
     else if (status =? 401)%Z then
       VStr "Authentication failed. Please check your credentials."
     else if (status =? 403)%Z then
       VStr "Access denied. You don't have permission to perform this action."
     else if (status =? 404)%Z then VStr "Resource not found."
     else VStr defaultMessage) = true.
Proof.
  intros Hd.
  destruct (status =? 500)%Z; [reflexivity|].
  destruct (status =? 401)%Z; [reflexivity|].
  destruct (status =? 403)%Z; [reflexivity|].
  destruct (status =? 404)%Z; [reflexivity|].
  now apply truthy_VStr.
Qed.

(** X8.  With a non-empty default, [extractErrorMessage] never yields an
    empty or otherwise falsy message, whatever the error object holds: no
    response, an HTML page, a JSON body with or without [error] and
    [message], any status. *)
Theorem extractErrorMessage_never_blank `{JsString}
  (error : HttpError.t) (defaultMessage : string) :
  defaultMessage <> "" ->
  truthy (extractErrorMessage error defaultMessage) = true.
Proof.
  intros Hd. unfold extractErrorMessage.
  destruct (HttpError.response error) as [response|].
  2:{ apply truthy_VStr. now apply or_else_not_empty. }
  assert (Hrest :
    truthy
      match truthy_field (ErrorResponse.data response) "error" with
      | Some e => e
      | None =>
          match truthy_field (ErrorResponse.data response) "message" with
          | Some m => m
          | None =>
              if (ErrorResponse.status response =? 500)%Z then
                VStr "Internal server error. Please try again later or contact support."
              else if (ErrorResponse.status response =? 401)%Z then
                VStr "Authentication failed. Please check your credentials."
              else if (ErrorResponse.status response =? 403)%Z then
                VStr "Access denied. You don't have permission to perform this action."
              else if (ErrorResponse.status response =? 404)%Z then
                VStr "Resource not found."
              else VStr defaultMessage
          end
      end = true).
  { destruct (truthy_field (ErrorResponse.data response) "error") as [e|] eqn:He.
    - exact (truthy_field_truthy _ _ _ He).
    - destruct (truthy_field (ErrorResponse.data response) "message") as [m|] eqn:Hm.
      + exact (truthy_field_truthy _ _ _ Hm).
      + now apply status_text_truthy. }
  destruct (ErrorResponse.data response) as [[ | b | n | text | items | fields]|];
    try exact Hrest.
  destruct (String.prefix "<!" (trim text) || includes "<html>" text
            || includes "Internal Server Error" text).
  - reflexivity.
  - apply truthy_VStr. now apply or_else_not_empty.
Qed.

Lemma extractErrorMessage_never_blank_witness :
  "Login failed" <> ""
  /\ truthy (@extractErrorMessage ascii_strings
               (HttpError.mk (Some (ErrorResponse.mk (Some (VObj [("error", VStr "")])) 403))
                  "Request failed with status code 403")
               "Login failed") = true.
Proof.
  split.
  - discriminate.
  - apply (@extractErrorMessage_never_blank ascii_strings). discriminate.
Defined.

(** X9.  What the login screen shows.  [login] of api.ts rethrows a failure
    as a fresh [Error] that carries only the extracted text, so the provider's
    [catch] sees no [response]: whatever the server's status (403 included)
    and wording, the toast's description is that text itself (or
    ["Invalid credentials"] when the text is empty), the error is rethrown,
    the session is left as it was, and [isLoading] ends false.  On success the
    user is stored with a single success toast. *)
Theorem login_toast_shows_extracted_text `{JsString} `{AuthBackend}
  (username password : string) (st : AuthState.t) :
  match auth_login username password with
  | Answered data =>
      AuthContext.login username password st
      = (Returned tt,
         AuthState.mk true false (Some (LoginResponse.user data))
           (AuthState.notices st
            ++ [Notice.mk "Success" (VStr "Successfully logged in!") false]))
  | Refused error =>
      let text := toString (extractErrorMessage error "Login failed") in
      AuthContext.login username password st
      = (Thrown (HttpError.mk None text),
         AuthState.mk (AuthState.isAuthenticated st) false (AuthState.user st)
           (AuthState.notices st
            ++ [Notice.mk "Login Failed"
                  (VStr (or_else (Some text) "Invalid credentials")) true]))
  end.
Proof.
  unfold AuthContext.login, login.
  destruct (auth_login username password) as [data|error]; reflexivity.
Qed.

(** ** Schema and price wrappers *)



(** X11.  A product type that is not blank is asked for verbatim (neither
    trimmed nor normalised), in exactly one request; the promise resolves to
    the backend's schema, or rejects with the server's error text, and with
    ["Schema fetch failed"] when there is none. *)
Theorem getRequirementSchema_asks_verbatim `{JsString} `{CatalogBackend}
  (productType : string) (sent : list CatalogRequest) :
  productType <> "" ->
  trim productType <> "" ->
  getRequirementSchema productType sent
  = (match catalog_schema productType with
     | Response data => Fulfilled data
     | NetworkError error =>
         Rejected (or_else (AxiosError.response_data_error error) "Schema fetch failed")
     end,
     sent ++ [GetSchema productType]).
Proof.
  intros Hp Ht. unfold getRequirementSchema.
  apply String.eqb_neq in Hp. apply String.eqb_neq in Ht. rewrite Hp, Ht.
  cbn [orb]. unfold bind, axios_get, ret.
  destruct (catalog_schema productType); reflexivity.
Qed.

Lemma getRequirementSchema_asks_verbatim_witness :
  " Pressure_Transmitter" <> ""
  /\ @trim ascii_strings " Pressure_Transmitter" <> ""
  /\ snd (@getRequirementSchema ascii_strings quiet_catalog " Pressure_Transmitter" [])
     = [GetSchema " Pressure_Transmitter"].
Proof.
  split; [discriminate|]. split; [discriminate|].
  rewrite (@getRequirementSchema_asks_verbatim ascii_strings quiet_catalog
             " Pressure_Transmitter" []); [reflexivity | discriminate | discriminate].
Defined.



(** ** What the analysis request leaves out *)

Lemma compose_fold_blank (extra : obj) (parts : list string) :
  Forall (fun e => snd e = VStr "") extra ->
  fold_left compose_part extra parts = parts.
Proof.
  induction 1 as [|[k v] extra Hv _ IH]; [reflexivity|].
  simpl in Hv. subst v. cbn [fold_left].
  replace (compose_part parts (k, VStr "")) with parts; [exact IH|].
  unfold compose_part. destruct (String.eqb k "productType"); reflexivity.
Qed.

Lemma get_own_blank (extra : obj) (k : string) :
  Forall (fun e => snd e = VStr "") extra ->
  get_own extra k = None \/ get_own extra k = Some (VStr "").
Proof.
  induction 1 as [|[k' v] extra Hv _ IH]; [now left|].
  simpl in Hv. subst v. cbn [get_own].
  destruct (String.eqb k k'); [now right | exact IH].
Qed.

Lemma composeUserDataString_blank_tail (data extra : obj) :
  Forall (fun e => snd e = VStr "") extra ->
  composeUserDataString (data ++ extra) = composeUserDataString data.
Proof.
  intros Hblank. unfold composeUserDataString.
  rewrite fold_left_app, compose_fold_blank by assumption.
  rewrite get_own_app.
  destruct (get_own data "productType") as [pt|]; [reflexivity|].
  destruct (get_own_blank extra "productType" Hblank) as [-> | ->]; reflexivity.
Qed.

(** X13.  The placeholders that [mergeRequirementsWithSchema] adds for
    unanswered schema fields never reach the backend: the text
    [composeUserDataString] builds from merged data, and with it the input
    [performAnalysis] submits, is the text built from the data before the
    merge. *)
Theorem placeholders_stay_out_of_analysis_input
  (provided : obj) (schema : RequirementSchema.t) (productType : string) :
  composeUserDataString (mergeRequirementsWithSchema provided schema)
  = composeUserDataString provided
  /\ fullInputStr productType (mergeRequirementsWithSchema provided schema)
     = fullInputStr productType provided.
Proof.
  assert (Hcompose :
    composeUserDataString (mergeRequirementsWithSchema provided schema)
    = composeUserDataString provided).
  { unfold mergeRequirementsWithSchema.
    destruct (merge_fold_structure (allKeys schema) provided) as [extra [-> [Hall _]]].
    apply composeUserDataString_blank_tail.
    eapply Forall_impl; [|exact Hall]. intros e He. exact (proj1 He). }
  split; [exact Hcompose|]. unfold fullInputStr. now rewrite Hcompose.
Qed.

(** ** The validation flag *)

(** X14.  [hasValidatedOnce] is raised by a validation that got an answer
    and by nothing else, and no wrapper lowers it: a validation request
    carries the flag as it stood before the call, a failed validation leaves
    it, and the other wrappers never touch it. *)
Theorem hasValidatedOnce_raised_by_validation_only `{JsString} `{Backend}
  (st : ApiState.t) :
  (forall userInput productType,
      ApiState.hasValidatedOnce (snd (validateRequirements userInput productType st))
      = ApiState.hasValidatedOnce st
        || match fst (validateRequirements userInput productType st) with
           | Fulfilled _ => true
           | Rejected _ => false
           end
      /\ exists product_type,
           ApiState.requests (snd (validateRequirements userInput productType st))
           = ApiState.requests st
             ++ [PostValidate (normalizeUserInput userInput)
                   (ApiState.hasValidatedOnce st) product_type])
  /\ (forall userInput,
         ApiState.hasValidatedOnce (snd (analyzeProducts userInput st))
         = ApiState.hasValidatedOnce st)
  /\ (forall fullInput,
         ApiState.hasValidatedOnce (snd (structureRequirements fullInput st))
         = ApiState.hasValidatedOnce st)
  /\ (forall userInput,
         ApiState.hasValidatedOnce (snd (classifyIntent userInput st))
         = ApiState.hasValidatedOnce st)
  /\ (forall step dataContext userMessage intent,
         ApiState.hasValidatedOnce
           (snd (generateAgentResponse step dataContext userMessage intent st))
         = ApiState.hasValidatedOnce st).
Proof.
  destruct st as [flag reqs]. repeat split.
  - unfold validateRequirements, bind, get_hasValidatedOnce, axios_post,
      set_hasValidatedOnce, ret. cbn [fst snd ApiState.hasValidatedOnce ApiState.requests].
    destruct (backend_validate _ _ _); cbn; [now rewrite orb_true_r | now rewrite orb_false_r].
  - eexists.
    unfold validateRequirements, bind, get_hasValidatedOnce, axios_post,
      set_hasValidatedOnce, ret. cbn [fst snd ApiState.hasValidatedOnce ApiState.requests].
    destruct (backend_validate _ _ _); cbn; reflexivity.
  - intros userInput. now rewrite analyzeProducts_run.
  - intros fullInput. unfold structureRequirements, bind, axios_post, ret. cbn.
    destruct (backend_structure _); reflexivity.
  - intros userInput. now rewrite classifyIntent_run.
  - intros step dataContext userMessage intent. now rewrite generateAgentResponse_run.
Qed.

(** ** Messages *)

Lemma append_empty_r (s : string) : s +++ "" = s.
Proof.
  induction s as [|c s IH]; simpl; [reflexivity | now rewrite IH].
Qed.

(** X15.  [updateMessage] rewrites contents and nothing else: the messages
    keep their number, order, ids, types, timestamps and roles; a message with
    another id is left as it is; every message with the given id ends with the
    new content; and the rest of the session is untouched. *)
Theorem updateMessage_frame (id : nat) (newContent : string) (w : World.t) :
  let before := AppState.messages (World.state w) in
  let w' := snd (updateMessage id newContent w) in
  let after := AppState.messages (World.state w') in
  map ChatMessage.id after = map ChatMessage.id before
  /\ map ChatMessage.type after = map ChatMessage.type before
  /\ map ChatMessage.timestamp after = map ChatMessage.timestamp before
  /\ map ChatMessage.role after = map ChatMessage.role before
  /\ map ChatMessage.content after
     = map (fun msg => if Nat.eqb (ChatMessage.id msg) id then newContent
                       else ChatMessage.content msg) before
  /\ (Forall (fun msg => ChatMessage.id msg <> id) before -> w' = w)
  /\ w' = World.mk (with_messages (fun _ => after) (World.state w))
            (World.collectedData w) (World.currentStep w) (World.isStreaming w)
            (World.toasts w) (World.tick w) (World.api w).
Proof.
  open_world w. cbv zeta. unfold updateMessage, setState, with_messages. cbn.
  unfold set_content.
  repeat split; try (rewrite map_map; apply map_ext; intros msg;
                     destruct (Nat.eqb (ChatMessage.id msg) id); reflexivity).
  intros Hother. do 2 f_equal.
  induction Hother as [|msg rest Hne _ IH]; [reflexivity|].
  cbn [map]. rewrite IH.
  destruct (Nat.eqb_spec (ChatMessage.id msg) id); [contradiction | reflexivity].
Qed.

Lemma updateMessage_frame_witness :
  Forall (fun msg => ChatMessage.id msg <> 7)
    [ChatMessage.mk 0 user "I need a flow meter" 0 None]
  /\ snd (updateMessage 7 "Hello"
            (World.mk (AppState.mk [ChatMessage.mk 0 user "I need a flow meter" 0 None]
                         None None None None false "" "")
               [] greeting false [] 1 (ApiState.mk false [])))
     = World.mk (AppState.mk [ChatMessage.mk 0 user "I need a flow meter" 0 None]
                   None None None None false "" "")
         [] greeting false [] 1 (ApiState.mk false []).
Proof.
  assert (Hother : Forall (fun msg => ChatMessage.id msg <> 7)
                     [ChatMessage.mk 0 user "I need a flow meter" 0 None]).
  { constructor; [discriminate | constructor]. }
  split; [exact Hother|].
  exact (proj1 (proj2 (proj2 (proj2 (proj2 (proj2
           (updateMessage_frame 7 "Hello"
              (World.mk
                 (AppState.mk [ChatMessage.mk 0 user "I need a flow meter" 0 None]
                    None None None None false "" "")
                 [] greeting false [] 1 (ApiState.mk false []))))))))
           Hother).
Defined.

(** X16.  The reveal loop shows prefixes: revealing [a +++ b] is revealing
    [a] and then going on with [b] from there, and once a non-empty [a] is
    revealed the messages with that id show exactly what was shown before
    followed by [a]. *)
Theorem stream_loop_reveals_prefixes (id : nat) (shown a b : string) (w : World.t) :
  stream_loop id shown (a +++ b) w
  = stream_loop id (shown +++ a) b (snd (stream_loop id shown a w))
  /\ (a <> "" ->
      snd (stream_loop id shown a w)
      = snd (updateMessage id (shown +++ a) w)).
Proof.
  split.
  - revert shown w. induction a as [|c a IH]; intros shown w.
    + cbn. now rewrite append_empty_r.
    + cbn [String.append stream_loop]. unfold bind at 1 2.
      destruct (updateMessage id (shown +++ String c "") w) as [[] w1].
      rewrite IH. now rewrite append_nonempty.
  - intros Hne. open_world w. rewrite stream_loop_run.
    destruct a as [|c a]; [contradiction | reflexivity].
Qed.

Lemma stream_loop_reveals_prefixes_witness :
  "Hel" <> ""
  /\ snd (stream_loop 0 "" "Hel"
            (World.mk (AppState.mk [ChatMessage.mk 0 assistant "" 0 None]
                         None None None None false "" "")
               [] greeting true [] 1 (ApiState.mk false [])))
     = snd (updateMessage 0 ("" +++ "Hel")
              (World.mk (AppState.mk [ChatMessage.mk 0 assistant "" 0 None]
                           None None None None false "" "")
                 [] greeting true [] 1 (ApiState.mk false []))).
Proof.
  split; [discriminate|].
  refine (proj2 (stream_loop_reveals_prefixes 0 "" "Hel" "lo"
                   (World.mk (AppState.mk [ChatMessage.mk 0 assistant "" 0 None]
                                None None None None false "" "")
                      [] greeting true [] 1 (ApiState.mk false []))) _).
  discriminate.
Defined.

(** X17.  In a session whose message ids are all below the id counter,
    [streamAssistantMessage] appends one assistant message holding the whole
    text, leaves every earlier message as it was, returns the new id, and
    ends with the streaming flag down; nothing else of the session changes
    but the id counter. *)
Theorem streamAssistantMessage_appends_one (fullText : string) (w : World.t) :
  ids_fresh w ->
  let now := World.tick w in
  streamAssistantMessage fullText w
  = (now,
     World.mk
       (with_messages
          (fun messages => messages ++ [ChatMessage.mk now assistant fullText now None])
          (World.state w))
       (World.collectedData w) (World.currentStep w) false (World.toasts w)
       (S now) (World.api w)).
Proof.
  intros Hfresh. open_world w. unfold ids_fresh in Hfresh. cbn in Hfresh.
  cbv zeta. rewrite streamAssistantMessage_run by assumption. reflexivity.
Qed.

Lemma streamAssistantMessage_appends_one_witness :
  ids_fresh initial_world
  /\ streamAssistantMessage "Hello" initial_world
     = (0,
        World.mk
          (with_messages
             (fun messages => messages ++ [ChatMessage.mk 0 assistant "Hello" 0 None])
             (World.state initial_world))
          (World.collectedData initial_world) (World.currentStep initial_world) false
          (World.toasts initial_world) 1 (World.api initial_world)).
Proof.
  assert (Hfresh : ids_fresh initial_world) by constructor.
  split; [exact Hfresh|].
  apply (streamAssistantMessage_appends_one "Hello" initial_world Hfresh).
Defined.

(** ** The chat input *)

(** X18.  The "Input required" toast can only be raised from the keyboard.
    A click on Send either does nothing (the button is disabled) or sends the
    trimmed input; whatever leaves the input area, by click or by key, is the
    trimmed input, is not empty, and leaves only while nothing is loading and
    the step is not [finalAnalysis].  Outside the [finalAnalysis] step, Enter
    on a blank input raises the toast, loading or not; in that step the
    textarea and the button are disabled and no click or key does
    anything. *)
Theorem input_required_toast_needs_enter `{JsString} (props : ChatInterfaceProps.t) :
  let trimmedInput := trim (ChatInterfaceProps.inputValue props) in
  (on_input_event props ClickSend = None
   \/ on_input_event props ClickSend = Some (SendMessage trimmedInput))
  /\ (forall ev m,
         message_sent props ev = Some m ->
         m = trimmedInput /\ m <> ""
         /\ ChatInterfaceProps.isLoading props = false
         /\ is_finalAnalysis (ChatInterfaceProps.currentStep props) = false)
  /\ (trimmedInput = "" ->
      is_finalAnalysis (ChatInterfaceProps.currentStep props) = false ->
      on_input_event props (KeyDown "Enter" false) = Some ToastInputRequired)
  /\ (is_finalAnalysis (ChatInterfaceProps.currentStep props) = true ->
      forall ev, on_input_event props ev = None).
Proof.
  destruct props as [loading streaming input current]. cbv zeta.
  unfold message_sent, on_input_event, handleKeyDown, handleSend, send_button_disabled,
    textarea_disabled. cbn.
  split; [|split; [|split]].
  - destruct (String.eqb (trim input) ""); [now left|].
    destruct loading; [now left|].
    destruct (is_finalAnalysis current); [now left | now right].
  - intros ev m. destruct ev as [|key shiftKey].
    + destruct (String.eqb_spec (trim input) "") as [|Hne]; [discriminate|].
      destruct loading; [discriminate|].
      destruct (is_finalAnalysis current); [discriminate|]. cbn.
      intros [= <-]. repeat split. exact Hne.
    + destruct (is_finalAnalysis current); [discriminate|].
      destruct (String.eqb key "Enter" && negb shiftKey); [|discriminate].
      destruct (String.eqb_spec (trim input) "") as [|Hne]; [discriminate|].
      destruct loading; [discriminate|].
      intros [= <-]. repeat split. exact Hne.
  - intros -> ->. reflexivity.
  - intros -> ev. rewrite orb_true_r. destruct ev; reflexivity.
Qed.

Lemma input_required_toast_needs_enter_witness :
  @trim ascii_strings "   " = ""
  /\ is_finalAnalysis (step awaitOptional) = false
  /\ @on_input_event ascii_strings
       (ChatInterfaceProps.mk true false "   " (step awaitOptional))
       (KeyDown "Enter" false)
     = Some ToastInputRequired
  /\ @on_input_event ascii_strings
       (ChatInterfaceProps.mk false false "   " (step finalAnalysis))
       (KeyDown "Enter" false)
     = None.
Proof.
  split; [reflexivity|]. split; [reflexivity|]. split.
  - apply (proj1 (proj2 (proj2 (@input_required_toast_needs_enter ascii_strings
                                  (ChatInterfaceProps.mk true false "   "
                                     (step awaitOptional))))));
      reflexivity.
  - apply (proj2 (proj2 (proj2 (@input_required_toast_needs_enter ascii_strings
                                  (ChatInterfaceProps.mk false false "   "
                                     (step finalAnalysis)))))).
    reflexivity.
Defined.

(** ** Substrings *)

Lemma append_assoc_string (a b c : string) : (a +++ b) +++ c = a +++ (b +++ c).
Proof.
  induction a as [|x a IH]; simpl; [reflexivity | now rewrite IH].
Qed.

Lemma prefix_spec (needle s : string) :
  String.prefix needle s = true <-> exists post, s = needle +++ post.
Proof.
  revert s. induction needle as [|c needle IH]; intros s.
  - split; [intros _; now exists s | intros _; destruct s; reflexivity].
  - destruct s as [|d s]; simpl.
    + split; [discriminate | intros [post Hpost]; discriminate].
    + destruct (Ascii.ascii_dec c d) as [->|Hne].
      * rewrite IH. split; intros [post Hpost]; exists post.
        -- now rewrite Hpost.
        -- now injection Hpost.
      * split; [discriminate|]. intros [post Hpost]. injection Hpost as Hc _.
        now destruct Hne.
Qed.

Lemma includes_step (needle s : string) :
  includes needle s
  = String.prefix needle s
    || match s with
       | EmptyString => false
       | String _ rest => includes needle rest
       end.
Proof.
  destruct s; reflexivity.
Qed.

Lemma includes_spec (needle s : string) :
  includes needle s = true <-> exists pre post, s = pre +++ (needle +++ post).
Proof.
  split.
  - induction s as [|c s IH]; rewrite includes_step; intros Hin;
      apply orb_true_iff in Hin as [Hpre|Hrest].
    + apply prefix_spec in Hpre as [post ->]. now exists "", post.
    + discriminate.
    + apply prefix_spec in Hpre as [post ->]. now exists "", post.
    + destruct (IH Hrest) as [pre [post ->]]. now exists (String c pre), post.
  - intros [pre [post ->]]. induction pre as [|c pre IH].
    + rewrite includes_step. apply orb_true_iff. left. apply prefix_spec. now exists post.
    + rewrite includes_step. apply orb_true_iff. right. exact IH.
Qed.

Lemma includes_trans (a b s : string) :
  includes a b = true -> includes b s = true -> includes a s = true.
Proof.
  intros Hab Hbs.
  apply includes_spec in Hab as [p1 [q1 ->]].
  apply includes_spec in Hbs as [p2 [q2 ->]].
  apply includes_spec. exists (p2 +++ p1), (q1 +++ q2).
  now rewrite !append_assoc_string.
Qed.

Lemma rerun_words_reduce_to_run (s : string) :
  some_includes ["rerun"; "run"; "runagain"] s = includes "run" s.
Proof.
  unfold some_includes. cbn [existsb]. rewrite orb_false_r.
  destruct (includes "run" s) eqn:Hrun.
  - now rewrite orb_true_r.
  - destruct (includes "rerun" s) eqn:H1.
    + rewrite (includes_trans "run" "rerun" s eq_refl H1) in Hrun. discriminate.
    + destruct (includes "runagain" s) eqn:H2; [|reflexivity].
      rewrite (includes_trans "run" "runagain" s eq_refl H2) in Hrun. discriminate.
Qed.

(** ** The switch of handleSendMessage *)

Ltac run_switch :=
  cbv beta iota zeta delta
    [bind liftApi addMessage fresh_tick setState setCurrentStep setCollectedData toast ret
     fst snd World.state World.collectedData World.currentStep World.isStreaming
     World.toasts World.tick World.api AppState.messages AppState.currentProductType
     AppState.validationResult AppState.analysisResult AppState.requirementSchema
     AppState.isLoading AppState.inputValue AppState.productType
     ApiState.hasValidatedOnce ApiState.requests
     with_messages with_isLoading with_inputValue with_analysisResult
     with_validationResult].

(** The handler up to its [switch], for a message that is not a knowledge
    question. *)
Lemma handleSendMessage_dispatch `{JsString} `{Backend} (userInput : string)
  (msgs : list ChatMessage.t) (cpt : option string)
  (vr : option ValidationResult.t) (ar : option AnalysisResult.t)
  (rs : option RequirementSchema.t) (il : bool) (iv pt : string)
  (cd : obj) (cs : WorkflowStep) (str : bool)
  (ts : list Toast.t) (tk : nat) (hv : bool) (reqs : list Request) :
  trim userInput <> "" ->
  IntentClassificationResult.intent (classify_reply (trim userInput)) <> knowledgeQuestion ->
  handleSendMessage userInput
    (World.mk (AppState.mk msgs cpt vr ar rs il iv pt) cd cs str ts tk (ApiState.mk hv reqs))
  = (if WorkflowStep_eqb (targetStep_of cs (classify_reply (trim userInput))) showSummary
        && WorkflowStep_eqb cs awaitAdvanced
     then DirectSummary
     else SwitchOn (targetStep_of cs (classify_reply (trim userInput))),
     World.mk
       (AppState.mk (msgs ++ [ChatMessage.mk tk user (trim userInput) tk None])
          cpt vr ar rs true "" pt)
       cd cs str ts (S tk) (ApiState.mk hv (reqs ++ [PostIntent (trim userInput)]))).
Proof.
  intros Hnonempty Hintent. unfold handleSendMessage.
  destruct (String.eqb_spec (trim userInput) "") as [Hempty|_]; [contradiction|].
  run_async. rewrite classifyIntent_run. run_async.
  destruct (IntentClassificationResult.intent (classify_reply (trim userInput)));
    try reflexivity; try (now destruct Hintent);
    cbn [Intent_eqb];
    destruct (WorkflowStep_eqb _ showSummary && WorkflowStep_eqb cs awaitAdvanced);
    reflexivity.
Qed.

Lemma taken_fresh (w : World.t) (trimmedInput : string) :
  ids_fresh w -> ids_fresh (taken w trimmedInput).
Proof.
  open_world w. unfold ids_fresh, taken. cbn. intros Hfresh.
  now apply fresh_after_add.
Qed.

(** The handler with its [switch], for a message that is not a knowledge
    question and does not take the direct route to the summary. *)
Lemma handleSendMessage_switch_case `{JsString} `{JsWhitespace} `{Backend}
  (userInput : string) (w : World.t) :
  trim userInput <> "" ->
  IntentClassificationResult.intent (classify_reply (trim userInput)) <> knowledgeQuestion ->
  WorkflowStep_eqb (targetStep_of (World.currentStep w) (classify_reply (trim userInput)))
    showSummary
  && WorkflowStep_eqb (World.currentStep w) awaitAdvanced = false ->
  let targetStep := targetStep_of (World.currentStep w) (classify_reply (trim userInput)) in
  handleSendMessage_switch userInput w
  = match switch_case targetStep (trim userInput) (World.currentStep w)
            (AppState.productType (World.state w)) (World.collectedData w)
            (AppState.validationResult (World.state w))
            (AppState.requirementSchema (World.state w)) with
    | Some body =>
        let (exit, w1) := body (taken w (trim userInput)) in
        match exit with
        | CaseBreak => (Finished (SwitchOn targetStep), lowered w1)
        | CaseThrew _ =>
            (Finished CaughtError,
             lowered (snd (streamAssistantMessage
                             "I'm sorry, there was an error processing your message. Please try again."
                             w1)))
        | CaseUntypedStep s => (UntypedStep s, w1)
        end
    | None => (Unfollowed (SwitchOn targetStep), taken w (trim userInput))
    end.
Proof.
  intros Hnonempty Hintent Hdirect. cbv zeta.
  unfold handleSendMessage_switch.
  destruct w as [[msgs cpt vr ar rs il iv pt] cd cs str ts tk [hv reqs]].
  unfold bind at 1. rewrite handleSendMessage_dispatch by assumption.
  cbn [World.currentStep World.state AppState.productType World.collectedData
       AppState.validationResult AppState.requirementSchema] in *.
  rewrite Hdirect.
  destruct (switch_case _ _ _ _ _ _ _) as [body|]; [|reflexivity].
  unfold bind at 1. unfold taken. cbn.
  destruct (body _) as [[| message | s] w1]; reflexivity.
Qed.

(** *** Every path only adds assistant messages *)

Lemma continues_refl (w : World.t) : ids_fresh w -> continues w w.
Proof.
  intros Hfresh. split; [exact Hfresh|]. split; [reflexivity|].
  exists []. now rewrite app_nil_r.
Qed.

Lemma continues_trans (w w1 w2 : World.t) :
  continues w w1 -> continues w1 w2 -> continues w w2.
Proof.
  intros (_ & Hin1 & r1 & Hm1 & Ha1) (Hfresh & Hin2 & r2 & Hm2 & Ha2).
  split; [exact Hfresh|]. split; [congruence|].
  exists (r1 ++ r2). split.
  - now rewrite Hm2, Hm1, app_assoc.
  - apply Forall_app. now split.
Qed.

Lemma quiet_ret {A : Type} (a : A) : quiet (ret a : Async A).
Proof.
  intros w Hfresh. now apply continues_refl.
Qed.

Lemma quiet_bind {A B : Type} (m : Async A) (k : A -> Async B) :
  quiet m -> (forall a, quiet (k a)) -> quiet (bind m k).
Proof.
  intros Hm Hk w Hfresh. unfold bind. specialize (Hm w Hfresh).
  destruct (m w) as [a w1]. cbn [snd] in Hm.
  eapply continues_trans; [exact Hm|]. apply Hk. exact (proj1 Hm).
Qed.

Lemma quiet_frame {A : Type} (m : Async A) :
  (forall w, AppState.messages (World.state (snd (m w))) = AppState.messages (World.state w)
             /\ AppState.inputValue (World.state (snd (m w)))
                = AppState.inputValue (World.state w)
             /\ World.tick (snd (m w)) = World.tick w) ->
  quiet m.
Proof.
  intros Hframe w Hfresh. destruct (Hframe w) as (Hm & Hi & Ht).
  split; [|split; [exact Hi|]].
  - unfold ids_fresh. now rewrite Hm, Ht.
  - exists []. now rewrite app_nil_r.
Qed.

Lemma quiet_liftApi {A : Type} (m : Api A) : quiet (liftApi m).
Proof.
  apply quiet_frame. intros w. unfold liftApi.
  destruct (m (World.api w)); repeat split.
Qed.

Lemma quiet_setCurrentStep (step : WorkflowStep) : quiet (setCurrentStep step).
Proof. apply quiet_frame. intros w. repeat split. Qed.

Lemma quiet_setCollectedData (data : obj) : quiet (setCollectedData data).
Proof. apply quiet_frame. intros w. repeat split. Qed.

Lemma quiet_toast (t : Toast.t) : quiet (toast t).
Proof. apply quiet_frame. intros w. repeat split. Qed.

Lemma quiet_setState (f : AppState.t -> AppState.t) :
  (forall s, AppState.messages (f s) = AppState.messages s) ->
  (forall s, AppState.inputValue (f s) = AppState.inputValue s) ->
  quiet (setState f).
Proof.
  intros Hm Hi. apply quiet_frame. intros w. cbn. now rewrite Hm, Hi.
Qed.

Lemma quiet_streamAssistantMessage (fullText : string) :
  quiet (streamAssistantMessage fullText).
Proof.
  intros w Hfresh.
  destruct w as [[msgs cpt vr ar rs il iv pt] cd cs str ts tk ap].
  pose proof Hfresh as Hids. unfold ids_fresh in Hids. cbn in Hids.
  rewrite streamAssistantMessage_run by assumption. cbn [snd].
  split; [|split; [reflexivity|]].
  - unfold ids_fresh. cbn. now apply fresh_after_add.
  - eexists. split; [reflexivity|]. repeat constructor.
Qed.

Create HintDb quiet.
#[local] Hint Resolve quiet_liftApi quiet_setCurrentStep quiet_setCollectedData
  quiet_toast quiet_streamAssistantMessage : quiet.

Ltac quiet_step :=
  match goal with
  | |- quiet (ret _) => apply quiet_ret
  | |- quiet (bind _ _) => apply quiet_bind; [|intros ?]
  | |- quiet (setState _) => apply quiet_setState; intros []; reflexivity
  | |- quiet (match ?x with _ => _ end) => destruct x
  | |- quiet _ => solve [auto with quiet]
  end.

Lemma quiet_performAnalysis `{JsString} `{Backend}
  (productType : string) (collectedData : obj) :
  quiet (performAnalysis productType collectedData).
Proof.
  unfold performAnalysis, performAnalysis_catch. repeat quiet_step.
Qed.

Lemma quiet_missingInfo_catch `{Backend} : quiet missingInfo_catch.
Proof.
  unfold missingInfo_catch. repeat quiet_step.
Qed.

Lemma quiet_switch_case `{JsString} `{JsWhitespace} `{Backend}
  (targetStep : WorkflowStep) (trimmedInput : string) (currentStep : WorkflowStep)
  (productType : string) (collectedData : obj)
  (validationResult : option ValidationResult.t)
  (requirementSchema : option RequirementSchema.t) (body : Async CaseExit) :
  switch_case targetStep trimmedInput currentStep productType collectedData
    validationResult requirementSchema = Some body ->
  quiet body.
Proof.
  pose proof (quiet_performAnalysis productType collectedData) as Hanalysis.
  pose proof quiet_missingInfo_catch as Hcatch.
  assert (Hdefault : quiet (case_default trimmedInput currentStep productType
                              collectedData validationResult requirementSchema)).
  { unfold case_default, setCurrentStep_or_awaitOptional.
    repeat (quiet_step || assumption). }
  unfold switch_case.
  destruct targetStep; intros [= <-]; try exact Hdefault;
    unfold case_greeting, case_showSummary, case_finalAnalysis, case_analysisError,
      await_performAnalysis;
    repeat (quiet_step || assumption).
Qed.

Lemma lowered_continues (w w1 : World.t) :
  continues w w1 -> continues w (lowered w1).
Proof.
  intros Hc. eapply continues_trans; [exact Hc|].
  apply (quiet_setState (with_isLoading false)); try (intros []; reflexivity).
  exact (proj1 Hc).
Qed.

Lemma lowered_isLoading (w : World.t) :
  AppState.isLoading (World.state (lowered w)) = false.
Proof. reflexivity. Qed.



(** *** The cases one by one *)

Ltac open_session w :=
  destruct w as [[msgs cpt vr ar rs il iv pt] cd cs str ts tk [hv reqs]].

(** One reply asked of the sales agent and streamed. *)
Lemma reply_run `{Backend} {A : Type} (step : WorkflowStep) (dataContext : DataContext)
  (userMessage : string) (k : AgentResponse.t -> Async A) (onReject : string -> Async A)
  (w : World.t) :
  ids_fresh w ->
  (agentResponse <- liftApi (generateAgentResponse step dataContext userMessage None) ;;
   match agentResponse with
   | Fulfilled agentResponse =>
       streamAssistantMessage (AgentResponse.content agentResponse) ;; k agentResponse
   | Rejected e => onReject e
   end) w
  = k (agent_reply step dataContext userMessage None)
      (replied w step dataContext userMessage
         (AgentResponse.content (agent_reply step dataContext userMessage None))).
Proof.
  intros Hfresh. open_session w. unfold ids_fresh in Hfresh. cbn in Hfresh.
  run_switch. rewrite generateAgentResponse_run. run_switch.
  rewrite streamAssistantMessage_run by assumption. reflexivity.
Qed.

Lemma case_greeting_run `{Backend} (trimmedInput : string) (w : World.t) :
  ids_fresh w ->
  case_greeting trimmedInput w
  = (CaseBreak,
     at_step initialInput
       (replied w greeting CtxEmpty trimmedInput
          (AgentResponse.content (agent_reply greeting CtxEmpty trimmedInput None)))).
Proof.
  intros Hfresh. unfold case_greeting.
  rewrite (reply_run greeting CtxEmpty trimmedInput
             (fun _ => setCurrentStep initialInput ;; ret CaseBreak)
             (fun e => ret (CaseThrew e)) w Hfresh).
  reflexivity.
Qed.

Lemma await_performAnalysis_run `{JsString} `{Backend}
  (productType : string) (collectedData : obj) (w : World.t) :
  ids_fresh w ->
  await_performAnalysis productType collectedData w
  = (CaseBreak, snd (performAnalysis productType collectedData w)).
Proof.
  intros Hfresh. open_session w. unfold ids_fresh in Hfresh. cbn in Hfresh.
  unfold await_performAnalysis, bind.
  rewrite performAnalysis_run by assumption. reflexivity.
Qed.

(** X20.  A message dispatched on [greeting] always leaves the session at
    [initialInput]: the handler forwards the trimmed text to the sales agent
    with an empty context, streams the answer, and sets the step without
    looking at the [nextStep] the agent suggests. *)
Theorem greeting_case_moves_to_initialInput `{JsString} `{JsWhitespace} `{Backend}
  (userInput : string) (w : World.t) :
  ids_fresh w ->
  trim userInput <> "" ->
  IntentClassificationResult.intent (classify_reply (trim userInput)) <> knowledgeQuestion ->
  targetStep_of (World.currentStep w) (classify_reply (trim userInput)) = greeting ->
  let answer := agent_reply greeting CtxEmpty (trim userInput) None in
  handleSendMessage_switch userInput w
  = (Finished (SwitchOn greeting),
     lowered
       (at_step initialInput
          (replied (taken w (trim userInput)) greeting CtxEmpty (trim userInput)
             (AgentResponse.content answer))))
  /\ World.currentStep (snd (handleSendMessage_switch userInput w)) = initialInput.
Proof.
  intros Hfresh Hnonempty Hintent Htarget. cbv zeta.
  assert (Hrun :
    handleSendMessage_switch userInput w
    = (Finished (SwitchOn greeting),
       lowered
         (at_step initialInput
            (replied (taken w (trim userInput)) greeting CtxEmpty (trim userInput)
               (AgentResponse.content
                  (agent_reply greeting CtxEmpty (trim userInput) None)))))).
  { rewrite handleSendMessage_switch_case; try assumption.
    - rewrite Htarget. cbn [switch_case].
      rewrite case_greeting_run by (now apply taken_fresh). reflexivity.
    - now rewrite Htarget. }
  split; [exact Hrun | now rewrite Hrun].
Qed.

Lemma greeting_case_moves_to_initialInput_witness :
  World.currentStep
    (snd (@handleSendMessage_switch ascii_strings ascii_whitespace analysis_backend
            "Hello there" initial_world))
  = initialInput.
Proof.
  apply (@greeting_case_moves_to_initialInput ascii_strings ascii_whitespace
           analysis_backend "Hello there" initial_world).
  - constructor.
  - discriminate.
  - discriminate.
  - reflexivity.
Defined.

(** X21.  In the [finalAnalysis] case the analysis is run again exactly when
    the input, lowercased and with white space removed, contains ["run"] (the
    other two words of the list, ["rerun"] and ["runagain"], contain it);
    it runs on the product type and the collected data of the session.  Any
    other input gets no answer: only the user's message is added and only
    the intent request is sent. *)
Theorem finalAnalysis_case_reruns_on_run `{JsString} `{JsWhitespace} `{Backend}
  (userInput : string) (w : World.t) :
  ids_fresh w ->
  trim userInput <> "" ->
  IntentClassificationResult.intent (classify_reply (trim userInput)) <> knowledgeQuestion ->
  targetStep_of (World.currentStep w) (classify_reply (trim userInput)) = finalAnalysis ->
  handleSendMessage_switch userInput w
  = (Finished (SwitchOn finalAnalysis),
     if includes "run" (normalizedInput (trim userInput)) then
       lowered (snd (performAnalysis (AppState.productType (World.state w))
                       (World.collectedData w) (taken w (trim userInput))))
     else lowered (taken w (trim userInput))).
Proof.
  intros Hfresh Hnonempty Hintent Htarget.
  rewrite handleSendMessage_switch_case; try assumption; [|now rewrite Htarget].
  rewrite Htarget. cbn [switch_case]. unfold case_finalAnalysis.
  rewrite rerun_words_reduce_to_run.
  destruct (includes "run" (normalizedInput (trim userInput))).
  - rewrite await_performAnalysis_run by (now apply taken_fresh). reflexivity.
  - reflexivity.
Qed.

Lemma finalAnalysis_case_reruns_on_run_witness :
  @handleSendMessage_switch ascii_strings ascii_whitespace analysis_backend
    "Thanks, that is all" analysed_world
  = (Finished (SwitchOn finalAnalysis),
     if includes "run" (@normalizedInput ascii_strings ascii_whitespace
                          (@trim ascii_strings "Thanks, that is all"))
     then
       lowered (snd (@performAnalysis ascii_strings analysis_backend
                       (AppState.productType (World.state analysed_world))
                       (World.collectedData analysed_world)
                       (taken analysed_world (@trim ascii_strings "Thanks, that is all"))))
     else lowered (taken analysed_world (@trim ascii_strings "Thanks, that is all"))).
Proof.
  apply (@finalAnalysis_case_reruns_on_run ascii_strings ascii_whitespace
           analysis_backend "Thanks, that is all" analysed_world).
  - constructor.
  - discriminate.
  - discriminate.
  - reflexivity.
Defined.

(** X22.  In the [analysisError] case the analysis is run again only when
    the whole input, lowercased and with white space removed, is one of
    ["rerun"], ["run"], ["runagain"]; the request then carries the same
    product type and collected data as the analysis that failed.  For any
    other input the agent is asked with the fixed prompt (the user's text is
    not forwarded), its answer is streamed, and the step stays as it was. *)
Theorem analysisError_case_reruns_on_exact_word `{JsString} `{JsWhitespace} `{Backend}
  (userInput : string) (w : World.t) :
  ids_fresh w ->
  trim userInput <> "" ->
  IntentClassificationResult.intent (classify_reply (trim userInput)) <> knowledgeQuestion ->
  targetStep_of (World.currentStep w) (classify_reply (trim userInput)) = analysisError ->
  let productType := AppState.productType (World.state w) in
  let collectedData := World.collectedData w in
  let w' := snd (handleSendMessage_switch userInput w) in
  fst (handleSendMessage_switch userInput w) = Finished (SwitchOn analysisError)
  /\ if array_includes ["rerun"; "run"; "runagain"] (normalizedInput (trim userInput))
     then
       w' = lowered (snd (performAnalysis productType collectedData
                            (taken w (trim userInput))))
       /\ exists followup,
            ApiState.requests (World.api w')
            = ApiState.requests (World.api w)
              ++ [PostIntent (trim userInput);
                  PostAnalyze (normalizeUserInput (fullInputStr productType collectedData));
                  followup]
     else
       w' = lowered
              (replied (taken w (trim userInput)) analysisError CtxEmpty
                 "Please type 'rerun' to try again."
                 (AgentResponse.content
                    (agent_reply analysisError CtxEmpty
                       "Please type 'rerun' to try again." None)))
       /\ World.currentStep w' = World.currentStep w.
Proof.
  intros Hfresh Hnonempty Hintent Htarget. cbv zeta.
  rewrite handleSendMessage_switch_case; try assumption; [|now rewrite Htarget].
  rewrite Htarget. cbn [switch_case]. unfold case_analysisError.
  destruct (array_includes ["rerun"; "run"; "runagain"] (normalizedInput (trim userInput))).
  - rewrite await_performAnalysis_run by (now apply taken_fresh). cbn [fst snd].
    split; [reflexivity|]. split; [reflexivity|].
    open_session w. unfold ids_fresh in Hfresh. cbn in Hfresh.
    unfold taken. run_switch.
    rewrite performAnalysis_run by (now apply fresh_after_add).
    destruct (backend_analyze _); eexists; cbn; rewrite <- app_assoc; reflexivity.
  - rewrite (reply_run analysisError CtxEmpty "Please type 'rerun' to try again."
               (fun _ => ret CaseBreak) (fun e => ret (CaseThrew e)))
      by (now apply taken_fresh).
    cbn [fst snd ret]. split; [reflexivity|]. split; [reflexivity|].
    open_session w. reflexivity.
Qed.

Lemma analysisError_case_reruns_on_exact_word_witness :
  fst (@handleSendMessage_switch ascii_strings ascii_whitespace analysis_backend
         "Re Run" failed_world)
  = Finished (SwitchOn analysisError).
Proof.
  apply (@analysisError_case_reruns_on_exact_word ascii_strings ascii_whitespace
           analysis_backend "Re Run" failed_world).
  - constructor.
  - discriminate.
  - discriminate.
  - reflexivity.
Defined.

Lemma validateRequirements_run `{JsString} `{Backend}
  (userInput : string) (productType : option string) (hv : bool) (reqs : list Request) :
  let product_type :=
    match productType with
    | Some p => if String.eqb p "" then None else Some p
    | None => None
    end in
  let answer := backend_validate (normalizeUserInput userInput) hv product_type in
  validateRequirements userInput productType (ApiState.mk hv reqs)
  = (match answer with
     | Response data => Fulfilled data
     | NetworkError error =>
         Rejected (or_else (AxiosError.response_data_error error) "Validation failed")
     end,
     ApiState.mk (match answer with Response _ => true | NetworkError _ => hv end)
       (reqs ++ [PostValidate (normalizeUserInput userInput) hv product_type])).
Proof.
  cbv zeta. unfold validateRequirements, bind, get_hasValidatedOnce, axios_post,
    set_hasValidatedOnce, ret. cbn.
  destruct (backend_validate _ _ _); reflexivity.
Qed.

Lemma targetStep_awaitMissingInfo (currentStep : WorkflowStep)
  (intentResult : IntentClassificationResult.t) :
  targetStep_of currentStep intentResult = awaitMissingInfo ->
  currentStep = awaitMissingInfo.
Proof.
  unfold targetStep_of.
  destruct (Intent_eqb _ productRequirements); [discriminate|].
  destruct (IntentClassificationResult.nextStep intentResult) as [[]|];
    cbn; intros Heq; try discriminate. exact Heq.
Qed.

(** X23.  In the step [awaitMissingInfo], a bare ["yes"], ["y"] or ["skip"]
    (in any letter case) moves on without validating anything: no
    validation request is sent, the collected data stay as they are, the
    agent is told that the user confirmed, and the step becomes
    [awaitOptional] whatever the agent suggests. *)
Theorem missing_info_confirmation_skips_validation `{JsString} `{JsWhitespace} `{Backend}
  (userInput : string) (w : World.t) :
  ids_fresh w ->
  trim userInput <> "" ->
  IntentClassificationResult.intent (classify_reply (trim userInput)) <> knowledgeQuestion ->
  targetStep_of (World.currentStep w) (classify_reply (trim userInput)) = awaitMissingInfo ->
  shortConfirm (trim userInput) = true ->
  let dataContext :=
    CtxKnowledge (AppState.productType (World.state w)) (World.collectedData w) in
  let prompt := "User confirmed to proceed without providing missing mandatory fields." in
  let w' := snd (handleSendMessage_switch userInput w) in
  handleSendMessage_switch userInput w
  = (Finished (SwitchOn awaitMissingInfo),
     lowered
       (at_step awaitOptional
          (replied (taken w (trim userInput)) confirmAfterMissingInfo dataContext prompt
             (AgentResponse.content
                (agent_reply confirmAfterMissingInfo dataContext prompt None)))))
  /\ World.currentStep w' = awaitOptional
  /\ World.collectedData w' = World.collectedData w
  /\ ApiState.requests (World.api w')
     = ApiState.requests (World.api w)
       ++ [PostIntent (trim userInput);
           PostSalesAgent confirmAfterMissingInfo dataContext prompt None].
Proof.
  intros Hfresh Hnonempty Hintent Htarget Hconfirm. cbv zeta.
  pose proof (targetStep_awaitMissingInfo _ _ Htarget) as Hstep.
  rewrite handleSendMessage_switch_case; try assumption; [|now rewrite Htarget].
  rewrite Htarget. cbn [switch_case]. unfold case_default.
  rewrite Hstep. cbn [WorkflowStep_eqb]. rewrite Hconfirm.
  rewrite (reply_run confirmAfterMissingInfo _ _
             (fun _ => setCurrentStep awaitOptional ;; ret CaseBreak)
             (fun _ => missingInfo_catch))
    by (now apply taken_fresh).
  open_session w. cbn in Hstep. subst cs.
  repeat split. cbn. now rewrite <- app_assoc.
Qed.

Lemma missing_info_confirmation_skips_validation_witness :
  World.currentStep
    (snd (@handleSendMessage_switch ascii_strings ascii_whitespace validating_backend
            " Skip " missing_info_world))
  = awaitOptional.
Proof.
  apply (@missing_info_confirmation_skips_validation ascii_strings ascii_whitespace
           validating_backend " Skip " missing_info_world).
  - constructor.
  - discriminate.
  - discriminate.
  - reflexivity.
  - reflexivity.
Defined.

(** X24.  In the step [awaitMissingInfo], any other answer is validated
    together with what was collected: the validation request carries the
    normalised text of the collected data followed by the answer, the
    product type of the previous validation, and the repeat flag.  When the
    backend answers and a schema is in the session, the collected data become
    the merge of the old data, the requirements the backend extracted and the
    schema, and the validation result is replaced.  When no schema is in the
    session the answer is lost: data, validation result and step stay as they
    were (the user gets the generic error reply) although the backend was
    asked and the repeat flag is raised.  When the validation fails, nothing
    of these changes. *)
Theorem missing_info_answer_merges_data `{JsString} `{JsWhitespace} `{Backend}
  (userInput : string) (w : World.t) :
  ids_fresh w ->
  trim userInput <> "" ->
  IntentClassificationResult.intent (classify_reply (trim userInput)) <> knowledgeQuestion ->
  targetStep_of (World.currentStep w) (classify_reply (trim userInput)) = awaitMissingInfo ->
  shortConfirm (trim userInput) = false ->
  let collectedData := World.collectedData w in
  let combinedInput := composeUserDataString collectedData +++ " " +++ trim userInput in
  let product_type :=
    match AppState.validationResult (World.state w) with
    | Some previous =>
        if String.eqb (ValidationResult.productType previous) "" then None
        else Some (ValidationResult.productType previous)
    | None => None
    end in
  let is_repeat := ApiState.hasValidatedOnce (World.api w) in
  let answer := backend_validate (normalizeUserInput combinedInput) is_repeat product_type in
  let w' := snd (handleSendMessage_switch userInput w) in
  (exists more,
      ApiState.requests (World.api w')
      = ApiState.requests (World.api w)
        ++ PostIntent (trim userInput)
           :: PostValidate (normalizeUserInput combinedInput) is_repeat product_type
           :: more)
  /\ match answer, AppState.requirementSchema (World.state w) with
     | Response newValidation, Some schema =>
         World.collectedData w'
         = mergeRequirementsWithSchema
             (spread collectedData
                (flattenRequirements (ValidationResult.providedRequirements newValidation)))
             schema
         /\ AppState.validationResult (World.state w') = Some newValidation
         /\ ApiState.hasValidatedOnce (World.api w') = true
         /\ (ValidationResult.validationAlert newValidation <> None ->
             World.currentStep w' = awaitMissingInfo)
     | Response _, None =>
         World.collectedData w' = collectedData
         /\ AppState.validationResult (World.state w')
            = AppState.validationResult (World.state w)
         /\ ApiState.hasValidatedOnce (World.api w') = true
         /\ World.currentStep w' = awaitMissingInfo
     | NetworkError _, _ =>
         World.collectedData w' = collectedData
         /\ AppState.validationResult (World.state w')
            = AppState.validationResult (World.state w)
         /\ ApiState.hasValidatedOnce (World.api w') = is_repeat
         /\ World.currentStep w' = awaitMissingInfo
     end.
Proof.
  intros Hfresh Hnonempty Hintent Htarget Hconfirm. cbv zeta.
  pose proof (targetStep_awaitMissingInfo _ _ Htarget) as Hstep.
  remember (snd (handleSendMessage_switch userInput w)) as w' eqn:Hrun.
  rewrite handleSendMessage_switch_case in Hrun; try assumption; [|now rewrite Htarget].
  rewrite Htarget in Hrun. cbn [switch_case] in Hrun. unfold case_default in Hrun.
  rewrite Hstep in Hrun. cbn [WorkflowStep_eqb] in Hrun. rewrite Hconfirm in Hrun.
  open_session w. cbn in Hstep. subst cs.
  unfold ids_fresh in Hfresh. cbn in Hfresh.
  assert (Hfresh1 : Forall (fun msg => ChatMessage.id msg < S tk)
                      (msgs ++ [ChatMessage.mk tk user (trim userInput) tk None])).
  { now apply fresh_after_add. }
  unfold taken, missingInfo_catch, updatedData in Hrun.
  unfold bind at 1 in Hrun. unfold liftApi at 1 in Hrun.
  cbn [World.api World.state World.collectedData World.currentStep World.isStreaming
       World.toasts World.tick AppState.validationResult AppState.requirementSchema
       AppState.productType ApiState.hasValidatedOnce ApiState.requests] in *.
  rewrite validateRequirements_run in Hrun. cbv zeta in Hrun.
  replace (match option_map ValidationResult.productType vr with
           | Some p => if String.eqb p "" then None else Some p
           | None => None
           end)
    with (match vr with
          | Some previous =>
              if String.eqb (ValidationResult.productType previous) "" then None
              else Some (ValidationResult.productType previous)
          | None => None
          end) in Hrun by (destruct vr; reflexivity).
  destruct (backend_validate _ _ _) as [newValidation|error].
  - destruct rs as [schema|].
    + destruct (ValidationResult.validationAlert newValidation) as [message|] eqn:Halert.
      * revert Hrun. run_switch. rewrite streamAssistantMessage_run by assumption.
        intros ->. cbn.
        split; [eexists; rewrite <- app_assoc; reflexivity|].
        repeat split.
      * revert Hrun. run_switch. rewrite generateAgentResponse_run. run_switch.
        rewrite streamAssistantMessage_run by assumption.
        unfold setCurrentStep_or_awaitOptional.
        destruct (AgentResponse.nextStep _) as [| |next]; cbn.
        1,2: intros ->; cbn; split; [eexists; rewrite <- !app_assoc; reflexivity|];
             repeat split; intros Hne; now destruct Hne.
        destruct (String.eqb next ""); [|destruct (step_of_string next)]; cbn;
          intros ->; cbn;
          (split; [eexists; rewrite <- !app_assoc; reflexivity|]);
          repeat split; intros Hne; now destruct Hne.
    + revert Hrun. run_switch. rewrite generateAgentResponse_run. run_switch.
      rewrite streamAssistantMessage_run by assumption. intros ->. cbn.
      split; [eexists; rewrite <- !app_assoc; reflexivity|]. repeat split.
  - revert Hrun. run_switch. rewrite generateAgentResponse_run. run_switch.
    rewrite streamAssistantMessage_run by assumption. intros ->. cbn.
    split; [eexists; rewrite <- !app_assoc; reflexivity|].
    destruct rs; repeat split.
Qed.

Lemma missing_info_answer_merges_data_witness :
  World.collectedData
    (snd (@handleSendMessage_switch ascii_strings ascii_whitespace validating_backend
            "4-20mA output" missing_info_world))
  = [("pressureRange", VStr "0-100 bar"); ("outputSignal", VStr "4-20ma");
     ("accuracy", VStr "")].
Proof.
  pose proof (@missing_info_answer_merges_data ascii_strings ascii_whitespace
                validating_backend "4-20mA output" missing_info_world) as Hthm.
  assert (Hfresh : ids_fresh missing_info_world) by constructor.
  assert (Hnonempty : @trim ascii_strings "4-20mA output" <> "") by discriminate.
  assert (Hintent :
    IntentClassificationResult.intent
      (@classify_reply validating_backend (@trim ascii_strings "4-20mA output"))
    <> knowledgeQuestion) by discriminate.
  specialize (Hthm Hfresh Hnonempty Hintent eq_refl eq_refl).
  cbv zeta in Hthm. destruct Hthm as [_ Hdata].
  exact (proj1 Hdata).
Defined.
